(** * seesea: training and test scripts of the image regression models

    A shallow embedding of [seesea/model/multihead/train.py] and
    [seesea/model/test_beaufort.py].

    The two scripts are glue around library objects (the trainer, the
    streaming datasets, the metric, the argument parser).  What the scripts
    themselves compute is embedded as executable functions: dictionaries are
    finite maps, raised exceptions are the left summand of a result, and
    calls into the libraries are recorded, in program order, as events of a
    trace; a library call may raise, which the environment decides. *)

From Stdlib Require Import Ascii String QArith Qabs Qround Qcanon Qcabs.
From stdpp Require Import gmap strings list fin_maps numbers.

Set Warnings "-register-all".
Set Default Proof Using "Type".

Local Open Scope string_scope.
Local Open Scope list_scope.

(** ** Python values and exceptions *)

Inductive exn :=
| KeyError (key : string)
| IndexError
| TypeError
| ValueError
| ZeroDivisionError
| LibraryError.

(** A computation that returns a value or raises. *)
Definition result (A : Type) : Type := exn + A.

Definition Ok {A} (a : A) : result A := inr a.
Definition Raise {A} (e : exn) : result A := inl e.

#[global] Instance result_ret : MRet result := fun A a => inr a.
#[global] Instance result_bind : MBind result :=
  fun A B f m => match m with inl e => inl e | inr a => f a end.

(** [d[key]] on a dictionary with string keys. *)
Definition getitem {V} (d : gmap string V) (key : string) : result V :=
  match d !! key with
  | Some v => Ok v
  | None => Raise (KeyError key)
  end.

(** [posixpath.join(a, b)]. *)
Definition starts_with_slash (s : string) : bool :=
  match s with
  | String c _ => bool_decide (c = "/"%char)
  | EmptyString => false
  end.

Fixpoint ends_with_slash (s : string) : bool :=
  match s with
  | EmptyString => false
  | String c EmptyString => bool_decide (c = "/"%char)
  | String _ rest => ends_with_slash rest
  end.

Definition os_path_join (a b : string) : string :=
  if starts_with_slash b then b
  else if bool_decide (a = "") || ends_with_slash a then a +:+ b
  else a +:+ "/" +:+ b.

(** [os.pardir] *)
Definition os_pardir : string := "..".

(** [sep.join(items)] *)
Fixpoint str_join (sep : string) (items : list string) : string :=
  match items with
  | [] => ""
  | [x] => x
  | x :: rest => x +:+ sep +:+ str_join sep rest
  end.

(** The newline character, and the one-character string holding it. *)
Definition newline : string := String (Ascii.ascii_of_nat 10) EmptyString.

(** ** Arrays and the metric

    The numbers of an array are rationals.  The metric comes twice: computed
    exactly, and as the floating-point arithmetic of the metric library
    computes it. *)

(** A two-dimensional array: its shape and its rows. *)
Record ndarray := {
  nrows : nat;
  ncols : nat;
  rows : list (list Qc);
}.

Definition has_shape (a : ndarray) (n k : nat) : Prop :=
  nrows a = n ∧ ncols a = k ∧ length (rows a) = n ∧
  Forall (fun r => length r = k) (rows a).

(** [a[:, i]]: column [i]; an index past the last column raises. *)
Definition column_values (a : ndarray) (i : nat) : list Qc :=
  map (fun r => default 0%Qc (r !! i)) (rows a).

Definition column (a : ndarray) (i : nat) : result (list Qc) :=
  if bool_decide (i < ncols a)%nat
  then Ok (column_values a i)
  else Raise IndexError.

(** [a.flatten()]: the elements in row-major order. *)
Definition flatten (a : ndarray) : list Qc := concat (rows a).

(** A metric object: [metric.compute(predictions=p, references=r)] returns
    a dictionary of scores or raises. *)
Definition Metric : Type := list Qc → list Qc → result (gmap string Qc).

Definition Qc_of_Z (z : Z) : Qc := Q2Qc (inject_Z z).
Definition Qc_of_nat (n : nat) : Qc := Qc_of_Z (Z.of_nat n).

Definition Qc_sum (l : list Qc) : Qc := foldr Qcplus 0%Qc l.

Definition abs_errors (p r : list Qc) : list Qc :=
  zip_with (fun x y => Qcabs (x - y)) p r.

(** The mean absolute error of predictions [p] against references [r]. *)
Definition mean_absolute_error (p r : list Qc) : Qc :=
  (Qc_sum (abs_errors p r) / Qc_of_nat (length p))%Qc.

(** The metric loaded by [evaluate.load("mae")], computing exactly: one
    score, under the key ["mae"]; inputs of different lengths and empty inputs
    are refused. *)
Definition mae_metric : Metric := fun p r =>
  if bool_decide (length p = length r) && bool_decide (0 < length p)%nat
  then Ok {[ "mae" := mean_absolute_error p r ]}
  else Raise ValueError.

(** *** The metric in floating point

    The metric library computes in IEEE binary64.  A binary64 number is a
    rational, and an operation returns the exact result rounded to the
    nearest binary64 number, a tie going to the even significand.  The range
    of the exponent is not modelled: no overflow, no subnormal numbers. *)

(** The nearest integer, a tie going to the even one. *)
Definition round_half_even (q : Q) : Z :=
  let f := Qfloor q in
  match (2 * (q - inject_Z f) ?= 1)%Q with
  | Lt => f
  | Gt => (f + 1)%Z
  | Eq => if Z.even f then f else (f + 1)%Z
  end.

(** [q * 2 ^ e], for an exponent of either sign. *)
Definition Qshift (q : Q) (e : Z) : Q :=
  if (0 <=? e)%Z then (q * inject_Z (2 ^ e))%Q
  else (q / inject_Z (2 ^ (- e)))%Q.

(** The exponent of the last place of a positive number [q] written with 53
    binary digits: the [e] with [2 ^ 52 <= q / 2 ^ e < 2 ^ 53]. *)
Definition last_place (q : Q) : Z :=
  let l := (Z.log2 (Qnum q) - Z.log2 (Zpos (Qden q)))%Z in
  if Qle_bool 1 (Qshift q (- l)) then (l - 52)%Z else (l - 53)%Z.

Definition round_binary64 (x : Qc) : Qc :=
  let q := Qabs x in
  if Qeq_bool q 0 then 0%Qc
  else
    let e := last_place q in
    let r := Qshift (inject_Z (round_half_even (Qshift q (- e)))) e in
    Q2Qc (if Qle_bool 0 x then r else - r).

(** The mean absolute error as binary64 arithmetic computes it: every
    difference, every partial sum (the errors are added from left to right)
    and the final quotient are rounded. *)
Definition abs_errors_binary64 (p r : list Qc) : list Qc :=
  zip_with (fun x y => Qcabs (round_binary64 (x - y))) p r.

Definition sum_binary64 (l : list Qc) : Qc :=
  foldl (fun acc x => round_binary64 (acc + x)) 0%Qc l.

Definition mean_absolute_error_binary64 (p r : list Qc) : Qc :=
  round_binary64
    (sum_binary64 (abs_errors_binary64 p r) / Qc_of_nat (length p)).

Definition mae_metric_binary64 : Metric := fun p r =>
  if bool_decide (length p = length r) && bool_decide (0 < length p)%nat
  then Ok {[ "mae" := mean_absolute_error_binary64 p r ]}
  else Raise ValueError.

(** ** Values held by a batch of samples *)

Inductive pyval :=
| PNone
| PInt (z : Z)
| PFloat (q : Qc)
| PStr (s : string)
| PList (items : list pyval)
| PDict (d : gmap string pyval)
| PObject (id : nat).  (* a library object: an image, a tensor *)

(** [obj[key]] for a string key: only dictionaries can be indexed so. *)
Definition py_getitem (obj : pyval) (key : string) : result pyval :=
  match obj with
  | PDict d => getitem d key
  | _ => Raise TypeError
  end.

(** [for x in v]: the items a value yields when iterated.  A dictionary
    yields its keys, here in the order of the map (a Python dictionary yields
    them in the order of their insertion, which a map does not keep). *)
Definition py_iter (v : pyval) : result (list pyval) :=
  match v with
  | PList items => Ok items
  | PStr s => Ok (map (fun c => PStr (String c EmptyString)) (list_ascii_of_string s))
  | PDict d => Ok (map (fun kv => PStr kv.1) (map_to_list d))
  | _ => Raise TypeError
  end.

(** A list comprehension [[f x for x in l]] whose body may raise. *)
Fixpoint list_comp {A B} (f : A → result B) (l : list A) : result (list B) :=
  match l with
  | [] => Ok []
  | x :: rest => y ← f x; ys ← list_comp f rest; Ok (y :: ys)
  end.

(** A callable on values. *)
Definition Callable : Type := pyval → result pyval.

(** ** The argument parser

    The scripts declare their options with [argparse].  A command line is
    taken after the parser has split it: an option string it resolved,
    followed by the argument strings that belong to it, or a stray
    positional argument. *)

Module Argparse.

(** A float, held by the text that denotes it: the scripts only pass
    floats on. *)
Record pyfloat := Float { float_text : string }.

Inductive argtype := type_unset | type_str | type_int | type_float.

(** [nargs=None] (one argument) or [nargs="+"] (one or more). *)
Inductive nargs := nargs_unset | nargs_plus.

Inductive argvalue :=
| ANone
| AStr (s : string)
| AInt (z : Z)
| AFloat (f : pyfloat)
| AList (items : list argvalue).

(** What one [add_argument] call declares. *)
Record Action := {
  arg_flag : string;
  arg_type : argtype;
  arg_nargs : nargs;
  arg_default : argvalue;
  arg_required : bool;
}.

(** A parser: the declared actions in order, and the mutually exclusive
    groups, each the list of the flags added through it. *)
Record ArgumentParser := {
  description : string;
  actions : list Action;
  mutex_groups : list (list string);
}.

Definition new_parser (descr : string) : ArgumentParser :=
  {| description := descr; actions := []; mutex_groups := [] |}.

Definition add_argument (p : ArgumentParser) (flag : string) (ty : argtype)
    (n : nargs) (dflt : argvalue) (req : bool) : ArgumentParser :=
  {| description := description p;
     actions := actions p ++
       [ {| arg_flag := flag; arg_type := ty; arg_nargs := n;
            arg_default := dflt; arg_required := req |} ];
     mutex_groups := mutex_groups p |}.

(** [parser.add_mutually_exclusive_group()]: the parser with a new, empty
    group, and the index of that group. *)
Definition add_mutually_exclusive_group (p : ArgumentParser)
    : ArgumentParser * nat :=
  ({| description := description p; actions := actions p;
      mutex_groups := mutex_groups p ++ [[]] |},
   length (mutex_groups p)).

(** [group.add_argument(...)]: the action is added to the parser and to
    the group. *)
Definition group_add_argument (p : ArgumentParser) (group : nat)
    (flag : string) (ty : argtype) (n : nargs) (dflt : argvalue) (req : bool)
    : ArgumentParser :=
  let p' := add_argument p flag ty n dflt req in
  {| description := description p'; actions := actions p';
     mutex_groups := alter (fun g => g ++ [flag]) group (mutex_groups p') |}.

(** The attribute name of a flag: leading dashes dropped, inner dashes
    turned into underscores. *)
Fixpoint strip_dashes (s : string) : string :=
  match s with
  | String c rest => if bool_decide (c = "-"%char) then strip_dashes rest else s
  | EmptyString => s
  end.

Fixpoint dashes_to_underscores (s : string) : string :=
  match s with
  | String c rest =>
      String (if bool_decide (c = "-"%char) then "_"%char else c)
             (dashes_to_underscores rest)
  | EmptyString => EmptyString
  end.

Definition dest (flag : string) : string :=
  dashes_to_underscores (strip_dashes flag).

Inductive item :=
| Opt (flag : string) (args : list string)
| Positional (arg : string).

Inductive usage_error :=
| expected_one_argument (flag : string)
| expected_at_least_one_argument (flag : string)
| invalid_value (flag : string) (arg : string)
| not_allowed_with (flag other : string)
| arguments_required (flags : list string)
| unrecognized_arguments (extras : list string).

Inductive outcome :=
| Parsed (namespace : gmap string argvalue)
| UsageError (e : usage_error)   (* message printed, exit status 2 *)
| HelpExit.                      (* help printed, exit status 0 *)

Definition find_action (p : ArgumentParser) (flag : string) : option Action :=
  find (fun a => bool_decide (arg_flag a = flag)) (actions p).

(** The flags that may not be combined with [flag]: the other members of
    every group [flag] belongs to. *)
Definition conflicts (p : ArgumentParser) (flag : string) : list string :=
  flat_map
    (fun g => if bool_decide (flag ∈ g)
              then filter (fun other => other ≠ flag) g else [])
    (mutex_groups p).

(** The namespace before any option is read: every attribute at its
    default. *)
Definition defaults (p : ArgumentParser) : gmap string argvalue :=
  foldl (fun ns a => <[ dest (arg_flag a) := arg_default a ]> ns) ∅ (actions p).

Record state := {
  namespace : gmap string argvalue;
  seen : list string;       (* flags of the actions taken so far *)
  extras : list string;     (* strings no action consumed *)
}.

Section Parsing.

(** [int(s)] and [float(s)]; [None] when the conversion raises. *)
Variable int_of_str : string → option Z.
Variable float_of_str : string → option pyfloat.

Definition convert (ty : argtype) (s : string) : option argvalue :=
  match ty with
  | type_unset | type_str => Some (AStr s)
  | type_int => AInt <$> int_of_str s
  | type_float => AFloat <$> float_of_str s
  end.

Fixpoint convert_all (ty : argtype) (l : list string) : option (list argvalue) :=
  match l with
  | [] => Some []
  | s :: rest =>
      match convert ty s, convert_all ty rest with
      | Some v, Some vs => Some (v :: vs)
      | _, _ => None
      end
  end.

Definition first_invalid (ty : argtype) (l : list string) : string :=
  default "" (head (filter (fun s => convert ty s = None) l)).

(** The value an action stores for the argument strings it was given, and
    the strings it leaves over. *)
Definition get_values (a : Action) (args : list string)
    : usage_error + (argvalue * list string) :=
  match arg_nargs a, args with
  | nargs_unset, [] => inl (expected_one_argument (arg_flag a))
  | nargs_unset, s :: leftover =>
      match convert (arg_type a) s with
      | Some v => inr (v, leftover)
      | None => inl (invalid_value (arg_flag a) s)
      end
  | nargs_plus, [] => inl (expected_at_least_one_argument (arg_flag a))
  | nargs_plus, _ =>
      match convert_all (arg_type a) args with
      | Some vs => inr (AList vs, [])
      | None => inl (invalid_value (arg_flag a) (first_invalid (arg_type a) args))
      end
  end.

Definition is_help (flag : string) : bool :=
  bool_decide (flag = "-h") || bool_decide (flag = "--help").

(** One step of the parse loop: the outcome when the parser stops at this
    item, or the state to go on with.  A value read from the command line
    is never the very object held as default, so every action taken counts
    as present for the conflict check.  [-h] and [--help] are the help
    action every parser gets. *)
Definition take_item (p : ArgumentParser) (st : state) (it : item)
    : outcome + state :=
  match it with
  | Positional arg =>
      inr {| namespace := namespace st; seen := seen st;
             extras := extras st ++ [arg] |}
  | Opt flag args =>
      if is_help flag then inl HelpExit
      else match find_action p flag with
      | None =>
          inr {| namespace := namespace st; seen := seen st;
                 extras := extras st ++ flag :: args |}
      | Some a =>
          match get_values a args with
          | inl e => inl (UsageError e)
          | inr (v, leftover) =>
              match find (fun other => bool_decide (other ∈ seen st))
                         (conflicts p flag) with
              | Some other => inl (UsageError (not_allowed_with flag other))
              | None =>
                  inr {| namespace := <[ dest flag := v ]> (namespace st);
                         seen := flag :: seen st;
                         extras := extras st ++ leftover |}
              end
          end
      end
  end.

(** After the loop: required options must have been seen, and nothing may
    be left over. *)
Definition finish (p : ArgumentParser) (st : state) : outcome :=
  let missing :=
    filter (fun flag => flag ∉ seen st)
           (map arg_flag (filter (fun a => arg_required a = true) (actions p))) in
  match missing with
  | _ :: _ => UsageError (arguments_required missing)
  | [] =>
      match extras st with
      | _ :: _ => UsageError (unrecognized_arguments (extras st))
      | [] => Parsed (namespace st)
      end
  end.

Fixpoint parse_loop (p : ArgumentParser) (st : state) (items : list item)
    : outcome :=
  match items with
  | [] => finish p st
  | it :: rest =>
      match take_item p st it with
      | inl out => out
      | inr st' => parse_loop p st' rest
      end
  end.

Definition parse_args (p : ArgumentParser) (items : list item) : outcome :=
  parse_loop p {| namespace := defaults p; seen := []; extras := [] |} items.

End Parsing.

(** The flags a command line supplies. *)
Definition supplies (flag : string) (items : list item) : Prop :=
  ∃ args, Opt flag args ∈ items.


End Argparse.

(** ** Library objects and library calls

    The objects the scripts obtain from the libraries are kept symbolic:
    each is the expression that made it. *)

Import Argparse.

Inductive device := cuda | mps | cpu.

Inductive ImageProcessor :=
| AutoImageProcessor_from_pretrained (src : string).

Inductive Model :=
| MultiHeadModel (base_model : string) (num_outputs : nat)
| torch_load_model (path : string)
| model_to (m : Model) (d : device).

Inductive Augmentation :=
| RandomRotation (degrees : pyfloat) (interpolation : string).

(** The functions mapped over a dataset. *)
Inductive MapFn :=
| partial_augment_batch (augmentation : Augmentation)
| partial_preprocess_batch (transform : ImageProcessor)
    (label_keys : option (list string))
| partial_preprocess_batch_beaufort (transform : ImageProcessor).

Inductive DatasetOp :=
| ds_take (n : Z)
| ds_shuffle
| ds_map (f : MapFn) (batched : bool)
| ds_select_columns (columns : list string).

(** A streaming dataset: a split of the data directory and the operations
    chained on it, in the order they were applied. *)
Record Dataset := {
  ds_data_dir : string;
  ds_split : string;
  ds_ops : list DatasetOp;
}.

Definition ds_apply (d : Dataset) (op : DatasetOp) : Dataset :=
  {| ds_data_dir := ds_data_dir d; ds_split := ds_split d;
     ds_ops := ds_ops d ++ [op] |}.

(** The keyword arguments of [TrainingArguments(...)]. *)
Record TrainingArgumentsInit := {
  ta_output_dir : string;
  ta_eval_strategy : string;
  ta_save_strategy : string;
  ta_load_best_model_at_end : bool;
  ta_save_total_limit : Z;
  ta_learning_rate : pyfloat;
  ta_lr_scheduler_type : string;
  ta_warmup_ratio : pyfloat;
  ta_per_device_train_batch_size : Z;
  ta_per_device_eval_batch_size : Z;
  ta_logging_strategy : string;
  ta_logging_steps : Z;
  ta_max_steps : Z;
}.

Inductive TrainingArgsOrigin :=
| TrainingArguments (init : TrainingArgumentsInit)
| torch_load_args (path : string).

(** A training-arguments object: where it came from, and the value its
    [ignore_data_skip] attribute was assigned afterwards, if any. *)
Record TrainingArgs := {
  ta_origin : TrainingArgsOrigin;
  ignore_data_skip : option bool;
}.

(** The keyword arguments of [Trainer(...)]. *)
Record TrainerInit := {
  trainer_model : Model;
  trainer_args : TrainingArgs;
  train_dataset : Dataset;
  eval_dataset : Dataset;
  compute_metrics_metric : string;
  compute_metrics_output_names : option (list string);
}.

(** A tensor of a batch, by the number of the batch and the name of its
    column, and the device it was moved to. *)
Record Tensor := {
  tensor_batch : nat;
  tensor_column : string;
  tensor_device : option device;  (* [None]: where the collator left it *)
}.

Inductive logarg :=
| LStr (s : string)
| LInt (z : Z)
| LFloat (f : pyfloat)
| LNames (names : option (list string))
| LObject (what : string).

(** The calls into the libraries and the operating system. *)
Inductive Call :=
| logger_info (format : string) (args : list logarg)
| os_makedirs (path : string) (exist_ok : bool)
| os_path_exists (path : string)
| json_load (path : string)
| image_processor_from_pretrained (src : string)
| image_processor_save_pretrained (ip : ImageProcessor) (dir : string)
| base_model_from_pretrained (name : string) (ignore_mismatched_sizes : bool)
| new_MultiHeadModel (base_model : string) (num_outputs : nat)
| new_TrainingArguments (init : TrainingArgumentsInit)
| torch_load (path : string)
| new_RandomRotation (degrees : pyfloat)
| load_dataset (kind data_dir : string) (split : option string)
| new_DefaultDataCollator
| evaluate_load (name : string)
| new_Trainer (init : TrainerInit)
| trainer_train (resume_from_checkpoint : option string)
| trainer_predict (test_dataset : Dataset)
| torch_save (m : Model) (path : string)
| open_for_writing (path : string)
| file_write (path : string) (content : string)
| new_DataLoader (dataset : Dataset) (batch_size : Z)
| cuda_is_available
| mps_is_available
| call_model_to (m : Model) (d : device)
| model_eval (m : Model)
| tensor_to (t : Tensor) (d : device)
| model_forward (m : Model) (batch : list (string * Tensor))
| torch_argmax (batch : nat)
| accuracy_add_batch (batch : nat) (references : Tensor)
| accuracy_compute.

(** What a run finds around it. *)
Record World := {
  (** [datetime.now(tz=utc).strftime("%Y_%m_%d_%H%M")] *)
  world_timestamp : string;
  (** [os.path.exists] *)
  world_exists : string → bool;
  (** the object [json.load] reads from a file: the sizes by split name, a
      JSON object of integers (a file of another content is not modelled) *)
  world_json : string → gmap string Z;
  (** the device queries *)
  world_cuda : bool;
  world_mps : bool;
  (** the batches the data loader yields: for each, its columns *)
  world_batches : list (list string);
}.

(** The surroundings, and whether a call raises, given the calls made
    before it (most recent first). *)
Record Env := {
  env_world : World;
  env_raises : list Call → Call → bool;
}.

(** The same surroundings, with no call raising. *)
Definition quiet (env : Env) : Env :=
  {| env_world := env_world env; env_raises := fun _ _ => false |}.

(** A script computation: it reads the environment, appends the calls it
    makes to the trace (most recent first) and returns or raises. *)
Definition M (A : Type) : Type := Env → list Call → list Call * result A.

#[global] Instance M_ret : MRet M := fun A a _ tr => (tr, Ok a).
#[global] Instance M_bind : MBind M := fun A B f m env tr =>
  match m env tr with
  | (tr', inl e) => (tr', inl e)
  | (tr', inr a) => f a env tr'
  end.

(** A call that may raise; what it returns is read off the world. *)
Definition call_for {A} (c : Call) (answer : World → A) : M A := fun env tr =>
  (c :: tr,
   if env_raises env tr c then Raise LibraryError
   else Ok (answer (env_world env))).

Definition call (c : Call) : M unit := call_for c (fun _ => tt).

(** A call that does not raise: logging, and the queries below. *)
Definition record {A} (c : Call) (answer : World → A) : M A := fun env tr =>
  (c :: tr, Ok (answer (env_world env))).

(** A value read off the world without a call of its own. *)
Definition read {A} (answer : World → A) : M A := fun env tr =>
  (tr, Ok (answer (env_world env))).

Definition lift {A} (r : result A) : M A := fun _ tr => (tr, r).

Definition log_info (format : string) (args : list logarg) : M unit :=
  record (logger_info format args) (fun _ => tt).

Definition path_exists (path : string) : M bool :=
  record (os_path_exists path) (fun w => world_exists w path).

Definition query_cuda : M bool := record cuda_is_available world_cuda.

Definition query_mps : M bool := record mps_is_available world_mps.

(** The trace of a run in program order, and how the run ended. *)
Definition run {A} (m : M A) (env : Env) : list Call * result A :=
  let '(tr, r) := m env [] in (rev tr, r).

(** [if s:] on an optional string: [None] and the empty string are false. *)
Definition truthy (s : option string) : bool :=
  match s with
  | None => false
  | Some s => negb (bool_decide (s = ""))
  end.

(** [len(names)] and [sep.join(names)] on a list that may be [None]. *)
Definition py_len (names : option (list string)) : result nat :=
  match names with
  | Some l => Ok (length l)
  | None => Raise TypeError
  end.

Definition py_join (sep : string) (names : option (list string)) : result string :=
  match names with
  | Some l => Ok (str_join sep l)
  | None => Raise TypeError
  end.

(** Attributes of a parsed namespace, by the type the script expects. *)
Definition attr_str (ns : gmap string argvalue) (name : string) : option string :=
  match ns !! name with Some (AStr s) => Some s | _ => None end.

Definition attr_int (ns : gmap string argvalue) (name : string) : option Z :=
  match ns !! name with Some (AInt z) => Some z | _ => None end.

Definition attr_float (ns : gmap string argvalue) (name : string) : option pyfloat :=
  match ns !! name with Some (AFloat f) => Some f | _ => None end.

Definition attr_opt_str (ns : gmap string argvalue) (name : string)
    : option (option string) :=
  match ns !! name with
  | Some (AStr s) => Some (Some s)
  | Some ANone => Some None
  | _ => None
  end.

Definition attr_opt_float (ns : gmap string argvalue) (name : string)
    : option (option pyfloat) :=
  match ns !! name with
  | Some (AFloat f) => Some (Some f)
  | Some ANone => Some None
  | _ => None
  end.

Definition str_items (l : list argvalue) : option (list string) :=
  foldr (fun v acc =>
           match v, acc with
           | AStr s, Some rest => Some (s :: rest)
           | _, _ => None
           end) (Some []) l.

Definition attr_opt_strs (ns : gmap string argvalue) (name : string)
    : option (option (list string)) :=
  match ns !! name with
  | Some (AList l) => Some <$> str_items l
  | Some ANone => Some None
  | _ => None
  end.

(** [a // b] on integers. *)
Definition floordiv (a b : Z) : result Z :=
  if bool_decide (b = 0%Z) then Raise ZeroDivisionError else Ok (a `div` b)%Z.

Module Train.

(** ** train.py: [augment_batch] and [preprocess_batch]

    A batch [samples] is a dictionary from column names to values; both
    functions assign into it and return it. *)

Definition augment_batch (augmentation : Callable) (samples : gmap string pyval)
    : result (gmap string pyval) :=
  jpgs ← getitem samples "jpg";
  items ← py_iter jpgs;
  augmented ← list_comp augmentation items;
  Ok (<[ "jpg" := PList augmented ]> samples).

Definition preprocess_batch (transform : Callable) (label_keys : list string)
    (samples : gmap string pyval) : result (gmap string pyval) :=
  jpgs ← getitem samples "jpg";
  features ← transform jpgs;
  pixel_values ← py_getitem features "pixel_values";
  let samples := <[ "pixel_values" := pixel_values ]> samples in
  json ← getitem samples "json";
  objs ← py_iter json;
  labels ← list_comp
    (fun obj => row ← list_comp (fun key => py_getitem obj key) label_keys;
                Ok (PList row))
    objs;
  Ok (<[ "labels" := PList labels ]> samples).

(** ** train.py: [compute_metrics] *)

(** The loop [for i, name in enumerate(output_names)], started at index [i]
    with the dictionary [results] built so far. *)
Fixpoint compute_metrics_loop (metric : Metric) (predictions labels : ndarray)
    (i : nat) (names : list string) (results : gmap string Qc)
    : result (gmap string Qc) :=
  match names with
  | [] => Ok results
  | name :: rest =>
      p ← column predictions i;
      r ← column labels i;
      scores ← metric p r;
      v ← getitem scores "mae";
      compute_metrics_loop metric predictions labels (S i) rest
        (<[ "mae_" +:+ name := v ]> results)
  end.

Definition compute_metrics (metric : Metric) (output_names : list string)
    (eval_pred : ndarray * ndarray) : result (gmap string Qc) :=
  let '(logits, labels) := eval_pred in
  let predictions := logits in
  results ← compute_metrics_loop metric predictions labels 0 output_names ∅;
  scores ← metric (flatten predictions) (flatten labels);
  v ← getitem scores "mae";
  Ok (<[ "mae" := v ]> results).

(** ** train.py: [get_args_parser] *)

Definition get_args_parser : ArgumentParser :=
  let parser := new_parser "Train the SeeSea multiheaded regression model" in
  let parser := add_argument parser "--input" type_unset nargs_unset (AStr "data") false in
  let parser := add_argument parser "--rotation" type_float nargs_unset ANone false in
  let parser := add_argument parser "--log" type_str nargs_unset (AStr "INFO") false in
  let parser := add_argument parser "--log-file" type_str nargs_unset ANone false in
  let '(parser, group) := add_mutually_exclusive_group parser in
  let parser := group_add_argument parser group "--checkpoint" type_unset nargs_unset ANone false in
  let parser := group_add_argument parser group "--model" type_str nargs_unset (AStr "resnet18") false in
  let parser := add_argument parser "--output" type_unset nargs_unset (AStr "data/train") false in
  let parser := add_argument parser "--epochs" type_int nargs_unset (AInt 30) false in
  let parser := add_argument parser "--batch-size" type_int nargs_unset (AInt 32) false in
  let parser := add_argument parser "--learning-rate" type_float nargs_unset
                  (AFloat (Float "0.001")) false in
  let parser := add_argument parser "--warmup-ratio" type_float nargs_unset
                  (AFloat (Float "0.1")) false in
  let parser := add_argument parser "--output-names" type_str nargs_plus ANone false in
  parser.

(** The parsed arguments, as [main] reads them. *)
Record Args := {
  input : string;
  rotation : option pyfloat;
  log : string;
  log_file : option string;
  checkpoint : option string;
  model : string;
  output : string;
  epochs : Z;
  batch_size : Z;
  learning_rate : pyfloat;
  warmup_ratio : pyfloat;
  output_names : option (list string);
}.

Definition args_of_namespace (ns : gmap string argvalue) : option Args :=
  a_input ← attr_str ns "input";
  a_rotation ← attr_opt_float ns "rotation";
  a_log ← attr_str ns "log";
  a_log_file ← attr_opt_str ns "log_file";
  a_checkpoint ← attr_opt_str ns "checkpoint";
  a_model ← attr_str ns "model";
  a_output ← attr_str ns "output";
  a_epochs ← attr_int ns "epochs";
  a_batch_size ← attr_int ns "batch_size";
  a_learning_rate ← attr_float ns "learning_rate";
  a_warmup_ratio ← attr_float ns "warmup_ratio";
  a_output_names ← attr_opt_strs ns "output_names";
  Some {| input := a_input; rotation := a_rotation; log := a_log;
          log_file := a_log_file; checkpoint := a_checkpoint;
          model := a_model; output := a_output; epochs := a_epochs;
          batch_size := a_batch_size; learning_rate := a_learning_rate;
          warmup_ratio := a_warmup_ratio; output_names := a_output_names |}.

(** ** train.py: [main] *)

(** [full_dataset[split]] of the dataset loaded from [data_dir]. *)
Definition full_dataset (data_dir split : string) : Dataset :=
  {| ds_data_dir := data_dir; ds_split := split; ds_ops := [] |}.

Definition main (args : Args) : M unit :=
  log_info "Training the model to classify %s" [LNames (output_names args)];;
  call (os_makedirs (output args) true);;
  timestamp_str ← read world_timestamp;
  (* [if args.checkpoint:] is false for [None] and for the empty string *)
  let output_dir :=
    match checkpoint args with
    | Some ckpt =>
        if truthy (Some ckpt) then os_path_join ckpt os_pardir
        else os_path_join (output args) timestamp_str
    | None => os_path_join (output args) timestamp_str
    end in
  let split_sizes_path := os_path_join (input args) "split_sizes.json" in
  found ← path_exists split_sizes_path;
  num_training_samples ←
    (if found : bool then
       split_sizes ← call_for (json_load split_sizes_path)
                       (fun w => world_json w split_sizes_path);
       n ← lift (getitem split_sizes "training");
       log_info "Loaded split sizes from %s. Using %d training samples"
         [LStr split_sizes_path; LInt n];;
       mret n
     else
       log_info "No split sizes found, using %d training samples" [LInt 65536];;
       mret 65536%Z);
  steps_per_epoch ← lift (floordiv num_training_samples (batch_size args));
  let total_steps := (steps_per_epoch * epochs args)%Z in
  '(image_processor, model', training_args) ←
    match checkpoint args with
    | None =>
        call (image_processor_from_pretrained (model args));;
        let image_processor := AutoImageProcessor_from_pretrained (model args) in
        call (image_processor_save_pretrained image_processor output_dir);;
        call (base_model_from_pretrained (model args) true);;
        num_outputs ← lift (py_len (output_names args));
        call (new_MultiHeadModel (model args) num_outputs);;
        let init :=
          {| ta_output_dir := output_dir;
             ta_eval_strategy := "epoch";
             ta_save_strategy := "epoch";
             ta_load_best_model_at_end := true;
             ta_save_total_limit := 1;
             ta_learning_rate := learning_rate args;
             ta_lr_scheduler_type := "cosine";
             ta_warmup_ratio := warmup_ratio args;
             ta_per_device_train_batch_size := batch_size args;
             ta_per_device_eval_batch_size := batch_size args;
             ta_logging_strategy := "steps";
             ta_logging_steps := 50;
             ta_max_steps := total_steps |} in
        call (new_TrainingArguments init);;
        mret (image_processor,
              MultiHeadModel (model args) num_outputs,
              {| ta_origin := TrainingArguments init; ignore_data_skip := None |})
    | Some ckpt =>
        call (image_processor_from_pretrained output_dir);;
        call (torch_load ckpt);;
        let args_path := os_path_join ckpt "training_args.bin" in
        call (torch_load args_path);;
        mret (AutoImageProcessor_from_pretrained output_dir,
              torch_load_model ckpt,
              {| ta_origin := torch_load_args args_path;
                 ignore_data_skip := Some true |})
    end;
  augmentation ←
    match rotation args with
    | Some degrees =>
        call (new_RandomRotation degrees);;
        log_info "Using random rotation of %.2f degrees for data augmentation"
          [LFloat degrees];;
        mret (Some (RandomRotation degrees "bilinear"))
    | None => mret None
    end;
  let map_fn := partial_preprocess_batch image_processor (output_names args) in
  call (load_dataset "webdataset" (input args) None);;
  let train_ds :=
    ds_apply (ds_apply (full_dataset (input args) "train")
                (ds_take num_training_samples)) ds_shuffle in
  let train_ds :=
    match augmentation with
    | Some aug => ds_apply train_ds (ds_map (partial_augment_batch aug) true)
    | None => train_ds
    end in
  let train_ds :=
    ds_apply (ds_apply train_ds (ds_map map_fn true))
      (ds_select_columns ["labels"; "pixel_values"]) in
  let val_ds :=
    ds_apply (ds_apply (full_dataset (input args) "validation") (ds_map map_fn true))
      (ds_select_columns ["labels"; "pixel_values"]) in
  call new_DefaultDataCollator;;
  call (evaluate_load "mae");;
  call (new_Trainer
          {| trainer_model := model';
             trainer_args := training_args;
             train_dataset := train_ds;
             eval_dataset := val_ds;
             compute_metrics_metric := "mae";
             compute_metrics_output_names := output_names args |});;
  call (trainer_train (checkpoint args));;
  let test_ds :=
    ds_apply (ds_apply (full_dataset (input args) "test") (ds_map map_fn true))
      (ds_select_columns ["labels"; "pixel_values"]) in
  call (trainer_predict test_ds);;
  log_info "Test results: %s" [LObject "test_result"];;
  call (torch_save model' (os_path_join output_dir "model.pt"));;
  log_info "Model saved successfully to %s" [LStr output_dir];;
  let output_names_path := os_path_join output_dir "output_names.txt" in
  call (open_for_writing output_names_path);;
  content ← lift (py_join newline (output_names args));
  call (file_write output_names_path content).

End Train.

Module TestBeaufort.

(** ** test_beaufort.py: [get_args_parser] *)

Definition get_args_parser : ArgumentParser :=
  let parser := new_parser "Test the SeeSea multihead model" in
  let parser := add_argument parser "--model-dir" type_unset nargs_unset ANone true in
  let parser := add_argument parser "--dataset" type_unset nargs_unset ANone true in
  let parser := add_argument parser "--output" type_unset nargs_unset ANone true in
  let parser := add_argument parser "--split" type_unset nargs_unset (AStr "test") false in
  let parser := add_argument parser "--batch-size" type_int nargs_unset (AInt 32) false in
  let parser := add_argument parser "--log" type_str nargs_unset (AStr "INFO") false in
  parser.

Record Args := {
  model_dir : string;
  dataset : string;
  output : string;
  split : string;
  batch_size : Z;
  log : string;
}.

Definition args_of_namespace (ns : gmap string argvalue) : option Args :=
  a_model_dir ← attr_str ns "model_dir";
  a_dataset ← attr_str ns "dataset";
  a_output ← attr_str ns "output";
  a_split ← attr_str ns "split";
  a_batch_size ← attr_int ns "batch_size";
  a_log ← attr_str ns "log";
  Some {| model_dir := a_model_dir; dataset := a_dataset; output := a_output;
          split := a_split; batch_size := a_batch_size; log := a_log |}.

(** ** test_beaufort.py: [main] *)

(** [batch[key]] on the columns of a batch. *)
Definition batch_getitem (batch : list (string * Tensor)) (key : string)
    : result Tensor :=
  match find (fun kv => bool_decide (kv.1 = key)) batch with
  | Some kv => Ok kv.2
  | None => Raise (KeyError key)
  end.

Fixpoint calls (cs : list Call) : M unit :=
  match cs with
  | [] => mret tt
  | c :: rest => call c;; calls rest
  end.

(** The loop [for batch in loader], at batch number [i]. *)
Fixpoint test_loop (model' : Model) (dev : device) (i : nat)
    (batches : list (list string)) : M unit :=
  match batches with
  | [] => mret tt
  | columns :: rest =>
      let collated :=
        map (fun k => {| tensor_batch := i; tensor_column := k;
                         tensor_device := None |}) columns in
      (* batch = {k: v.to(device) for k, v in batch.items()} *)
      calls (map (fun t => tensor_to t dev) collated);;
      let batch :=
        map (fun k => (k, {| tensor_batch := i; tensor_column := k;
                             tensor_device := Some dev |})) columns in
      call (model_forward model' batch);;
      call (torch_argmax i);;
      references ← lift (batch_getitem batch "labels");
      call (accuracy_add_batch i references);;
      test_loop model' dev (S i) rest
  end.

Definition main (args : Args) : M unit :=
  let model_path := os_path_join (model_dir args) "model.pt" in
  call (torch_load model_path);;
  let model' := torch_load_model model_path in
  call (image_processor_from_pretrained (model_dir args));;
  let image_processor := AutoImageProcessor_from_pretrained (model_dir args) in
  let map_fn := partial_preprocess_batch_beaufort image_processor in
  call (load_dataset "webdataset" (dataset args) (Some (split args)));;
  let dataset' :=
    {| ds_data_dir := dataset args; ds_split := split args; ds_ops := [] |} in
  let dataset' :=
    ds_apply (ds_apply dataset' (ds_map map_fn true))
      (ds_select_columns ["labels"; "pixel_values"]) in
  call new_DefaultDataCollator;;
  call (new_DataLoader dataset' (batch_size args));;
  has_cuda ← query_cuda;
  dev ← (if has_cuda : bool then mret cuda
         else has_mps ← query_mps;
              if has_mps : bool then mret mps else mret cpu);
  call (call_model_to model' dev);;
  let model' := model_to model' dev in
  call (evaluate_load "accuracy");;
  call (model_eval model');;
  batches ← read world_batches;
  test_loop model' dev 0 batches;;
  log_info "Test duration: %s" [LObject "duration"];;
  call accuracy_compute;;
  log_info "Accuracy: %s" [LObject "accuracy"].

(** The script: the command line is parsed, and [main] runs on the
    arguments read from it. *)
Definition script (int_of_str : string → option Z)
    (float_of_str : string → option pyfloat) (items : list item) (env : Env)
    : outcome + list Call * result unit :=
  match parse_args int_of_str float_of_str get_args_parser items with
  | Parsed ns =>
      match args_of_namespace ns with
      | Some args => inr (run (main args) env)
      | None => inr ([], Raise TypeError)
      end
  | out => inl out
  end.

End TestBeaufort.


(** ** Vocabulary of the statements *)

(** The index of the last occurrence of [name] in [names]. *)
Fixpoint last_index (name : string) (names : list string) : option nat :=
  match names with
  | [] => None
  | x :: rest =>
      match last_index name rest with
      | Some j => Some (S j)
      | None => if bool_decide (x = name) then Some 0%nat else None
      end
  end.

(** A computation is orderly when its calls do not depend on which calls
    raise: under any environment it only adds to the trace, and it either
    does what it does when no call raises, or stops with a library error
    after an initial part of that. *)
Definition orderly {A} (m : M A) : Prop :=
  ∀ env tr,
    (∃ added, (m env tr).1 = added ++ tr) ∧
    (m env tr = m (quiet env) tr ∨
     ((m env tr).2 = inl LibraryError ∧
      ∃ later, (m (quiet env) tr).1 = later ++ (m env tr).1)).

(** The stages of a training run: training, prediction, saving the model,
    opening the output-names file, writing it.  Other calls have none. *)
Definition stage (c : Call) : option nat :=
  match c with
  | trainer_train _ => Some 0%nat
  | trainer_predict _ => Some 1%nat
  | torch_save _ _ => Some 2%nat
  | open_for_writing _ => Some 3%nat
  | file_write _ _ => Some 4%nat
  | _ => None
  end.

(** The number of training samples a run uses: the "training" entry of
    split_sizes.json in the input directory when that file exists, and
    65536 otherwise. *)
Definition training_samples (w : World) (input : string) : result Z :=
  let path := os_path_join input "split_sizes.json" in
  if world_exists w path then getitem (world_json w path) "training"
  else Ok 65536%Z.

(** The arguments with other hyperparameters of a fresh training. *)
Definition with_hyperparameters (args : Train.Args) (lr wr : pyfloat)
    (ep bs : Z) : Train.Args :=
  {| Train.input := Train.input args;
     Train.rotation := Train.rotation args;
     Train.log := Train.log args;
     Train.log_file := Train.log_file args;
     Train.checkpoint := Train.checkpoint args;
     Train.model := Train.model args;
     Train.output := Train.output args;
     Train.epochs := ep;
     Train.batch_size := bs;
     Train.learning_rate := lr;
     Train.warmup_ratio := wr;
     Train.output_names := Train.output_names args |}.

(** The arguments with another value of [--rotation]. *)
Definition with_rotation (args : Train.Args) (rot : option pyfloat)
    : Train.Args :=
  {| Train.input := Train.input args;
     Train.rotation := rot;
     Train.log := Train.log args;
     Train.log_file := Train.log_file args;
     Train.checkpoint := Train.checkpoint args;
     Train.model := Train.model args;
     Train.output := Train.output args;
     Train.epochs := Train.epochs args;
     Train.batch_size := Train.batch_size args;
     Train.learning_rate := Train.learning_rate args;
     Train.warmup_ratio := Train.warmup_ratio args;
     Train.output_names := Train.output_names args |}.

(** The output directory of a training run: next to the checkpoint when
    one is given (and is not the empty string), a directory named after the
    starting time under [--output] otherwise. *)
Definition output_directory (w : World) (args : Train.Args) : string :=
  match Train.checkpoint args with
  | Some ckpt =>
      if truthy (Some ckpt) then os_path_join ckpt os_pardir
      else os_path_join (Train.output args) (world_timestamp w)
  | None => os_path_join (Train.output args) (world_timestamp w)
  end.

(** Where a run loads its image processor from: the model name when
    training from scratch, the output directory when a checkpoint is
    given. *)
Definition image_processor_source (w : World) (args : Train.Args) : string :=
  match Train.checkpoint args with
  | None => Train.model args
  | Some _ => output_directory w args
  end.

(** A split of the input data, preprocessed and reduced to the two columns
    the trainer reads. *)
Definition preprocessed_split (w : World) (args : Train.Args) (split : string)
    : Dataset :=
  {| ds_data_dir := Train.input args;
     ds_split := split;
     ds_ops :=
       [ ds_map (partial_preprocess_batch
                   (AutoImageProcessor_from_pretrained
                      (image_processor_source w args))
                   (Train.output_names args)) true;
         ds_select_columns ["labels"; "pixel_values"] ] |}.

(** The device the test script is to use: cuda when it is available,
    otherwise mps when it is available, otherwise cpu. *)
Definition select_device (w : World) : device :=
  if world_cuda w then cuda else if world_mps w then mps else cpu.

(** Moving the model to a device, and the calls that evaluate it. *)
Inductive phase := moving | evaluating.

Definition phase_of (c : Call) : option phase :=
  match c with
  | call_model_to _ _ => Some moving
  | model_eval _ | tensor_to _ _ | model_forward _ _ | torch_argmax _
  | accuracy_add_batch _ _ | accuracy_compute => Some evaluating
  | _ => None
  end.

(** The calls of the test loop, for a model and a device. *)
Definition loop_call (m : Model) (d : device) (c : Call) : Prop :=
  match c with
  | tensor_to _ d' => d' = d
  | model_forward m' batch =>
      m' = m ∧ Forall (fun kv => tensor_device kv.2 = Some d) batch
  | torch_argmax _ | accuracy_add_batch _ _ => True
  | _ => False
  end.

(** The calls that write to the file system. *)
Definition writes (c : Call) : bool :=
  match c with
  | os_makedirs _ _ | image_processor_save_pretrained _ _ | torch_save _ _
  | open_for_writing _ | file_write _ _ => true
  | _ => false
  end.

(** The test arguments with another value of [--output]. *)
Definition with_output (args : TestBeaufort.Args) (out : string)
    : TestBeaufort.Args :=
  {| TestBeaufort.model_dir := TestBeaufort.model_dir args;
     TestBeaufort.dataset := TestBeaufort.dataset args;
     TestBeaufort.output := out;
     TestBeaufort.split := TestBeaufort.split args;
     TestBeaufort.batch_size := TestBeaufort.batch_size args;
     TestBeaufort.log := TestBeaufort.log args |}.

(** Two parser states that agree except on one attribute. *)
Definition agree_off (name : string) (st1 st2 : state) : Prop :=
  seen st1 = seen st2 ∧ extras st1 = extras st2 ∧
  ∀ k, k ≠ name → namespace st1 !! k = namespace st2 !! k.

Definition outcomes_agree_off (name : string) (o1 o2 : outcome) : Prop :=
  match o1, o2 with
  | Parsed ns1, Parsed ns2 => ∀ k, k ≠ name → ns1 !! k = ns2 !! k
  | _, _ => o1 = o2
  end.

(** Once --output has been seen, the attribute holds a string. *)
Definition output_is_str (st : state) : Prop :=
  "--output" ∈ seen st → ∃ s, namespace st !! "output" = Some (AStr s).

(** The score [compute_metrics] stores for column [i]. *)
Definition column_score (metric : Metric) (predictions labels : ndarray)
    (i : nat) : result Qc :=
  p ← column predictions i;
  r ← column labels i;
  scores ← metric p r;
  getitem scores "mae".

(** The columns of an [n]-by-[k] array in its flattened form: every column
    gives [n] elements, element [r] of column [i] being element
    [r * k + i]. *)
Definition columns_interleaved (a : ndarray) (n k : nat) : Prop :=
  length (flatten a) = (n * k)%nat ∧
  ∀ i, (i < k)%nat →
    length (column_values a i) = n ∧
    ∀ r, (r < n)%nat →
      flatten a !! (r * k + i)%nat = column_values a i !! r.

(** Sample arrays: one row, two outputs. *)
Definition sample_predictions : ndarray :=
  {| nrows := 1; ncols := 2; rows := [[Qc_of_Z 1; Qc_of_Z 3]] |}.

Definition sample_labels : ndarray :=
  {| nrows := 1; ncols := 2; rows := [[Qc_of_Z 0; Qc_of_Z 0]] |}.

(** Sample arrays: three rows, two outputs. *)
Definition sample_tall_predictions : ndarray :=
  {| nrows := 3; ncols := 2;
     rows := [ [Qc_of_Z 0; Qc_of_Z 6];
               [Qc_of_Z 6; Qc_of_Z 9];
               [Qc_of_Z 0; Qc_of_Z 7] ] |}.

Definition sample_tall_labels : ndarray :=
  {| nrows := 3; ncols := 2;
     rows := [ [Qc_of_Z 0; Qc_of_Z 0];
               [Qc_of_Z 0; Qc_of_Z 0];
               [Qc_of_Z 0; Qc_of_Z 0] ] |}.

(** A sample batch of two samples, and a transform that returns one tensor. *)
Definition sample_batch : gmap string pyval :=
  <[ "jpg" := PList [PObject 1; PObject 2] ]>
  (<[ "json" := PList
        [ PDict (<[ "wind" := PInt 3 ]> (<[ "wave" := PInt 5 ]> ∅));
          PDict (<[ "wind" := PInt 4 ]> (<[ "wave" := PInt 6 ]> ∅)) ] ]>
   (<[ "__key__" := PList [PStr "s1"; PStr "s2"] ]> ∅)).

Definition sample_transform : Callable :=
  fun _ => Ok (PDict (<[ "pixel_values" := PObject 9 ]> ∅)).

(** Sample surroundings, in which no split sizes are recorded and no call
    raises, and sample arguments of a training run from scratch. *)
Definition sample_world : World :=
  {| world_timestamp := "2024_05_01_1200";
     world_exists := fun _ => false;
     world_json := fun _ => ∅;
     world_cuda := false;
     world_mps := true;
     world_batches := [["labels"; "pixel_values"]; ["labels"; "pixel_values"]] |}.

Definition sample_env : Env :=
  {| env_world := sample_world; env_raises := fun _ _ => false |}.

Definition sample_args : Train.Args :=
  {| Train.input := "data";
     Train.rotation := None;
     Train.log := "INFO";
     Train.log_file := None;
     Train.checkpoint := None;
     Train.model := "resnet18";
     Train.output := "data/train";
     Train.epochs := 30;
     Train.batch_size := 32;
     Train.learning_rate := Float "0.001";
     Train.warmup_ratio := Float "0.1";
     Train.output_names := Some ["wind_speed"; "wave_height"] |}.

(** Sample arguments of a run resumed from a checkpoint, and of a run given
    the empty string as checkpoint. *)
Definition sample_resume_args : Train.Args :=
  {| Train.input := "data";
     Train.rotation := None;
     Train.log := "INFO";
     Train.log_file := None;
     Train.checkpoint := Some "runs/checkpoint-500";
     Train.model := "resnet18";
     Train.output := "data/train";
     Train.epochs := 30;
     Train.batch_size := 32;
     Train.learning_rate := Float "0.001";
     Train.warmup_ratio := Float "0.1";
     Train.output_names := Some ["wind_speed"; "wave_height"] |}.

Definition sample_empty_checkpoint_args : Train.Args :=
  {| Train.input := "data";
     Train.rotation := None;
     Train.log := "INFO";
     Train.log_file := None;
     Train.checkpoint := Some "";
     Train.model := "resnet18";
     Train.output := "data/train";
     Train.epochs := 30;
     Train.batch_size := 32;
     Train.learning_rate := Float "0.001";
     Train.warmup_ratio := Float "0.1";
     Train.output_names := Some ["wind_speed"; "wave_height"] |}.

(** Sample arguments of the test script. *)
Definition sample_test_args : TestBeaufort.Args :=
  {| TestBeaufort.model_dir := "models/beaufort";
     TestBeaufort.dataset := "data";
     TestBeaufort.output := "results";
     TestBeaufort.split := "test";
     TestBeaufort.batch_size := 32;
     TestBeaufort.log := "INFO" |}.

(** ** Vocabulary of the further properties *)

(** The labels of one json object. *)
Definition label_row (label_keys : list string) (obj : pyval) : result pyval :=
  row ← list_comp (fun key => py_getitem obj key) label_keys;
  Ok (PList row).

(** The calls a training run makes before it loads or builds anything:
    logging, creating the output directory, reading the split sizes. *)
Definition preparing (c : Call) : bool :=
  match c with
  | logger_info _ _ | os_makedirs _ _ | os_path_exists _ | json_load _ => true
  | _ => false
  end.

(** The training pipeline for [N] training samples: the "train" split cut to
    its first [N] samples, shuffled, augmented when a rotation is given, then
    preprocessed and reduced to the two columns the trainer reads. *)
Definition training_pipeline (w : World) (args : Train.Args) (N : Z) : Dataset :=
  {| ds_data_dir := Train.input args;
     ds_split := "train";
     ds_ops :=
       [ds_take N; ds_shuffle] ++
       match Train.rotation args with
       | Some degrees =>
           [ds_map (partial_augment_batch (RandomRotation degrees "bilinear")) true]
       | None => []
       end ++
       [ ds_map (partial_preprocess_batch
                   (AutoImageProcessor_from_pretrained
                      (image_processor_source w args))
                   (Train.output_names args)) true;
         ds_select_columns ["labels"; "pixel_values"] ] |}.

(** How a run in which no library call raises ends, split_sizes.json
    holding a JSON object of integers when it exists: with the KeyError of a
    file without a "training" entry, else with the ZeroDivisionError of a
    batch size of zero, else with the TypeError of output names that were not
    given, else normally. *)
Definition quiet_outcome (w : World) (args : Train.Args) : result unit :=
  N ← training_samples w (Train.input args);
  _ ← floordiv N (Train.batch_size args);
  match Train.output_names args with
  | Some _ => Ok tt
  | None => Raise TypeError
  end.

(** What a call of a training run is made with, by the kind of call. *)
Definition train_call_ok (w : World) (args : Train.Args) (c : Call) : Prop :=
  let out_dir := output_directory w args in
  let sizes := os_path_join (Train.input args) "split_sizes.json" in
  match c with
  | logger_info _ _ | new_DefaultDataCollator => True
  | os_makedirs path exist_ok => path = Train.output args ∧ exist_ok = true
  | os_path_exists path => path = sizes
  | json_load path => path = sizes ∧ world_exists w sizes = true
  | image_processor_from_pretrained src => src = image_processor_source w args
  | image_processor_save_pretrained ip dir =>
      Train.checkpoint args = None ∧
      ip = AutoImageProcessor_from_pretrained (Train.model args) ∧
      dir = out_dir
  | base_model_from_pretrained name ignore_mismatched_sizes =>
      Train.checkpoint args = None ∧ name = Train.model args ∧
      ignore_mismatched_sizes = true
  | new_MultiHeadModel base_model num_outputs =>
      Train.checkpoint args = None ∧ base_model = Train.model args ∧
      ∃ names, Train.output_names args = Some names ∧
               num_outputs = length names
  | new_TrainingArguments init =>
      Train.checkpoint args = None ∧
      ∃ N, training_samples w (Train.input args) = Ok N ∧
           Train.batch_size args ≠ 0%Z ∧
           init =
           {| ta_output_dir := out_dir;
              ta_eval_strategy := "epoch";
              ta_save_strategy := "epoch";
              ta_load_best_model_at_end := true;
              ta_save_total_limit := 1;
              ta_learning_rate := Train.learning_rate args;
              ta_lr_scheduler_type := "cosine";
              ta_warmup_ratio := Train.warmup_ratio args;
              ta_per_device_train_batch_size := Train.batch_size args;
              ta_per_device_eval_batch_size := Train.batch_size args;
              ta_logging_strategy := "steps";
              ta_logging_steps := 50;
              ta_max_steps :=
                (N `div` Train.batch_size args * Train.epochs args)%Z |}
  | torch_load path =>
      ∃ ckpt, Train.checkpoint args = Some ckpt ∧
              (path = ckpt ∨ path = os_path_join ckpt "training_args.bin")
  | new_RandomRotation degrees => Train.rotation args = Some degrees
  | load_dataset kind data_dir split =>
      kind = "webdataset" ∧ data_dir = Train.input args ∧ split = None
  | evaluate_load name => name = "mae"
  | new_Trainer init =>
      (∃ N, training_samples w (Train.input args) = Ok N ∧
            train_dataset init = training_pipeline w args N) ∧
      eval_dataset init = preprocessed_split w args "validation" ∧
      compute_metrics_metric init = "mae" ∧
      compute_metrics_output_names init = Train.output_names args ∧
      match Train.checkpoint args with
      | None =>
          ∃ names, Train.output_names args = Some names ∧
                   trainer_model init =
                   MultiHeadModel (Train.model args) (length names)
      | Some ckpt => trainer_model init = torch_load_model ckpt
      end
  | trainer_train resume_from_checkpoint =>
      resume_from_checkpoint = Train.checkpoint args
  | trainer_predict test_dataset =>
      test_dataset = preprocessed_split w args "test"
  | torch_save m path =>
      path = os_path_join out_dir "model.pt" ∧
      match Train.checkpoint args with
      | None =>
          ∃ names, Train.output_names args = Some names ∧
                   m = MultiHeadModel (Train.model args) (length names)
      | Some ckpt => m = torch_load_model ckpt
      end
  | open_for_writing path => path = os_path_join out_dir "output_names.txt"
  | file_write path content =>
      path = os_path_join out_dir "output_names.txt" ∧
      ∃ names, Train.output_names args = Some names ∧
               content = str_join newline names
  | _ => False
  end.

(** The calls by which a run from scratch fetches the pretrained image
    processor and base model, and saves the image processor. *)
Definition fetching (c : Call) : bool :=
  match c with
  | image_processor_from_pretrained _ | image_processor_save_pretrained _ _
  | base_model_from_pretrained _ _ => true
  | _ => false
  end.

(** A value of the type an option declares. *)
Definition value_of_type (ty : argtype) (v : argvalue) : Prop :=
  match ty, v with
  | (type_unset | type_str), AStr _ => True
  | type_int, AInt _ => True
  | type_float, AFloat _ => True
  | _, _ => False
  end.

(** What an option stores when it is given: one converted argument, or for
    [nargs="+"] a non-empty list of them. *)
Definition stored_value (a : Action) (v : argvalue) : Prop :=
  match arg_nargs a with
  | nargs_unset => value_of_type (arg_type a) v
  | nargs_plus =>
      ∃ l, v = AList l ∧ l ≠ [] ∧ Forall (value_of_type (arg_type a)) l
  end.

(** What the attribute of an option can hold: the declared default, or
    what the option stores when it is given. *)
Definition value_of_action (a : Action) (v : argvalue) : Prop :=
  v = arg_default a ∨ stored_value a v.

(** A namespace that holds, for every declared option, a value that fits
    it. *)
Definition well_typed (p : ArgumentParser) (ns : gmap string argvalue) : Prop :=
  Forall (fun a => ∃ v, ns !! dest (arg_flag a) = Some v ∧ value_of_action a v)
         (actions p).

(** An item of the command line that fits the parser: a declared option
    with arguments that convert and of which none is left over. *)
Definition item_fits (int_of_str : string → option Z)
    (float_of_str : string → option pyfloat) (p : ArgumentParser) (it : item)
    : Prop :=
  match it with
  | Opt flag args =>
      ∃ a v, find_action p flag = Some a ∧
             get_values int_of_str float_of_str a args = inr (v, [])
  | Positional _ => False
  end.

(** The test arguments with another value of [--log]. *)
Definition with_log (args : TestBeaufort.Args) (level : string)
    : TestBeaufort.Args :=
  {| TestBeaufort.model_dir := TestBeaufort.model_dir args;
     TestBeaufort.dataset := TestBeaufort.dataset args;
     TestBeaufort.output := TestBeaufort.output args;
     TestBeaufort.split := TestBeaufort.split args;
     TestBeaufort.batch_size := TestBeaufort.batch_size args;
     TestBeaufort.log := level |}.

(** The calls of one pass of the test loop up to its prediction, on batch
    number [i] with the given columns: every column moved to the device, the
    forward pass on the moved columns, the argmax of the logits. *)
Definition forward_calls (m : Model) (d : device) (i : nat)
    (columns : list string) : list Call :=
  map (fun k => tensor_to {| tensor_batch := i; tensor_column := k;
                             tensor_device := None |} d) columns ++
  [ model_forward m
      (map (fun k => (k, {| tensor_batch := i; tensor_column := k;
                            tensor_device := Some d |})) columns);
    torch_argmax i ].

(** The calls of one whole pass: then the accuracy is updated with the
    batch's labels. *)
Definition batch_calls (m : Model) (d : device) (i : nat)
    (columns : list string) : list Call :=
  forward_calls m d i columns ++
  [ accuracy_add_batch i {| tensor_batch := i; tensor_column := "labels";
                            tensor_device := Some d |} ].

(** The calls of the passes on batches number [i], [i + 1], ... *)
Fixpoint loop_calls (m : Model) (d : device) (i : nat)
    (batches : list (list string)) : list Call :=
  match batches with
  | [] => []
  | columns :: rest => batch_calls m d i columns ++ loop_calls m d (S i) rest
  end.

(** What the test script does before its loop: the model and the image
    processor loaded from the model directory, the split of the dataset
    preprocessed and put behind a data loader, the device chosen and the
    model moved to it, the accuracy metric loaded, the model set to
    evaluate. *)
Definition test_setup_calls (w : World) (args : TestBeaufort.Args) : list Call :=
  let model_path := os_path_join (TestBeaufort.model_dir args) "model.pt" in
  let dev := select_device w in
  [ torch_load model_path;
    image_processor_from_pretrained (TestBeaufort.model_dir args);
    load_dataset "webdataset" (TestBeaufort.dataset args)
      (Some (TestBeaufort.split args));
    new_DefaultDataCollator;
    new_DataLoader
      {| ds_data_dir := TestBeaufort.dataset args;
         ds_split := TestBeaufort.split args;
         ds_ops :=
           [ ds_map (partial_preprocess_batch_beaufort
                       (AutoImageProcessor_from_pretrained
                          (TestBeaufort.model_dir args))) true;
             ds_select_columns ["labels"; "pixel_values"] ] |}
      (TestBeaufort.batch_size args);
    cuda_is_available ] ++
  (if world_cuda w then [] else [mps_is_available]) ++
  [ call_model_to (torch_load_model model_path) dev;
    evaluate_load "accuracy";
    model_eval (model_to (torch_load_model model_path) dev) ].

(** A sample augmentation: it accepts library objects only. *)
Definition sample_augmentation : Callable := fun jpg =>
  match jpg with
  | PObject id => Ok (PObject (id + 100))
  | _ => Raise TypeError
  end.

(** Sample arrays: one row, three outputs. *)
Definition sample_wide_predictions : ndarray :=
  {| nrows := 1; ncols := 3; rows := [[Qc_of_Z 1; Qc_of_Z 3; Qc_of_Z 8]] |}.

Definition sample_wide_labels : ndarray :=
  {| nrows := 1; ncols := 3; rows := [[Qc_of_Z 0; Qc_of_Z 0; Qc_of_Z 0]] |}.

(** Sample arguments of a run from scratch without output names: every
    argument at its default. *)
Definition sample_args_without_names : Train.Args :=
  {| Train.input := "data";
     Train.rotation := None;
     Train.log := "INFO";
     Train.log_file := None;
     Train.checkpoint := None;
     Train.model := "resnet18";
     Train.output := "data/train";
     Train.epochs := 30;
     Train.batch_size := 32;
     Train.learning_rate := Float "0.001";
     Train.warmup_ratio := Float "0.1";
     Train.output_names := None |}.

(** Sample arguments of a run resumed from a checkpoint without output
    names. *)
Definition sample_resume_args_without_names : Train.Args :=
  {| Train.input := "data";
     Train.rotation := None;
     Train.log := "INFO";
     Train.log_file := None;
     Train.checkpoint := Some "runs/checkpoint-500";
     Train.model := "resnet18";
     Train.output := "data/train";
     Train.epochs := 30;
     Train.batch_size := 32;
     Train.learning_rate := Float "0.001";
     Train.warmup_ratio := Float "0.1";
     Train.output_names := None |}.

(** Sample surroundings in which split_sizes.json exists and has no
    "training" entry. *)
Definition sample_world_no_training : World :=
  {| world_timestamp := "2024_05_01_1200";
     world_exists := fun _ => true;
     world_json := fun _ => {[ "validation" := 100%Z ]};
     world_cuda := false;
     world_mps := true;
     world_batches := [] |}.

(** Sample surroundings in which the second batch has no labels. *)
Definition sample_world_unlabelled : World :=
  {| world_timestamp := "2024_05_01_1200";
     world_exists := fun _ => false;
     world_json := fun _ => ∅;
     world_cuda := true;
     world_mps := false;
     world_batches := [["labels"; "pixel_values"]; ["pixel_values"]; ["labels"]] |}.


(** * Properties *)

(** ** Strings and results *)

Lemma mae_key_inj (x y : string) : "mae_" +:+ x = "mae_" +:+ y → x = y.
Proof. intros H. by simplify_eq/=. Qed.

Lemma mae_key_ne (x : string) : "mae_" +:+ x ≠ "mae".
Proof. intros H. by simplify_eq/=. Qed.

Lemma last_index_lookup (name : string) (names : list string) (j : nat) :
  last_index name names = Some j → names !! j = Some name.
Proof.
  revert j. induction names as [|x rest IH]; intros j; cbn; [done|].
  destruct (last_index name rest) as [j'|].
  - intros [= <-]. cbn. by apply IH.
  - case_bool_decide; [|done]. intros [= <-]. cbn. by subst.
Qed.

Lemma last_index_elem (name : string) (names : list string) :
  name ∈ names → is_Some (last_index name names).
Proof.
  induction names as [|x rest IH]; cbn.
  - by intros ?%elem_of_nil.
  - intros [<-|Hin]%elem_of_cons.
    + destruct (last_index name rest); [by eexists|].
      rewrite bool_decide_eq_true_2; by eauto.
    + destruct (IH Hin) as [j ->]. by eexists.
Qed.

Lemma last_index_NoDup (names : list string) (i : nat) (name : string) :
  NoDup names → names !! i = Some name → last_index name names = Some i.
Proof.
  intros Hnd Hi.
  destruct (last_index_elem name names) as [j Hj].
  { by eapply list_elem_of_lookup_2. }
  rewrite Hj. f_equal.
  eapply NoDup_lookup; eauto using last_index_lookup.
Qed.

(** ** [compute_metrics] *)

Section ComputeMetrics.

Variable metric : Metric.
Variables predictions labels : ndarray.

Lemma compute_metrics_loop_cons (i : nat) (name : string) (rest : list string)
    (results : gmap string Qc) :
  Train.compute_metrics_loop metric predictions labels i (name :: rest) results =
  (v ← column_score metric predictions labels i;
   Train.compute_metrics_loop metric predictions labels (S i) rest
     (<[ "mae_" +:+ name := v ]> results)).
Proof.
  cbn [Train.compute_metrics_loop]. unfold column_score.
  destruct (column predictions i); [done|]; cbn.
  destruct (column labels i); [done|]; cbn.
  destruct (metric _ _); [done|]; cbn.
  by destruct (getitem _ _).
Qed.

(** The loop returns when every column can be scored. *)
Lemma compute_metrics_loop_returns (names : list string) (i : nat)
    (results : gmap string Qc) :
  (∀ j, (j < length names)%nat →
        ∃ v, column_score metric predictions labels (i + j) = Ok v) →
  ∃ results',
    Train.compute_metrics_loop metric predictions labels i names results
    = Ok results'.
Proof.
  revert i results. induction names as [|name rest IH]; intros i results Hsc.
  - by eexists.
  - rewrite compute_metrics_loop_cons.
    destruct (Hsc 0%nat) as [v Hv]; [cbn; lia|].
    rewrite Nat.add_0_r in Hv. rewrite Hv. cbn.
    apply IH. intros j Hj. replace (S i + j)%nat with (i + S j)%nat by lia.
    apply Hsc. cbn. lia.
Qed.

(** What the dictionary built by the loop holds under a per-output key:
    the score of the last column filed under that name, or what was there
    before. *)
Lemma compute_metrics_loop_lookup (names : list string) (i : nat)
    (results results' : gmap string Qc) (name : string) :
  Train.compute_metrics_loop metric predictions labels i names results
  = Ok results' →
  match last_index name names with
  | Some j =>
      ∃ v, column_score metric predictions labels (i + j) = Ok v ∧
           results' !! ("mae_" +:+ name) = Some v
  | None => results' !! ("mae_" +:+ name) = results !! ("mae_" +:+ name)
  end.
Proof.
  revert i results. induction names as [|x rest IH]; intros i results.
  - cbn. by intros [= <-].
  - rewrite compute_metrics_loop_cons.
    destruct (column_score metric predictions labels i) as [e|v] eqn:Hv; [done|].
    cbn. intros Hloop. specialize (IH _ _ Hloop). cbn [last_index].
    destruct (last_index name rest) as [j|].
    + destruct IH as (w & Hw & Hlook). exists w. split; [|done].
      by replace (i + S j)%nat with (S i + j)%nat by lia.
    + case_bool_decide as Hx.
      * subst x. exists v. rewrite Nat.add_0_r. split; [done|].
        by rewrite IH, lookup_insert_eq.
      * rewrite IH. apply lookup_insert_ne. by intros ?%mae_key_inj.
Qed.

End ComputeMetrics.

(** ** Arithmetic of the mean absolute error *)

Lemma Qc_of_nat_mul (n k : nat) :
  Qc_of_nat (n * k) = (Qc_of_nat n * Qc_of_nat k)%Qc.
Proof.
  unfold Qc_of_nat, Qc_of_Z. apply Qc_is_canon. cbn.
  rewrite !Qred_correct, Nat2Z.inj_mul, inject_Z_mult. reflexivity.
Qed.

Lemma Qc_of_nat_nonzero (n : nat) : (0 < n)%nat → Qc_of_nat n ≠ 0%Qc.
Proof.
  intros Hn Heq. unfold Qc_of_nat, Qc_of_Z in Heq.
  apply (f_equal this) in Heq. cbn in Heq.
  assert (Hq : (Qred (inject_Z (Z.of_nat n)) == 0)%Q) by (by rewrite Heq).
  rewrite Qred_correct in Hq. unfold Qeq in Hq. cbn in Hq. lia.
Qed.

Lemma Qc_sum_nil : Qc_sum [] = 0%Qc.
Proof. reflexivity. Qed.

Lemma Qc_sum_cons (x : Qc) (l : list Qc) :
  Qc_sum (x :: l) = (x + Qc_sum l)%Qc.
Proof. reflexivity. Qed.

Lemma Qc_sum_app (l1 l2 : list Qc) :
  Qc_sum (l1 ++ l2) = (Qc_sum l1 + Qc_sum l2)%Qc.
Proof.
  induction l1 as [|x l1 IH]; cbn [app].
  - rewrite Qc_sum_nil. ring.
  - rewrite !Qc_sum_cons, IH. ring.
Qed.

Lemma Qc_sum_map_plus {A} (f g : A → Qc) (l : list A) :
  Qc_sum (map (fun x => f x + g x)%Qc l) =
  (Qc_sum (map f l) + Qc_sum (map g l))%Qc.
Proof.
  induction l as [|x l IH]; cbn [map].
  - rewrite !Qc_sum_nil. ring.
  - rewrite !Qc_sum_cons, IH. ring.
Qed.

Lemma Qc_sum_map_div {A} (f : A → Qc) (c : Qc) (l : list A) :
  Qc_sum (map (fun x => f x / c)%Qc l) = (Qc_sum (map f l) / c)%Qc.
Proof.
  induction l as [|x l IH]; cbn [map].
  - rewrite !Qc_sum_nil. unfold Qcdiv. ring.
  - rewrite !Qc_sum_cons, IH. unfold Qcdiv. ring.
Qed.

(** ** Rows, columns and the flattened array *)

Lemma length_concat_rect (k : nat) (rs : list (list Qc)) :
  Forall (fun r => length r = k) rs → length (concat rs) = (length rs * k)%nat.
Proof.
  induction 1 as [|r rs Hr _ IH]; cbn; [done|].
  rewrite length_app, IH, Hr. lia.
Qed.

Lemma length_flatten (a : ndarray) (n k : nat) :
  has_shape a n k → length (flatten a) = (n * k)%nat.
Proof.
  intros (_ & _ & Hn & Hrows). unfold flatten.
  by rewrite (length_concat_rect k), Hn.
Qed.

Lemma length_column_values (a : ndarray) (n k i : nat) :
  has_shape a n k → length (column_values a i) = n.
Proof.
  intros (_ & _ & Hn & _). unfold column_values. by rewrite length_map.
Qed.

Lemma column_in_range (a : ndarray) (n k i : nat) :
  has_shape a n k → (i < k)%nat → column a i = Ok (column_values a i).
Proof.
  intros (_ & Hk & _) Hi. unfold column.
  rewrite bool_decide_eq_true_2; [done|lia].
Qed.

(** The absolute errors of a row, summed entry by entry. *)
Lemma row_errors_by_index (k : nat) (p l : list Qc) :
  length p = k → length l = k →
  Qc_sum (abs_errors p l) =
  Qc_sum (map (fun i => Qcabs (default 0%Qc (p !! i) - default 0%Qc (l !! i)))
              (seq 0 k)).
Proof.
  revert p l. induction k as [|k IH]; intros p l Hp Hl.
  - by destruct p, l.
  - destruct p as [|x p], l as [|y l]; try discriminate.
    cbn [seq map]. rewrite <- seq_shift, map_map.
    unfold abs_errors. cbn [zip_with]. rewrite !Qc_sum_cons. cbn [lookup].
    f_equal. apply IH; cbn in *; lia.
Qed.

(** The errors of the flattened arrays add up to the column totals. *)
Lemma flattened_errors_by_column (k : nat) (ps ls : list (list Qc)) :
  length ps = length ls →
  Forall (fun r => length r = k) ps →
  Forall (fun r => length r = k) ls →
  Qc_sum (abs_errors (concat ps) (concat ls)) =
  Qc_sum (map (fun i =>
                 Qc_sum (abs_errors
                           (map (fun r => default 0%Qc (r !! i)) ps)
                           (map (fun r => default 0%Qc (r !! i)) ls)))
              (seq 0 k)).
Proof.
  intros Hlen Hps. revert ls Hlen.
  induction Hps as [|p ps Hp _ IH]; intros ls Hlen Hls.
  - destruct ls; [|discriminate]. cbn [concat map].
    induction (seq 0 k) as [|i rest IHs]; [done|].
    cbn [map]. by rewrite Qc_sum_cons, <- IHs.
  - destruct ls as [|l ls]; [discriminate|].
    apply Forall_cons_1 in Hls as [Hl Hls].
    cbn [concat map]. unfold abs_errors at 1.
    rewrite zip_with_app by congruence.
    rewrite Qc_sum_app. fold (abs_errors p l).
    fold (abs_errors (concat ps) (concat ls)).
    rewrite IH by (cbn in Hlen; auto with lia).
    rewrite (row_errors_by_index k) by done.
    rewrite <- Qc_sum_map_plus. f_equal.
Qed.

Lemma column_score_mae (predictions labels : ndarray) (n k i : nat) :
  has_shape predictions n k → has_shape labels n k →
  (0 < n)%nat → (i < k)%nat →
  column_score mae_metric predictions labels i =
  Ok (mean_absolute_error (column_values predictions i)
                          (column_values labels i)).
Proof.
  intros HP HL Hn Hi. unfold column_score.
  rewrite (column_in_range _ n k), (column_in_range _ n k) by done. cbn.
  unfold mae_metric.
  rewrite !(length_column_values _ n k) by done.
  rewrite !bool_decide_eq_true_2 by done. cbn.
  unfold getitem. by rewrite lookup_singleton_eq.
Qed.

Lemma flattened_score_mae (predictions labels : ndarray) (n k : nat) :
  has_shape predictions n k → has_shape labels n k →
  (0 < n)%nat → (0 < k)%nat →
  (scores ← mae_metric (flatten predictions) (flatten labels);
   getitem scores "mae") =
  Ok (mean_absolute_error (flatten predictions) (flatten labels)).
Proof.
  intros HP HL Hn Hk. unfold mae_metric.
  rewrite !(length_flatten _ n k) by done.
  rewrite !bool_decide_eq_true_2 by (done || nia). cbn.
  unfold getitem. by rewrite lookup_singleton_eq.
Qed.

(** ** The metrics dictionary *)

(** What [compute_metrics] returns with the mean-absolute-error metric. *)
Lemma compute_metrics_mae_dictionary (names : list string)
    (predictions labels : ndarray) (n : nat) :
  has_shape predictions n (length names) →
  has_shape labels n (length names) →
  (0 < n)%nat → (0 < length names)%nat →
  ∃ results,
    Train.compute_metrics mae_metric names (predictions, labels) = Ok results ∧
    (∀ i name, names !! i = Some name →
       ∃ j, last_index name names = Some j ∧
            results !! ("mae_" +:+ name) =
            Some (mean_absolute_error (column_values predictions j)
                                      (column_values labels j))) ∧
    (NoDup names → ∀ i name, names !! i = Some name →
       column predictions i = Ok (column_values predictions i) ∧
       column labels i = Ok (column_values labels i) ∧
       results !! ("mae_" +:+ name) =
       Some (mean_absolute_error (column_values predictions i)
                                 (column_values labels i))) ∧
    results !! "mae" =
    Some (mean_absolute_error (flatten predictions) (flatten labels)).
Proof.
  intros HP HL Hn Hk.
  destruct (compute_metrics_loop_returns mae_metric predictions labels
              names 0 ∅) as [results Hloop].
  { intros j Hj. eexists. by eapply column_score_mae. }
  assert (Hlast : ∀ i name, names !! i = Some name →
     ∃ j, last_index name names = Some j ∧
          results !! ("mae_" +:+ name) =
          Some (mean_absolute_error (column_values predictions j)
                                    (column_values labels j))).
  { intros i name Hi.
    destruct (last_index_elem name names) as [j Hj].
    { by eapply list_elem_of_lookup_2. }
    pose proof (compute_metrics_loop_lookup _ _ _ _ _ _ _ name Hloop) as Hl.
    rewrite Hj in Hl. destruct Hl as (v & Hv & Hlook).
    exists j. split; [done|].
    apply last_index_lookup, lookup_lt_Some in Hj.
    rewrite (column_score_mae _ _ n (length names)) in Hv by done.
    by simplify_eq. }
  exists (<[ "mae" := mean_absolute_error (flatten predictions) (flatten labels) ]>
            results).
  split; [|split; [|split]].
  - unfold Train.compute_metrics. rewrite Hloop. cbn.
    pose proof (flattened_score_mae _ _ _ _ HP HL Hn Hk) as Hflat.
    destruct (mae_metric (flatten predictions) (flatten labels)) as [e|scores];
      [done|].
    cbn in Hflat |- *. by rewrite Hflat.
  - intros i name Hi. destruct (Hlast i name Hi) as (j & Hj & Hlook).
    exists j. split; [done|].
    rewrite lookup_insert_ne; [done|]. intros Heq. by eapply mae_key_ne.
  - intros Hnd i name Hi. pose proof (lookup_lt_Some _ _ _ Hi) as Hlt.
    rewrite !(column_in_range _ n (length names)) by done.
    split; [done|]. split; [done|].
    destruct (Hlast i name Hi) as (j & Hj & Hlook).
    rewrite (last_index_NoDup names i name) in Hj by done.
    simplify_eq. rewrite lookup_insert_ne; [done|].
    intros Heq. by eapply mae_key_ne.
  - apply lookup_insert_eq.
Qed.

(** C1 (as amended).  For predictions and labels of shape n-by-k, with
    n and k at least one and k the number of output names, [compute_metrics]
    with the mean-absolute-error metric returns a dictionary in which, for
    every output name, the key "mae_<name>" holds the mean absolute error of
    the column at the last index at which that name occurs; when the names
    are pairwise distinct this is the column at the name's own index.  The
    key "mae" holds the mean absolute error of the flattened predictions
    against the flattened labels. *)
Theorem compute_metrics_mae (names : list string)
    (predictions labels : ndarray) (n : nat) :
  has_shape predictions n (length names) →
  has_shape labels n (length names) →
  (0 < n)%nat → (0 < length names)%nat →
  ∃ results,
    Train.compute_metrics mae_metric names (predictions, labels) = Ok results ∧
    (∀ i name, names !! i = Some name →
       ∃ j, last_index name names = Some j ∧
            results !! ("mae_" +:+ name) =
            Some (mean_absolute_error (column_values predictions j)
                                      (column_values labels j))) ∧
    (NoDup names → ∀ i name, names !! i = Some name →
       column predictions i = Ok (column_values predictions i) ∧
       column labels i = Ok (column_values labels i) ∧
       results !! ("mae_" +:+ name) =
       Some (mean_absolute_error (column_values predictions i)
                                 (column_values labels i))) ∧
    results !! "mae" =
    Some (mean_absolute_error (flatten predictions) (flatten labels)).
Proof. apply compute_metrics_mae_dictionary. Qed.

Lemma compute_metrics_mae_witness :
  ∃ results,
    Train.compute_metrics mae_metric ["u"; "v"]
      (sample_predictions, sample_labels) = Ok results ∧
    results !! "mae" =
    Some (mean_absolute_error (flatten sample_predictions)
                              (flatten sample_labels)).
Proof.
  destruct (compute_metrics_mae ["u"; "v"] sample_predictions sample_labels 1)
    as (results & Hres & _ & _ & Hmae).
  - repeat split; repeat constructor.
  - repeat split; repeat constructor.
  - lia.
  - cbn. lia.
  - by exists results.
Defined.

(** C1 (as stated) fails when a name is repeated: with the output names
    ["a"; "a"] the key "mae_a" holds the error of column 1, not of column 0. *)
Lemma compute_metrics_mae_repeated_name :
  ¬ (∀ (names : list string) (predictions labels : ndarray) (n : nat),
       has_shape predictions n (length names) →
       has_shape labels n (length names) →
       (0 < n)%nat → (0 < length names)%nat →
       ∃ results,
         Train.compute_metrics mae_metric names (predictions, labels)
         = Ok results ∧
         (∀ i name, names !! i = Some name →
            results !! ("mae_" +:+ name) =
            Some (mean_absolute_error (column_values predictions i)
                                      (column_values labels i))) ∧
         results !! "mae" =
         Some (mean_absolute_error (flatten predictions) (flatten labels))).
Proof.
  intros Hclaim.
  destruct (Hclaim ["a"; "a"] sample_predictions sample_labels 1%nat)
    as (results & Hres & Hcols & _).
  - repeat split; repeat constructor.
  - repeat split; repeat constructor.
  - lia.
  - cbn. lia.
  - pose proof (Hcols 0%nat "a" eq_refl) as H0.
    pose proof (Hcols 1%nat "a" eq_refl) as H1.
    rewrite H0 in H1. vm_compute in H1. discriminate H1.
Qed.

(** The run behind the counterexample: with the names ["a"; "a"], the
    dictionary holds 3 (the error of column 1) under "mae_a" and 2 under
    "mae", while the error of column 0 is 1. *)
Example compute_metrics_repeated_name_run :
  (results ← Train.compute_metrics mae_metric ["a"; "a"]
               (sample_predictions, sample_labels);
   Ok (this <$> results !! "mae_a", this <$> results !! "mae",
       this (mean_absolute_error (column_values sample_predictions 0)
                                 (column_values sample_labels 0))))
  = Ok (Some (3 # 1)%Q, Some (2 # 1)%Q, (1 # 1)%Q).
Proof. vm_compute. reflexivity. Qed.

Lemma lookup_concat_rect (k : nat) (rs : list (list Qc)) (r i : nat) :
  Forall (fun row => length row = k) rs → (i < k)%nat →
  concat rs !! (r * k + i)%nat = rs !! r ≫= (.!! i).
Proof.
  intros Hrs Hi. revert r. induction Hrs as [|row rs Hrow _ IH]; intros r.
  - done.
  - cbn [concat]. destruct r as [|r].
    + cbn. apply lookup_app_l. lia.
    + replace (S r * k + i)%nat with (length row + (r * k + i))%nat by lia.
      rewrite lookup_app_r by lia.
      replace (length row + (r * k + i) - length row)%nat
        with (r * k + i)%nat by lia.
      apply IH.
Qed.

Lemma flatten_columns_interleaved (a : ndarray) (n k : nat) :
  has_shape a n k → columns_interleaved a n k.
Proof.
  intros Ha. split; [by apply length_flatten|].
  intros i Hi. split; [by eapply length_column_values|].
  intros r Hr. destruct Ha as (_ & _ & Hn & Hrows).
  unfold flatten, column_values.
  rewrite (lookup_concat_rect k) by done.
  rewrite list_lookup_fmap.
  destruct (rows a !! r) as [row|] eqn:Hrow; [|done]. cbn.
  assert (Hlen : length row = k).
  { eapply (proj1 (list.Forall_forall _ _) Hrows).
    by eapply list_elem_of_lookup_2. }
  destruct (lookup_lt_is_Some_2 row i) as [x Hx]; [lia|].
  by rewrite Hx.
Qed.

(** Whatever the metric, the arrays [compute_metrics] has it score. *)
Lemma compute_metrics_scored (metric : Metric) (names : list string)
    (predictions labels : ndarray) (n : nat) (results : gmap string Qc) :
  NoDup names →
  has_shape predictions n (length names) →
  has_shape labels n (length names) →
  Train.compute_metrics metric names (predictions, labels) = Ok results →
  (∃ scores, metric (flatten predictions) (flatten labels) = Ok scores ∧
             results !! "mae" = scores !! "mae") ∧
  ∀ i name, names !! i = Some name →
    ∃ scores,
      metric (column_values predictions i) (column_values labels i) = Ok scores ∧
      results !! ("mae_" +:+ name) = scores !! "mae".
Proof.
  intros Hnd HP HL. unfold Train.compute_metrics.
  destruct (Train.compute_metrics_loop _ _ _ _ _ _) as [e|results0] eqn:Hloop;
    [done|]. cbn.
  destruct (metric (flatten predictions) (flatten labels)) as [e|scores] eqn:Hm;
    [done|]. cbn.
  unfold getitem at 1.
  destruct (scores !! "mae") as [v|] eqn:Hv; [|done]. intros [= <-]. split.
  - exists scores. split; [done|]. by rewrite lookup_insert_eq.
  - intros i name Hi.
    pose proof (compute_metrics_loop_lookup _ _ _ _ _ _ _ name Hloop) as Hl.
    rewrite (last_index_NoDup names i name) in Hl by done.
    destruct Hl as (w & Hw & Hlook). cbn in Hw.
    pose proof (lookup_lt_Some _ _ _ Hi) as Hlt.
    unfold column_score in Hw.
    rewrite (column_in_range _ n (length names)),
      (column_in_range _ n (length names)) in Hw by done.
    cbn in Hw.
    destruct (metric (column_values predictions i) (column_values labels i))
      as [e|scores_i]; [done|].
    cbn in Hw. unfold getitem in Hw.
    destruct (scores_i !! "mae") as [u|] eqn:Hu; [|done].
    injection Hw as <-.
    exists scores_i. split; [done|].
    rewrite lookup_insert_ne; [by rewrite Hu|].
    intros Heq. by eapply mae_key_ne.
Qed.

Lemma compute_metrics_exact_mean (names : list string)
    (predictions labels : ndarray) (n : nat) :
  NoDup names →
  has_shape predictions n (length names) →
  has_shape labels n (length names) →
  (0 < n)%nat → (0 < length names)%nat →
  ∃ results overall scores,
    Train.compute_metrics mae_metric names (predictions, labels) = Ok results ∧
    results !! "mae" = Some overall ∧
    Forall2 (fun name v => results !! ("mae_" +:+ name) = Some v) names scores ∧
    overall = (Qc_sum scores / Qc_of_nat (length names))%Qc.
Proof.
  intros Hnd HP HL Hn Hk.
  destruct (compute_metrics_mae_dictionary names predictions labels n
              HP HL Hn Hk) as (results & Hres & _ & Hcols & Hmae).
  exists results, (mean_absolute_error (flatten predictions) (flatten labels)),
    (map (fun i => mean_absolute_error (column_values predictions i)
                                       (column_values labels i))
         (seq 0 (length names))).
  split; [done|]. split; [done|]. split.
  - apply Forall2_same_length_lookup. split; [by rewrite length_map, length_seq|].
    intros i name v Hi Hv.
    rewrite list_lookup_fmap in Hv.
    pose proof (lookup_lt_Some _ _ _ Hi) as Hlt.
    rewrite lookup_seq_lt in Hv by done. cbn in Hv. simplify_eq.
    by apply (Hcols Hnd i name Hi).
  - unfold mean_absolute_error.
    rewrite (map_ext _
               (fun i => (Qc_sum (abs_errors (column_values predictions i)
                                             (column_values labels i))
                          / Qc_of_nat n)%Qc)).
    2: { intros i. by rewrite (length_column_values _ n (length names)). }
    rewrite (Qc_sum_map_div
               (fun i => Qc_sum (abs_errors (column_values predictions i)
                                            (column_values labels i)))).
    rewrite (length_flatten _ n (length names)) by done.
    rewrite Qc_of_nat_mul. unfold flatten, column_values.
    destruct HP as (_ & _ & HnP & HrP), HL as (_ & _ & HnL & HrL).
    rewrite (flattened_errors_by_column (length names)) by (done || congruence).
    field. split; by apply Qc_of_nat_nonzero.
Qed.

(** C8 (as amended).  For predictions and labels of shape n-by-k with n
    and k at least one and pairwise distinct output names: every output
    column gives the same number n of elements to the flattened arrays;
    whatever the metric, the value under "mae" is its score on the flattened
    arrays and the value under "mae_<name>" its score on the name's column;
    and with the mean absolute error computed exactly, the value under "mae"
    is the arithmetic mean of the k values under the keys "mae_<name>". *)
Theorem compute_metrics_overall_is_mean (names : list string)
    (predictions labels : ndarray) (n : nat) :
  NoDup names →
  has_shape predictions n (length names) →
  has_shape labels n (length names) →
  (0 < n)%nat → (0 < length names)%nat →
  columns_interleaved predictions n (length names) ∧
  columns_interleaved labels n (length names) ∧
  (∀ metric results,
     Train.compute_metrics metric names (predictions, labels) = Ok results →
     (∃ scores, metric (flatten predictions) (flatten labels) = Ok scores ∧
                results !! "mae" = scores !! "mae") ∧
     ∀ i name, names !! i = Some name →
       ∃ scores,
         metric (column_values predictions i) (column_values labels i)
         = Ok scores ∧
         results !! ("mae_" +:+ name) = scores !! "mae") ∧
  ∃ results overall scores,
    Train.compute_metrics mae_metric names (predictions, labels) = Ok results ∧
    results !! "mae" = Some overall ∧
    Forall2 (fun name v => results !! ("mae_" +:+ name) = Some v) names scores ∧
    overall = (Qc_sum scores / Qc_of_nat (length names))%Qc.
Proof.
  intros Hnd HP HL Hn Hk. split_and!.
  - by apply flatten_columns_interleaved.
  - by apply flatten_columns_interleaved.
  - intros metric results.
    by apply (compute_metrics_scored metric names predictions labels n).
  - by apply (compute_metrics_exact_mean names predictions labels n).
Qed.

Lemma compute_metrics_overall_is_mean_witness :
  ∃ results overall scores,
    Train.compute_metrics mae_metric ["u"; "v"]
      (sample_predictions, sample_labels) = Ok results ∧
    results !! "mae" = Some overall ∧
    Forall2 (fun name v => results !! ("mae_" +:+ name) = Some v)
            ["u"; "v"] scores ∧
    overall = (Qc_sum scores / Qc_of_nat 2)%Qc.
Proof.
  destruct (compute_metrics_overall_is_mean ["u"; "v"]
              sample_predictions sample_labels 1) as (_ & _ & _ & Hmean).
  - by apply (bool_decide_unpack _).
  - repeat split; repeat constructor.
  - repeat split; repeat constructor.
  - lia.
  - cbn. lia.
  - exact Hmean.
Defined.

(** With a repeated name both per-output values are the one stored under
    that name: with the names ["a"; "a"] it is 3, while "mae" holds 2. *)
Lemma compute_metrics_mean_repeated_name :
  ¬ (∀ (names : list string) (predictions labels : ndarray) (n : nat),
       has_shape predictions n (length names) →
       has_shape labels n (length names) →
       (0 < n)%nat → (0 < length names)%nat →
       ∃ results overall scores,
         Train.compute_metrics mae_metric names (predictions, labels)
         = Ok results ∧
         results !! "mae" = Some overall ∧
         Forall2 (fun name v => results !! ("mae_" +:+ name) = Some v)
                 names scores ∧
         overall = (Qc_sum scores / Qc_of_nat (length names))%Qc).
Proof.
  intros Hclaim.
  destruct (Hclaim ["a"; "a"] sample_predictions sample_labels 1%nat)
    as (results & overall & scores & Hres & Hmae & Hscores & Hmean).
  - repeat split; repeat constructor.
  - repeat split; repeat constructor.
  - lia.
  - cbn. lia.
  - destruct (Train.compute_metrics mae_metric ["a"; "a"]
                (sample_predictions, sample_labels)) as [e|d] eqn:Hrun;
      [discriminate|].
    injection Hres as ->.
    apply Forall2_cons_inv_l in Hscores as (v1 & rest & Hv1 & Hrest & ->).
    apply Forall2_cons_inv_l in Hrest as (v2 & rest' & Hv2 & Hnil & ->).
    apply Forall2_nil_inv_l in Hnil as ->.
    vm_compute in Hrun. injection Hrun as <-.
    vm_compute in Hmae, Hv1, Hv2.
    injection Hmae as <-. injection Hv1 as <-. injection Hv2 as <-.
    vm_compute in Hmean. discriminate Hmean.
Qed.

(** In binary64 the identity fails by rounding also for distinct names:
    for three rows and the columns (0, 6, 0) and (6, 9, 7) against zeros,
    the per-output values are 2 and 22/3 rounded down, and "mae" holds 14/3
    rounded up, which is neither their mean nor their mean as binary64
    arithmetic computes it. *)
Lemma compute_metrics_mean_rounding :
  ¬ (∀ (names : list string) (predictions labels : ndarray) (n : nat),
       NoDup names →
       has_shape predictions n (length names) →
       has_shape labels n (length names) →
       (0 < n)%nat → (0 < length names)%nat →
       ∃ results overall scores,
         Train.compute_metrics mae_metric_binary64 names (predictions, labels)
         = Ok results ∧
         results !! "mae" = Some overall ∧
         Forall2 (fun name v => results !! ("mae_" +:+ name) = Some v)
                 names scores ∧
         (overall = (Qc_sum scores / Qc_of_nat (length names))%Qc ∨
          overall = round_binary64
                      (sum_binary64 scores / Qc_of_nat (length names)))).
Proof.
  intros Hclaim.
  destruct (Hclaim ["u"; "v"] sample_tall_predictions sample_tall_labels 3%nat)
    as (results & overall & scores & Hres & Hmae & Hscores & Hmean).
  - by apply (bool_decide_unpack _).
  - repeat split; repeat constructor.
  - repeat split; repeat constructor.
  - lia.
  - cbn. lia.
  - destruct (Train.compute_metrics mae_metric_binary64 ["u"; "v"]
                (sample_tall_predictions, sample_tall_labels)) as [e|d] eqn:Hrun;
      [discriminate|].
    injection Hres as ->.
    apply Forall2_cons_inv_l in Hscores as (v1 & rest & Hv1 & Hrest & ->).
    apply Forall2_cons_inv_l in Hrest as (v2 & rest' & Hv2 & Hnil & ->).
    apply Forall2_nil_inv_l in Hnil as ->.
    vm_compute in Hrun. injection Hrun as <-.
    vm_compute in Hmae, Hv1, Hv2.
    injection Hmae as <-. injection Hv1 as <-. injection Hv2 as <-.
    destruct Hmean as [Hmean|Hmean]; vm_compute in Hmean; discriminate Hmean.
Qed.

(** C8 (as stated) fails twice over: with a repeated name, and, in the
    floating-point arithmetic of the metric, by rounding. *)
Lemma compute_metrics_mean_fails :
  ¬ (∀ (names : list string) (predictions labels : ndarray) (n : nat),
       has_shape predictions n (length names) →
       has_shape labels n (length names) →
       (0 < n)%nat → (0 < length names)%nat →
       ∃ results overall scores,
         Train.compute_metrics mae_metric names (predictions, labels)
         = Ok results ∧
         results !! "mae" = Some overall ∧
         Forall2 (fun name v => results !! ("mae_" +:+ name) = Some v)
                 names scores ∧
         overall = (Qc_sum scores / Qc_of_nat (length names))%Qc) ∧
  ¬ (∀ (names : list string) (predictions labels : ndarray) (n : nat),
       NoDup names →
       has_shape predictions n (length names) →
       has_shape labels n (length names) →
       (0 < n)%nat → (0 < length names)%nat →
       ∃ results overall scores,
         Train.compute_metrics mae_metric_binary64 names (predictions, labels)
         = Ok results ∧
         results !! "mae" = Some overall ∧
         Forall2 (fun name v => results !! ("mae_" +:+ name) = Some v)
                 names scores ∧
         (overall = (Qc_sum scores / Qc_of_nat (length names))%Qc ∨
          overall = round_binary64
                      (sum_binary64 scores / Qc_of_nat (length names)))).
Proof.
  split; [exact compute_metrics_mean_repeated_name
         |exact compute_metrics_mean_rounding].
Qed.

(** The run behind the rounding: the values under "mae_u", "mae_v" and
    "mae", the mean of the first two, and that mean as binary64 arithmetic
    computes it. *)
Example compute_metrics_rounding_run :
  (results ← Train.compute_metrics mae_metric_binary64 ["u"; "v"]
               (sample_tall_predictions, sample_tall_labels);
   u ← getitem results "mae_u";
   v ← getitem results "mae_v";
   overall ← getitem results "mae";
   Ok (this u, this v, this overall,
       this ((u + v) / Qc_of_nat 2)%Qc,
       this (round_binary64 (sum_binary64 [u; v] / Qc_of_nat 2))))
  = Ok ((2 # 1)%Q,
        (8256599316845909 # 1125899906842624)%Q,
        (5254199565265579 # 1125899906842624)%Q,
        (10508399130531157 # 2251799813685248)%Q,
        (2627099782632789 # 562949953421312)%Q).
Proof. vm_compute. reflexivity. Qed.

(** Rounding to binary64: the numbers nearest to 22/3, 14/3 and 1/10, and a
    tie. *)
Example round_binary64_samples :
  this (round_binary64 (Q2Qc (22 # 3))) = (8256599316845909 # 1125899906842624)%Q ∧
  this (round_binary64 (Q2Qc (14 # 3))) = (5254199565265579 # 1125899906842624)%Q ∧
  this (round_binary64 (Q2Qc (1 # 10))) = (3602879701896397 # 36028797018963968)%Q ∧
  this (round_binary64 (Q2Qc (9007199254740993 # 1))) = (9007199254740992 # 1)%Q ∧
  this (round_binary64 (Q2Qc (9007199254740995 # 1))) = (9007199254740996 # 1)%Q.
Proof. vm_compute. by repeat split. Qed.

(** ** [preprocess_batch] *)

Lemma list_comp_Forall2 {A B} (f : A → result B) (l : list A) (ys : list B) :
  list_comp f l = Ok ys ↔ Forall2 (fun x y => f x = Ok y) l ys.
Proof.
  revert ys. induction l as [|x l IH]; intros ys; cbn.
  - split.
    + intros [= <-]. constructor.
    + by intros ->%Forall2_nil_inv_l.
  - split.
    + destruct (f x) as [e|y] eqn:Hx; [done|]. cbn.
      destruct (list_comp f l) as [e|ys'] eqn:Hl; [done|]. cbn.
      intros [= <-]. constructor; [done|]. by apply IH.
    + intros (y & ys' & Hy & Hys & ->)%Forall2_cons_inv_l.
      rewrite Hy. cbn. apply IH in Hys. by rewrite Hys.
Qed.

Lemma list_comp_returns {A B} (f : A → result B) (l : list A) :
  (∀ x, x ∈ l → ∃ y, f x = Ok y) → ∃ ys, list_comp f l = Ok ys.
Proof.
  induction l as [|x l IH]; intros Hall; cbn.
  - by eexists.
  - destruct (Hall x) as [y Hy]; [by left|]. rewrite Hy. cbn.
    destruct IH as [ys Hys]; [intros; apply Hall; by right|].
    rewrite Hys. cbn. by eexists.
Qed.

(** C4.  On a batch that has its images under "jpg" and an iterable of json
    objects under "json", each holding every label key, [preprocess_batch]
    returns the batch with: under "labels", one list per sample, in sample
    order, whose entries are that sample's json values under the label keys,
    in key order; under "pixel_values", the "pixel_values" entry of the
    transform applied to the images; every other field as it was. *)
Theorem preprocess_batch_spec (transform : Callable) (label_keys : list string)
    (samples : gmap string pyval) (jpgs features pixel_values json : pyval)
    (objs : list pyval) :
  samples !! "jpg" = Some jpgs →
  transform jpgs = Ok features →
  py_getitem features "pixel_values" = Ok pixel_values →
  samples !! "json" = Some json →
  py_iter json = Ok objs →
  (∀ obj key, obj ∈ objs → key ∈ label_keys → ∃ v, py_getitem obj key = Ok v) →
  ∃ samples' labels,
    Train.preprocess_batch transform label_keys samples = Ok samples' ∧
    samples' !! "labels" = Some (PList labels) ∧
    Forall2 (fun obj label =>
               ∃ row, label = PList row ∧
                      Forall2 (fun key v => py_getitem obj key = Ok v)
                              label_keys row)
            objs labels ∧
    samples' !! "pixel_values" = Some pixel_values ∧
    ∀ field, field ≠ "labels" → field ≠ "pixel_values" →
             samples' !! field = samples !! field.
Proof.
  intros Hjpg Htr Hpv Hjson Hiter Hkeys.
  set (row_of := fun obj : pyval =>
         row ← list_comp (fun key => py_getitem obj key) label_keys;
         Ok (PList row)).
  destruct (list_comp_returns row_of objs) as [labels Hlabels].
  { intros obj Hobj. unfold row_of.
    destruct (list_comp_returns (fun key => py_getitem obj key) label_keys)
      as [row Hrow]; [by eauto|].
    rewrite Hrow. cbn. by eexists. }
  exists (<[ "labels" := PList labels ]>
            (<[ "pixel_values" := pixel_values ]> samples)), labels.
  split; [|split; [|split; [|split]]].
  - unfold Train.preprocess_batch, getitem.
    rewrite Hjpg. cbn. rewrite Htr. cbn. rewrite Hpv. cbn.
    rewrite lookup_insert_ne, Hjson by done. cbn.
    rewrite Hiter. cbn. fold row_of. by rewrite Hlabels.
  - apply lookup_insert_eq.
  - apply list_comp_Forall2 in Hlabels.
    eapply list.Forall2_impl; [exact Hlabels|].
    intros obj label Hrow. unfold row_of in Hrow.
    destruct (list_comp _ label_keys) as [e|row] eqn:Hcomp; [done|].
    cbn in Hrow. injection Hrow as <-.
    exists row. split; [done|]. by apply list_comp_Forall2.
  - by rewrite lookup_insert_ne, lookup_insert_eq.
  - intros field Hl Hp. by rewrite !lookup_insert_ne.
Qed.

Lemma preprocess_batch_spec_witness :
  ∃ samples' labels,
    Train.preprocess_batch sample_transform ["wave"; "wind"] sample_batch
    = Ok samples' ∧
    samples' !! "labels" = Some (PList labels) ∧
    Forall2 (fun obj label =>
               ∃ row, label = PList row ∧
                      Forall2 (fun key v => py_getitem obj key = Ok v)
                              ["wave"; "wind"] row)
            [ PDict (<[ "wind" := PInt 3 ]> (<[ "wave" := PInt 5 ]> ∅));
              PDict (<[ "wind" := PInt 4 ]> (<[ "wave" := PInt 6 ]> ∅)) ]
            labels ∧
    samples' !! "pixel_values" = Some (PObject 9) ∧
    ∀ field, field ≠ "labels" → field ≠ "pixel_values" →
             samples' !! field = sample_batch !! field.
Proof.
  eapply (preprocess_batch_spec sample_transform ["wave"; "wind"] sample_batch
            (PList [PObject 1; PObject 2]) _ (PObject 9)
            (PList _)).
  - reflexivity.
  - reflexivity.
  - reflexivity.
  - reflexivity.
  - reflexivity.
  - intros obj key Hobj Hkey.
    repeat (apply elem_of_cons in Hobj as [->|Hobj]);
      [| |by apply elem_of_nil in Hobj];
      repeat (apply elem_of_cons in Hkey as [->|Hkey]);
      try (by apply elem_of_nil in Hkey); by eexists.
Defined.

(** The labels of the sample batch, with the keys in the order given. *)
Example preprocess_batch_run :
  (samples' ← Train.preprocess_batch sample_transform ["wave"; "wind"]
                sample_batch;
   Ok (samples' !! "labels"))
  = Ok (Some (PList [PList [PInt 5; PInt 3]; PList [PInt 6; PInt 4]])).
Proof. reflexivity. Qed.

(** ** The parse loop *)

Section ParseLoop.

Variable int_of_str : string → option Z.
Variable float_of_str : string → option pyfloat.
Variable p : ArgumentParser.

Abbreviation take_item := (take_item int_of_str float_of_str).
Abbreviation parse_loop := (parse_loop int_of_str float_of_str).

(** The loop stops at an item only with an error or after printing help. *)
Lemma take_item_stops (st : state) (it : item) (out : outcome) :
  take_item p st it = inl out → ∀ ns, out ≠ Parsed ns.
Proof.
  destruct it as [flag args|arg]; cbn; [|done].
  destruct (is_help flag); [by intros [= <-]|].
  destruct (find_action p flag) as [a|]; [|done].
  destruct (get_values _ _ a args) as [e|[v leftover]]; [by intros [= <-]|].
  destruct (find _ _); [by intros [= <-]|done].
Qed.






(** An attribute no supplied option writes keeps the value it had. *)
Lemma parse_loop_untouched (items : list item) (st : state)
    (ns : gmap string argvalue) (name : string) :
  (∀ flag args, Opt flag args ∈ items → is_Some (find_action p flag) →
                dest flag ≠ name) →
  parse_loop p st items = Parsed ns →
  ns !! name = namespace st !! name.
Proof.
  revert st. induction items as [|it rest IH]; intros st Hfree.
  - cbn. unfold finish. destruct (filter _ _); [|done].
    destruct (extras st); [|done]. by intros [= <-].
  - cbn. destruct (take_item p st it) as [out|st'] eqn:Htake.
    { intros ->. by eapply take_item_stops in Htake. }
    intros Hloop. rewrite (IH st'); [|intros; eapply Hfree; eauto; by right|done].
    destruct it as [flag args|arg]; cbn in Htake.
    + destruct (is_help flag); [done|].
      destruct (find_action p flag) as [a|] eqn:Hact.
      * destruct (get_values _ _ a args) as [e|[v leftover]]; [done|].
        destruct (find _ _); [done|]. injection Htake as <-. cbn.
        apply lookup_insert_ne. eapply Hfree; [by left|by rewrite Hact].
      * by injection Htake as <-.
    + by injection Htake as <-.
Qed.

End ParseLoop.

(** ** train.py: the parser's exclusive group *)





(** ** Running a script step by step *)

Section Steps.

Context {A B : Type}.
Variable k : A → M B.
Variables (env : Env) (tr : list Call).

Lemma step_ret (a : A) : (mret a ≫= k) env tr = k a env tr.
Proof. reflexivity. Qed.

Lemma step_lift (r : result A) :
  (lift r ≫= k) env tr =
  match r with inl e => (tr, inl e) | inr a => k a env tr end.
Proof. by destruct r. Qed.

Lemma step_assoc {C} (m : M C) (f : C → M A) :
  ((m ≫= f) ≫= k) env tr = (m ≫= (fun x => f x ≫= k)) env tr.
Proof.
  unfold mbind, M_bind. destruct (m env tr) as [tr' [e|c]]; reflexivity.
Qed.

Lemma step_call_for (c : Call) (answer : World → A) :
  (call_for c answer ≫= k) env tr =
  if env_raises env tr c then (c :: tr, inl LibraryError)
  else k (answer (env_world env)) env (c :: tr).
Proof. unfold mbind, M_bind, call_for. by destruct (env_raises env tr c). Qed.

Lemma step_record (c : Call) (answer : World → A) :
  (record c answer ≫= k) env tr = k (answer (env_world env)) env (c :: tr).
Proof. reflexivity. Qed.

Lemma step_read (answer : World → A) :
  (read answer ≫= k) env tr = k (answer (env_world env)) env tr.
Proof. reflexivity. Qed.

End Steps.

(** ** Orderly computations *)

Lemma orderly_ret {A} (a : A) : orderly (mret a : M A).
Proof. intros env tr. split; [by exists []|by left]. Qed.

Lemma orderly_lift {A} (r : result A) : orderly (lift r).
Proof. intros env tr. split; [by exists []|by left]. Qed.

Lemma orderly_read {A} (answer : World → A) : orderly (read answer).
Proof. intros env tr. split; [by exists []|by left]. Qed.

Lemma orderly_record {A} (c : Call) (answer : World → A) :
  orderly (record c answer).
Proof. intros env tr. split; [by exists [c]|by left]. Qed.

Lemma orderly_call_for {A} (c : Call) (answer : World → A) :
  orderly (call_for c answer).
Proof.
  intros env tr. split; [by exists [c]|].
  unfold call_for. cbn. destruct (env_raises env tr c).
  - right. split; [done|]. by exists [].
  - by left.
Qed.

Lemma orderly_call (c : Call) : orderly (call c).
Proof. apply orderly_call_for. Qed.

Lemma orderly_bind {A B} (m : M A) (k : A → M B) :
  orderly m → (∀ a, orderly (k a)) → orderly (m ≫= k).
Proof.
  intros Hm Hk env tr. unfold mbind, M_bind.
  destruct (Hm env tr) as [[added Hadd] Hsim].
  destruct (Hm (quiet env) tr) as [[addedq Haddq] _].
  destruct (m env tr) as [t1 r1] eqn:Hrun.
  destruct (m (quiet env) tr) as [t2 r2] eqn:Hrunq.
  cbn in Hadd, Haddq, Hsim.
  destruct Hsim as [[= <- <-]|[-> [later ->]]].
  - destruct r1 as [e|a].
    + split; [by exists added|by left].
    + destruct (Hk a env t1) as [[added' Hadd'] Hsim'].
      split; [|done].
      exists (added' ++ added). by rewrite Hadd', Hadd, app_assoc.
  - split; [by exists added|]. right. split; [done|]. cbn.
    destruct r2 as [e|a]; [by exists later|].
    destruct (Hk a (quiet env) (later ++ t1)) as [[added' Hadd'] _].
    exists (added' ++ later). by rewrite Hadd', app_assoc.
Qed.

(** A run either is the run in which no call raises, or stopped with a
    library error after an initial part of it. *)
Lemma orderly_run {A} (m : M A) (env : Env) (tr : list Call) (r : result A) :
  orderly m → run m env = (tr, r) →
  run m (quiet env) = (tr, r) ∨
  (r = inl LibraryError ∧ tr `prefix_of` (run m (quiet env)).1).
Proof.
  intros Hm. unfold run. destruct (Hm env []) as [_ Hsim].
  destruct (m env []) as [t1 r1], (m (quiet env) []) as [t2 r2].
  cbn in Hsim. intros [= <- <-].
  destruct Hsim as [[= <- <-]|[-> [later ->]]]; [by left|].
  right. split; [done|]. cbn. exists (rev later). by rewrite rev_app_distr.
Qed.

Ltac orderly_steps :=
  repeat first
    [ apply orderly_bind
    | apply orderly_call
    | apply orderly_call_for
    | apply orderly_record
    | apply orderly_read
    | apply orderly_lift
    | apply orderly_ret
    | intro
    | case_match ].

Lemma train_main_orderly (args : Train.Args) : orderly (Train.main args).
Proof. unfold Train.main. orderly_steps. Qed.

Lemma calls_orderly (cs : list Call) : orderly (TestBeaufort.calls cs).
Proof. induction cs; cbn; orderly_steps. done. Qed.

Lemma test_loop_orderly (model' : Model) (dev : device) (i : nat)
    (batches : list (list string)) :
  orderly (TestBeaufort.test_loop model' dev i batches).
Proof.
  revert i. induction batches as [|columns rest IH]; intros i; cbn.
  - apply orderly_ret.
  - apply orderly_bind; [apply calls_orderly|]. orderly_steps. apply IH.
Qed.

Lemma test_main_orderly (args : TestBeaufort.Args) :
  orderly (TestBeaufort.main args).
Proof.
  unfold TestBeaufort.main.
  repeat first
    [ apply test_loop_orderly
    | apply orderly_bind
    | apply orderly_call
    | apply orderly_record
    | apply orderly_read
    | apply orderly_ret
    | intro
    | case_match ].
Qed.

(** One step of a run in which no call raises, held in hypothesis [H]: the
    statement at the head is executed, or a condition it depends on is
    decided. *)
Ltac quiet_step H :=
  cbv beta iota zeta in H;
  first
    [ rewrite step_call_for in H
    | rewrite step_record in H
    | rewrite step_read in H
    | rewrite step_ret in H
    | rewrite step_lift in H
    | rewrite step_assoc in H
    | match type of H with
      | context [if ?b then _ else _] => destruct b eqn:?
      | context [match ?x with inl _ => _ | inr _ => _ end] => destruct x eqn:?
      | context [match ?x with Some _ => _ | None => _ end] => destruct x eqn:?
      end ];
  cbn [env_raises env_world quiet] in H; cbv beta iota zeta in H.

Lemma omap_prefix_of {A B} (f : A → option B) (l1 l2 : list A) :
  l1 `prefix_of` l2 → omap f l1 `prefix_of` omap f l2.
Proof. intros [k ->]. exists (omap f k). apply omap_app. Qed.

(** ** train.py: the order of a run *)

Lemma train_main_quiet_order (env : Env) (args : Train.Args)
    (full : list Call) (rq : result unit) :
  run (Train.main args) (quiet env) = (full, rq) →
  omap stage full `prefix_of` [0; 1; 2; 3; 4]%nat ∧
  (rq = Ok tt →
   let out_dir := output_directory (env_world env) args in
   ∃ before model' names test_ds,
     Train.output_names args = Some names ∧
     ds_split test_ds = "test" ∧
     omap stage before = [] ∧
     full = before ++
       [ trainer_train (Train.checkpoint args);
         trainer_predict test_ds;
         logger_info "Test results: %s" [LObject "test_result"];
         torch_save model' (os_path_join out_dir "model.pt");
         logger_info "Model saved successfully to %s" [LStr out_dir];
         open_for_writing (os_path_join out_dir "output_names.txt");
         file_write (os_path_join out_dir "output_names.txt")
                    (str_join newline names) ]).
Proof.
  unfold run. destruct (Train.main args (quiet env) []) as [t r0] eqn:H.
  intros [= <- <-].
  unfold Train.main, call, log_info, path_exists in H.
  unfold output_directory.
  repeat quiet_step H.
  all: injection H as <- <-.
  all: split; [cbn; by eexists|].
  all: try discriminate.
  all: intros _; cbv beta iota zeta;
    try match goal with Hb : truthy _ = _ |- _ => rewrite Hb end.
  all: match goal with
       | Hj : py_join _ ?o = inr _ |- _ =>
           revert Hj; destruct o as [names|] eqn:Hnames; intros Hj;
           [injection Hj as <-|discriminate Hj]
       end.
  all: match goal with
       | |- context [rev (?a :: ?b :: ?c :: ?d :: ?e :: ?f :: ?g :: ?rest)] =>
           change (rev (a :: b :: c :: d :: e :: f :: g :: rest))
             with (rev ([a; b; c; d; e; f; g] ++ rest));
           rewrite rev_app_distr; exists (rev rest)
       end.
  all: do 3 eexists; split; [reflexivity|]; split; [|split];
    [|reflexivity|cbn [rev app]; reflexivity]; reflexivity.
Qed.

(** C7.  In every run of the training script the calls that train, predict,
    save the model, open the output-names file and write it occur at most
    once each and in this order.  A run that completes ends with exactly
    these calls, with only logging between them: training, prediction on the
    "test" split, the model saved to model.pt in the output directory, and
    the output names, joined by newlines, written to output_names.txt in
    the output directory. *)
Theorem train_main_sequence (env : Env) (args : Train.Args)
    (tr : list Call) (r : result unit) :
  run (Train.main args) env = (tr, r) →
  omap stage tr `prefix_of` [0; 1; 2; 3; 4]%nat ∧
  (r = Ok tt →
   let out_dir := output_directory (env_world env) args in
   ∃ before model' names test_ds,
     Train.output_names args = Some names ∧
     ds_split test_ds = "test" ∧
     omap stage before = [] ∧
     tr = before ++
       [ trainer_train (Train.checkpoint args);
         trainer_predict test_ds;
         logger_info "Test results: %s" [LObject "test_result"];
         torch_save model' (os_path_join out_dir "model.pt");
         logger_info "Model saved successfully to %s" [LStr out_dir];
         open_for_writing (os_path_join out_dir "output_names.txt");
         file_write (os_path_join out_dir "output_names.txt")
                    (str_join newline names) ]).
Proof.
  intros Hrun.
  destruct (orderly_run _ _ _ _ (train_main_orderly args) Hrun)
    as [Hquiet|[-> Hprefix]].
  - by apply (train_main_quiet_order env args).
  - split; [|done].
    destruct (run (Train.main args) (quiet env)) as [full rq] eqn:Hquiet.
    apply train_main_quiet_order in Hquiet as [Hfull _].
    etrans; [|exact Hfull]. by apply omap_prefix_of.
Qed.

Lemma train_main_sequence_witness :
  let out_dir := output_directory sample_world sample_args in
  ∃ before model' names test_ds,
    Train.output_names sample_args = Some names ∧
    ds_split test_ds = "test" ∧
    omap stage before = [] ∧
    (run (Train.main sample_args) sample_env).1 = before ++
      [ trainer_train (Train.checkpoint sample_args);
        trainer_predict test_ds;
        logger_info "Test results: %s" [LObject "test_result"];
        torch_save model' (os_path_join out_dir "model.pt");
        logger_info "Model saved successfully to %s" [LStr out_dir];
        open_for_writing (os_path_join out_dir "output_names.txt");
        file_write (os_path_join out_dir "output_names.txt")
                   (str_join newline names) ].
Proof.
  apply (train_main_sequence sample_env sample_args
           (run (Train.main sample_args) sample_env).1
           (run (Train.main sample_args) sample_env).2).
  - vm_compute. reflexivity.
  - vm_compute. reflexivity.
Defined.

(** The last calls of the sample run. *)
Example train_main_sample_run :
  omap (fun c => match c with
                 | torch_save _ path => Some path
                 | file_write path content => Some (path +:+ ": " +:+ content)
                 | _ => None
                 end)
       (run (Train.main sample_args) sample_env).1
  = [ "data/train/2024_05_01_1200/model.pt";
      "data/train/2024_05_01_1200/output_names.txt: wind_speed" +:+ newline
        +:+ "wave_height" ].
Proof. vm_compute. reflexivity. Qed.

(** ** train.py: the number of training steps *)

Lemma floordiv_Ok (a b q : Z) :
  floordiv a b = inr q → b ≠ 0%Z ∧ q = (a `div` b)%Z.
Proof. unfold floordiv. case_bool_decide; [done|]. by intros [= <-]. Qed.

Lemma elem_of_prefix {A} (l1 l2 : list A) (x : A) :
  l1 `prefix_of` l2 → x ∈ l1 → x ∈ l2.
Proof. intros [k ->] Hin. apply elem_of_app. by left. Qed.

(** A call that occurs in a trace that is written out. *)
Ltac find_call :=
  cbn [rev app]; repeat first [by left | right].

(** The occurrences of a call in a trace that is written out. *)
Ltac pick_call Hin :=
  cbn [rev app] in Hin;
  repeat (apply elem_of_cons in Hin as [Hin|Hin]; [try discriminate Hin|]);
  try (by apply elem_of_nil in Hin).




(** The sample run: 65536 // 32 * 30 steps, on take(65536). *)
Example train_main_sample_steps :
  omap (fun c => match c with
                 | new_Trainer init =>
                     match ta_origin (trainer_args init) with
                     | TrainingArguments i =>
                         Some (ta_max_steps i, head (ds_ops (train_dataset init)))
                     | _ => None
                     end
                 | _ => None
                 end)
       (run (Train.main sample_args) sample_env).1
  = [ (61440%Z, Some (ds_take 65536)) ].
Proof. vm_compute. reflexivity. Qed.

(** ** train.py: resuming from a checkpoint *)

Lemma truthy_nonempty (s : string) : s ≠ "" → truthy (Some s) = true.
Proof. intros Hs. cbn. by rewrite bool_decide_eq_false_2. Qed.

Lemma train_main_hyperparameters_unused (env : Env) (args : Train.Args)
    (ckpt : string) (lr wr : pyfloat) (ep bs : Z) :
  Train.checkpoint args = Some ckpt →
  Train.batch_size args ≠ 0%Z → bs ≠ 0%Z →
  run (Train.main (with_hyperparameters args lr wr ep bs)) env
  = run (Train.main args) env.
Proof.
  intros Hckpt Hbs Hbs'. unfold run. f_equal.
  unfold Train.main, floordiv.
  cbn [with_hyperparameters Train.input Train.rotation Train.checkpoint
       Train.model Train.output Train.epochs Train.batch_size
       Train.learning_rate Train.warmup_ratio Train.output_names].
  rewrite Hckpt.
  rewrite !(bool_decide_eq_false_2 (_ = 0%Z)) by done.
  reflexivity.
Qed.

Lemma train_main_quiet_resume (env : Env) (args : Train.Args) (ckpt : string)
    (full : list Call) (rq : result unit) :
  Train.checkpoint args = Some ckpt → ckpt ≠ "" →
  run (Train.main args) (quiet env) = (full, rq) →
  (∀ src, image_processor_from_pretrained src ∈ full →
          src = os_path_join ckpt os_pardir) ∧
  (∀ path, torch_load path ∈ full →
           path = ckpt ∨ path = os_path_join ckpt "training_args.bin") ∧
  (∀ init, new_TrainingArguments init ∉ full) ∧
  (∀ init, new_Trainer init ∈ full →
     trainer_model init = torch_load_model ckpt ∧
     trainer_args init =
       {| ta_origin := torch_load_args (os_path_join ckpt "training_args.bin");
          ignore_data_skip := Some true |} ∧
     ds_ops (eval_dataset init) =
       [ ds_map (partial_preprocess_batch
                   (AutoImageProcessor_from_pretrained
                      (os_path_join ckpt os_pardir))
                   (Train.output_names args)) true;
         ds_select_columns ["labels"; "pixel_values"] ]) ∧
  (∀ m path, torch_save m path ∈ full →
     m = torch_load_model ckpt ∧
     path = os_path_join (os_path_join ckpt os_pardir) "model.pt") ∧
  (rq = Ok tt →
     image_processor_from_pretrained (os_path_join ckpt os_pardir) ∈ full ∧
     torch_load ckpt ∈ full ∧
     torch_load (os_path_join ckpt "training_args.bin") ∈ full ∧
     trainer_train (Some ckpt) ∈ full ∧
     ∃ init, new_Trainer init ∈ full).
Proof.
  intros Hckpt Hne. unfold run.
  destruct (Train.main args (quiet env) []) as [t r0] eqn:H.
  intros [= <- <-].
  unfold Train.main, call, log_info, path_exists in H.
  rewrite Hckpt, (truthy_nonempty ckpt Hne) in H.
  repeat quiet_step H.
  all: injection H as <- <-.
  all: split_and!.
  all: try first [ intros ? ? Hin; pick_call Hin | intros ? Hin; pick_call Hin ].
  all: try discriminate.
  all: try (by injection Hin as ->; auto).
  all: try (by injection Hin as -> ->).
  all: intros _; split_and!; try find_call; eexists; find_call.
Qed.

(** Resuming from a checkpoint that is not the empty string: the output
    directory is the checkpoint path joined with "..";
    the image processor is loaded from that directory and from nowhere
    else; the model is the object loaded from the checkpoint path and the
    training arguments are the object loaded from training_args.bin in it,
    with ignore_data_skip set to True, and these are what the Trainer gets;
    no TrainingArguments are constructed; the model is saved into the
    output directory.  A run that completes has made all these calls.  With
    a nonzero batch size, the run is the same whatever the learning rate,
    the warmup ratio, the number of epochs and the (nonzero) batch size. *)
Theorem train_main_resume (env : Env) (args : Train.Args) (ckpt : string)
    (tr : list Call) (r : result unit) :
  Train.checkpoint args = Some ckpt → ckpt ≠ "" →
  run (Train.main args) env = (tr, r) →
  (∀ src, image_processor_from_pretrained src ∈ tr →
          src = os_path_join ckpt os_pardir) ∧
  (∀ path, torch_load path ∈ tr →
           path = ckpt ∨ path = os_path_join ckpt "training_args.bin") ∧
  (∀ init, new_TrainingArguments init ∉ tr) ∧
  (∀ init, new_Trainer init ∈ tr →
     trainer_model init = torch_load_model ckpt ∧
     trainer_args init =
       {| ta_origin := torch_load_args (os_path_join ckpt "training_args.bin");
          ignore_data_skip := Some true |} ∧
     ds_ops (eval_dataset init) =
       [ ds_map (partial_preprocess_batch
                   (AutoImageProcessor_from_pretrained
                      (os_path_join ckpt os_pardir))
                   (Train.output_names args)) true;
         ds_select_columns ["labels"; "pixel_values"] ]) ∧
  (∀ m path, torch_save m path ∈ tr →
     m = torch_load_model ckpt ∧
     path = os_path_join (os_path_join ckpt os_pardir) "model.pt") ∧
  (r = Ok tt →
     image_processor_from_pretrained (os_path_join ckpt os_pardir) ∈ tr ∧
     torch_load ckpt ∈ tr ∧
     torch_load (os_path_join ckpt "training_args.bin") ∈ tr ∧
     trainer_train (Some ckpt) ∈ tr ∧
     ∃ init, new_Trainer init ∈ tr) ∧
  (∀ lr wr ep bs, Train.batch_size args ≠ 0%Z → bs ≠ 0%Z →
     run (Train.main (with_hyperparameters args lr wr ep bs)) env = (tr, r)).
Proof.
  intros Hckpt Hne Hrun.
  assert (Hsame : ∀ lr wr ep bs, Train.batch_size args ≠ 0%Z → bs ≠ 0%Z →
    run (Train.main (with_hyperparameters args lr wr ep bs)) env = (tr, r)).
  { intros lr wr ep bs Hbs Hbs'.
    by rewrite (train_main_hyperparameters_unused env args ckpt). }
  destruct (orderly_run _ _ _ _ (train_main_orderly args) Hrun)
    as [Hquiet|[-> Hprefix]].
  - destruct (train_main_quiet_resume env args ckpt tr r Hckpt Hne Hquiet)
      as (H1 & H2 & H3 & H4 & H5 & H6).
    by split_and!.
  - destruct (run (Train.main args) (quiet env)) as [full rq] eqn:Hquiet.
    destruct (train_main_quiet_resume env args ckpt full rq Hckpt Hne Hquiet)
      as (H1 & H2 & H3 & H4 & H5 & _).
    split_and!; [..|done|done].
    + intros src Hin. apply H1. by eapply elem_of_prefix.
    + intros path Hin. apply H2. by eapply elem_of_prefix.
    + intros init Hin. apply (H3 init). by eapply elem_of_prefix.
    + intros init Hin. apply H4. by eapply elem_of_prefix.
    + intros m path Hin. apply H5. by eapply elem_of_prefix.
Qed.

Lemma train_main_resume_witness :
  image_processor_from_pretrained (os_path_join "runs/checkpoint-500" os_pardir)
  ∈ (run (Train.main sample_resume_args) sample_env).1 ∧
  torch_load "runs/checkpoint-500"
  ∈ (run (Train.main sample_resume_args) sample_env).1 ∧
  torch_load (os_path_join "runs/checkpoint-500" "training_args.bin")
  ∈ (run (Train.main sample_resume_args) sample_env).1 ∧
  trainer_train (Some "runs/checkpoint-500")
  ∈ (run (Train.main sample_resume_args) sample_env).1 ∧
  ∃ init, new_Trainer init ∈ (run (Train.main sample_resume_args) sample_env).1.
Proof.
  apply (train_main_resume sample_env sample_resume_args "runs/checkpoint-500"
           (run (Train.main sample_resume_args) sample_env).1
           (run (Train.main sample_resume_args) sample_env).2).
  - reflexivity.
  - discriminate.
  - vm_compute. reflexivity.
  - vm_compute. reflexivity.
Defined.

(** The sample run resumed from a checkpoint: where the image processor, the
    model and the training arguments are loaded from, and where the model
    is saved. *)
Example train_main_sample_resume :
  omap (fun c => match c with
                 | image_processor_from_pretrained src => Some src
                 | torch_load path => Some path
                 | torch_save _ path => Some path
                 | _ => None
                 end)
       (run (Train.main sample_resume_args) sample_env).1
  = [ "runs/checkpoint-500/..";
      "runs/checkpoint-500";
      "runs/checkpoint-500/training_args.bin";
      "runs/checkpoint-500/../model.pt" ].
Proof. vm_compute. reflexivity. Qed.

(** C2.  The code at the empty string given as checkpoint: the string
    counts as no checkpoint where the output directory is chosen (line 65,
    [if args.checkpoint:]) and as a checkpoint where the model is loaded
    (line 88, [args.checkpoint is None]), so that the image processor is
    loaded from a fresh directory under --output, and not from the parent
    directory of the checkpoint, as C2 has it. *)
Lemma train_main_empty_checkpoint :
  ¬ (∀ (env : Env) (args : Train.Args) (ckpt : string)
       (tr : list Call) (r : result unit),
       Train.checkpoint args = Some ckpt →
       run (Train.main args) env = (tr, r) →
       ∀ src, image_processor_from_pretrained src ∈ tr →
              src = os_path_join ckpt os_pardir).
Proof.
  intros Hclaim.
  assert (Hsrc : "data/train/2024_05_01_1200" = os_path_join "" os_pardir).
  { apply (Hclaim sample_env sample_empty_checkpoint_args ""
             (run (Train.main sample_empty_checkpoint_args) sample_env).1
             (run (Train.main sample_empty_checkpoint_args) sample_env).2).
    - reflexivity.
    - vm_compute. reflexivity.
    - vm_compute. repeat first [by left | right]. }
  vm_compute in Hsrc. discriminate Hsrc.
Qed.

(** Resuming with a batch size of zero: the division of line 85 is made
    whether or not a checkpoint is given. *)
Example train_main_resume_zero_batch_size :
  (run (Train.main (with_hyperparameters sample_resume_args
                      (Float "0.001") (Float "0.1") 30 0)) sample_env).2
  = inl ZeroDivisionError.
Proof. vm_compute. reflexivity. Qed.

(** The run with the empty string as checkpoint: where the image
    processor, the model and the training arguments are loaded from. *)
Example train_main_empty_checkpoint_run :
  omap (fun c => match c with
                 | image_processor_from_pretrained src => Some src
                 | torch_load path => Some path
                 | _ => None
                 end)
       (run (Train.main sample_empty_checkpoint_args) sample_env).1
  = [ "data/train/2024_05_01_1200"; ""; "training_args.bin" ].
Proof. vm_compute. reflexivity. Qed.

(** ** train.py: the rotation augmentation *)

Lemma train_main_quiet_pipelines (env : Env) (args : Train.Args)
    (full : list Call) (rq : result unit) :
  run (Train.main args) (quiet env) = (full, rq) →
  (∀ init, new_Trainer init ∈ full →
     eval_dataset init = preprocessed_split (env_world env) args "validation" ∧
     match Train.rotation args with
     | None =>
         ∀ aug b, ds_map (partial_augment_batch aug) b
                  ∉ ds_ops (train_dataset init)
     | Some deg =>
         ds_map (partial_augment_batch (RandomRotation deg "bilinear")) true
         ∈ ds_ops (train_dataset init)
     end) ∧
  (∀ ds, trainer_predict ds ∈ full →
     ds = preprocessed_split (env_world env) args "test").
Proof.
  unfold run.
  destruct (Train.main args (quiet env) []) as [t r0] eqn:H.
  intros [= <- <-].
  unfold Train.main, call, log_info, path_exists in H.
  unfold preprocessed_split, image_processor_source, output_directory.
  repeat quiet_step H.
  all: injection H as <- <-.
  all: split.
  all: intros ? Hin; pick_call Hin.
  all: injection Hin as ->.
  all: cbv beta iota zeta;
    try match goal with Hb : truthy _ = _ |- _ => rewrite Hb end.
  all: try reflexivity.
  all: split; [reflexivity|].
  all: cbn [train_dataset ds_ops ds_apply Train.full_dataset app].
  all: try find_call.
  all: intros aug b Hin; pick_call Hin.
Qed.

(** The pipelines of any run: the validation and test pipelines are the
    preprocessed splits; the training pipeline has the augmentation step
    exactly when a rotation is given. *)
Lemma train_main_pipelines (env : Env) (args : Train.Args)
    (tr : list Call) (r : result unit) :
  run (Train.main args) env = (tr, r) →
  (∀ init, new_Trainer init ∈ tr →
     eval_dataset init = preprocessed_split (env_world env) args "validation" ∧
     match Train.rotation args with
     | None =>
         ∀ aug b, ds_map (partial_augment_batch aug) b
                  ∉ ds_ops (train_dataset init)
     | Some deg =>
         ds_map (partial_augment_batch (RandomRotation deg "bilinear")) true
         ∈ ds_ops (train_dataset init)
     end) ∧
  (∀ ds, trainer_predict ds ∈ tr →
     ds = preprocessed_split (env_world env) args "test").
Proof.
  intros Hrun.
  destruct (orderly_run _ _ _ _ (train_main_orderly args) Hrun)
    as [Hquiet|[-> Hprefix]].
  - by apply (train_main_quiet_pipelines env args tr r).
  - destruct (run (Train.main args) (quiet env)) as [full rq] eqn:Hquiet.
    destruct (train_main_quiet_pipelines env args full rq Hquiet) as [H1 H2].
    split.
    + intros init Hin. apply H1. by eapply elem_of_prefix.
    + intros ds Hin. apply H2. by eapply elem_of_prefix.
Qed.

(** C9.  Take two runs in the same surroundings whose arguments differ only
    in --rotation.  The validation pipeline the Trainer gets and the test
    pipeline given to predict are the same in both.  The training pipeline
    of a run without --rotation has no augmentation step; with --rotation
    it has one. *)
Theorem train_main_rotation_frame (env env' : Env) (args : Train.Args)
    (rot rot' : option pyfloat) (tr tr' : list Call) (r r' : result unit) :
  env_world env' = env_world env →
  run (Train.main (with_rotation args rot)) env = (tr, r) →
  run (Train.main (with_rotation args rot')) env' = (tr', r') →
  (∀ init init', new_Trainer init ∈ tr → new_Trainer init' ∈ tr' →
     eval_dataset init = eval_dataset init') ∧
  (∀ ds ds', trainer_predict ds ∈ tr → trainer_predict ds' ∈ tr' →
     ds = ds') ∧
  (∀ init, new_Trainer init ∈ tr →
     match rot with
     | None =>
         ∀ aug b, ds_map (partial_augment_batch aug) b
                  ∉ ds_ops (train_dataset init)
     | Some deg =>
         ds_map (partial_augment_batch (RandomRotation deg "bilinear")) true
         ∈ ds_ops (train_dataset init)
     end).
Proof.
  intros Hworld Hrun Hrun'.
  apply train_main_pipelines in Hrun as [Hval Htest].
  apply train_main_pipelines in Hrun' as [Hval' Htest'].
  rewrite Hworld in Hval', Htest'.
  split_and!.
  - intros init init' Hin Hin'.
    destruct (Hval init Hin) as [-> _], (Hval' init' Hin') as [-> _].
    reflexivity.
  - intros ds ds' Hin Hin'.
    by rewrite (Htest ds Hin), (Htest' ds' Hin').
  - intros init Hin. by destruct (Hval init Hin) as [_ Haug].
Qed.

Lemma train_main_rotation_frame_witness :
  preprocessed_split sample_world (with_rotation sample_args None) "test"
  = preprocessed_split sample_world
      (with_rotation sample_args (Some (Float "15"))) "test".
Proof.
  apply (train_main_rotation_frame sample_env sample_env sample_args
           None (Some (Float "15"))
           (run (Train.main (with_rotation sample_args None)) sample_env).1
           (run (Train.main (with_rotation sample_args (Some (Float "15"))))
                sample_env).1
           (run (Train.main (with_rotation sample_args None)) sample_env).2
           (run (Train.main (with_rotation sample_args (Some (Float "15"))))
                sample_env).2).
  - reflexivity.
  - vm_compute. reflexivity.
  - vm_compute. reflexivity.
  - vm_compute. repeat first [by left | right].
  - vm_compute. repeat first [by left | right].
Defined.

(** The sample run without and with a rotation: the operations of the
    training pipeline. *)
Example train_main_sample_rotation :
  let train_ops rot :=
    omap (fun c => match c with
                   | new_Trainer init =>
                       Some (length (ds_ops (train_dataset init)))
                   | _ => None
                   end)
         (run (Train.main (with_rotation sample_args rot)) sample_env).1 in
  train_ops None = [4%nat] ∧ train_ops (Some (Float "15")) = [5%nat].
Proof. split; vm_compute; reflexivity. Qed.

(** ** test_beaufort.py: the device *)

Lemma step_bind {A B} (m : M A) (k : A → M B) (env : Env) (tr : list Call) :
  (m ≫= k) env tr =
  match m env tr with
  | (tr', inl e) => (tr', inl e)
  | (tr', inr a) => k a env tr'
  end.
Proof. reflexivity. Qed.

Lemma calls_adds (cs : list Call) (env : Env) (tr tr' : list Call)
    (r : result unit) :
  TestBeaufort.calls cs env tr = (tr', r) →
  ∃ added, tr' = added ++ tr ∧ Forall (fun c => c ∈ cs) added.
Proof.
  revert tr. induction cs as [|c cs IH]; intros tr; cbn.
  - intros [= <- <-]. by exists [].
  - unfold call. rewrite step_call_for.
    destruct (env_raises env tr c).
    + intros [= <- <-]. exists [c]. split; [done|].
      repeat constructor.
    + intros Hrest. apply IH in Hrest as (added & -> & Hall).
      exists (added ++ [c]). split; [by rewrite <- app_assoc|].
      apply Forall_app. split.
      * eapply list.Forall_impl; [exact Hall|]. intros x Hx. by right.
      * repeat constructor.
Qed.

Lemma test_loop_adds (model' : Model) (dev : device) (batches : list (list string))
    (i : nat) (env : Env) (tr tr' : list Call) (r : result unit) :
  TestBeaufort.test_loop model' dev i batches env tr = (tr', r) →
  ∃ added, tr' = added ++ tr ∧ Forall (loop_call model' dev) added.
Proof.
  revert i tr. induction batches as [|columns rest IH]; intros i tr; cbn.
  - intros [= <- <-]. by exists [].
  - assert (Hloop : ∀ added1 l,
      Forall (loop_call model' dev) added1 →
      l `suffix_of`
        [ accuracy_add_batch i
            {| tensor_batch := i; tensor_column := "labels";
               tensor_device := Some dev |};
          torch_argmax i;
          model_forward model'
            (map (fun k => (k, {| tensor_batch := i; tensor_column := k;
                                  tensor_device := Some dev |})) columns) ] →
      Forall (loop_call model' dev) (l ++ added1)).
    { intros added1 l Hadded [k Hl]. apply Forall_app. split; [|done].
      assert (Hall : Forall (loop_call model' dev) (k ++ l)).
      { rewrite <- Hl. repeat constructor.
        apply Forall_fmap, Forall_true. done. }
      by apply Forall_app in Hall as [_ Hall]. }
    rewrite step_bind.
    destruct (TestBeaufort.calls _ env tr) as [tr1 [e|[]]] eqn:Hcalls;
      apply calls_adds in Hcalls as (added1 & -> & Hall1).
    all: assert (Hloop1 : Forall (loop_call model' dev) added1)
      by (eapply list.Forall_impl; [exact Hall1|]; intros c Hc;
          apply list_elem_of_fmap in Hc as (t & -> & _); done).
    { intros [= <- <-]. by exists added1. }
    unfold call. rewrite step_call_for.
    destruct (env_raises env _ _).
    { intros [= <- <-]. eexists (_ :: added1). split; [done|].
      apply (Hloop added1 [_]); [done|]. by eexists [_; _]. }
    rewrite step_call_for. destruct (env_raises env _ _).
    { intros [= <- <-]. eexists (_ :: _ :: added1). split; [done|].
      apply (Hloop added1 [_; _]); [done|]. by eexists [_]. }
    rewrite step_lift.
    destruct (TestBeaufort.batch_getitem _ _) as [e|refs] eqn:Hrefs.
    { intros [= <- <-]. eexists (_ :: _ :: added1). split; [done|].
      apply (Hloop added1 [_; _]); [done|]. by eexists [_]. }
    assert (Hrefs' : loop_call model' dev (accuracy_add_batch i refs)) by done.
    rewrite step_call_for. destruct (env_raises env _ _).
    { intros [= <- <-]. eexists (_ :: _ :: _ :: added1). split; [done|].
      constructor; [done|].
      apply (Hloop added1 [_; _]); [done|]. by eexists [_]. }
    intros Hrest. apply IH in Hrest as (added & -> & Hall).
    eexists (added ++ _ :: _ :: _ :: added1).
    split; [by rewrite <- app_assoc|].
    apply Forall_app. split; [done|].
    constructor; [done|].
    apply (Hloop added1 [_; _]); [done|]. by eexists [_].
Qed.

Lemma loop_call_phase (m : Model) (d : device) (c : Call) :
  loop_call m d c → phase_of c = Some evaluating ∧ writes c = false.
Proof. by destruct c. Qed.

Lemma omap_phase_loop (m : Model) (d : device) (l : list Call) :
  Forall (loop_call m d) l →
  omap phase_of l = replicate (length l) evaluating.
Proof.
  induction 1 as [|c l Hc _ IH]; [done|].
  cbn. apply loop_call_phase in Hc as [-> _]. by rewrite IH.
Qed.

Lemma Forall_loop_call_rev (m : Model) (d : device) (l : list Call) :
  Forall (loop_call m d) l → Forall (loop_call m d) (rev l).
Proof. apply List.Forall_rev. Qed.

(** The places where a call can occur in a trace built from appended
    parts. *)
Ltac trace_cases Hin :=
  repeat first
    [ apply elem_of_app in Hin as [Hin|Hin]
    | apply elem_of_cons in Hin as [Hin|Hin]
    | (apply elem_of_nil in Hin; destruct Hin) ];
  try discriminate Hin.

Lemma Forall_elem_of {A} (P : A → Prop) (l : list A) :
  Forall P l → ∀ x, x ∈ l → P x.
Proof.
  intros Hall x Hx. apply list_elem_of_In in Hx.
  by apply (proj1 (List.Forall_forall P l) Hall).
Qed.

Lemma test_main_quiet (env : Env) (args : TestBeaufort.Args)
    (full : list Call) (rq : result unit) :
  run (TestBeaufort.main args) (quiet env) = (full, rq) →
  let dev := select_device (env_world env) in
  let loaded :=
    torch_load_model (os_path_join (TestBeaufort.model_dir args) "model.pt") in
  (∀ m d, call_model_to m d ∈ full → m = loaded ∧ d = dev) ∧
  (mps_is_available ∈ full → world_cuda (env_world env) = false) ∧
  (∀ m, model_eval m ∈ full → m = model_to loaded dev) ∧
  (∀ c, c ∈ full → loop_call (model_to loaded dev) dev c ∨
                    match c with
                    | tensor_to _ _ | model_forward _ _ => False
                    | _ => True
                    end) ∧
  (∃ n, omap phase_of full = [] ∨
        omap phase_of full = moving :: replicate n evaluating) ∧
  Forall (fun c => writes c = false) full ∧
  (rq = Ok tt →
   logger_info "Accuracy: %s" [LObject "accuracy"] ∈ full ∧
   ∃ n, omap phase_of full = moving :: replicate (S n) evaluating).
Proof.
  unfold run.
  destruct (TestBeaufort.main args (quiet env) []) as [t r0] eqn:H.
  intros [= <- <-].
  unfold TestBeaufort.main, call, log_info, query_cuda, query_mps in H.
  unfold select_device.
  repeat quiet_step H.
  all: rewrite step_bind in H.
  all: match type of H with
       | context [TestBeaufort.test_loop ?m ?d ?i ?b ?e ?t] =>
           destruct (TestBeaufort.test_loop m d i b e t)
             as [tr1 [e1|[]]] eqn:Hloop;
           apply test_loop_adds in Hloop as (added & -> & Hadded)
       end.
  all: repeat quiet_step H.
  all: injection H as <- <-.
  all: apply Forall_loop_call_rev in Hadded.
  all: cbn [rev]; rewrite ?rev_app_distr; cbn [rev app];
    rewrite <- ?app_assoc; cbn [app];
    revert Hadded; generalize (rev added); clear added; intros loop Hloop.
  all: pose proof (Forall_elem_of _ _ Hloop) as Hin_loop.
  all: split_and!.
  all: try (intros ? ? Hin; trace_cases Hin;
            try (by injection Hin as -> ->);
            by apply Hin_loop in Hin).
  all: try (intros Hin; trace_cases Hin; by apply Hin_loop in Hin).
  all: try (intros ? Hin; trace_cases Hin;
            try (by injection Hin as ->);
            by apply Hin_loop in Hin).
  all: try (intros c Hin; trace_cases Hin; subst;
            first [by right | left; by apply Hin_loop]).
  all: try discriminate.
  all: try (repeat (constructor; [reflexivity|]);
            try (apply Forall_app; split; [|by repeat constructor]);
            eapply list.Forall_impl; [exact Hloop|];
            by intros c [_ Hw]%loop_call_phase).
  all: try intros _.
  all: pose proof (omap_phase_loop _ _ _ Hloop) as Hphase.
  all: rewrite ?omap_app; cbn in Hphase |- *; rewrite ?omap_app, ?Hphase; cbn.
  all: try (split;
            [repeat (apply elem_of_cons; right); apply elem_of_app; right;
             repeat first [by left | right]|]).
  all: first
    [ reflexivity
    | by exists (S (length loop)); right
    | by exists (length loop)
    | exists (S (length loop + 1)); right; cbn [replicate];
      by rewrite replicate_add
    | exists (length loop + 1)%nat; by rewrite replicate_add ].
Qed.

Lemma prefix_of_replicate {A} (x : A) (n : nat) (l : list A) :
  l `prefix_of` replicate n x → l = replicate (length l) x.
Proof.
  revert l. induction n as [|n IH]; intros l [k Hk]; cbn in Hk.
  - symmetry in Hk. by apply app_eq_nil in Hk as [-> _].
  - destruct l as [|y l]; [done|]. cbn in Hk. injection Hk as <- Hk.
    cbn. f_equal. apply IH. by exists k.
Qed.

Lemma prefix_of_phases (n : nat) (l : list phase) :
  l `prefix_of` moving :: replicate n evaluating →
  l = [] ∨ l = moving :: replicate (length l - 1) evaluating.
Proof.
  intros [k Hk]. destruct l as [|p l]; [by left|]. right.
  cbn in Hk. injection Hk as <- Hk. cbn. rewrite Nat.sub_0_r. f_equal.
  apply (prefix_of_replicate _ n). by exists k.
Qed.

Lemma Forall_prefix_of {A} (P : A → Prop) (l1 l2 : list A) :
  l1 `prefix_of` l2 → Forall P l2 → Forall P l1.
Proof. intros [k ->] Hall. by apply Forall_app in Hall as [Hall _]. Qed.

(** Every run of the test script, whichever calls raise. *)
Lemma test_main_runs (env : Env) (args : TestBeaufort.Args)
    (tr : list Call) (r : result unit) :
  run (TestBeaufort.main args) env = (tr, r) →
  let dev := select_device (env_world env) in
  let loaded :=
    torch_load_model (os_path_join (TestBeaufort.model_dir args) "model.pt") in
  (∀ m d, call_model_to m d ∈ tr → m = loaded ∧ d = dev) ∧
  (mps_is_available ∈ tr → world_cuda (env_world env) = false) ∧
  (∀ m, model_eval m ∈ tr → m = model_to loaded dev) ∧
  (∀ c, c ∈ tr → loop_call (model_to loaded dev) dev c ∨
                  match c with
                  | tensor_to _ _ | model_forward _ _ => False
                  | _ => True
                  end) ∧
  (∃ n, omap phase_of tr = [] ∨
        omap phase_of tr = moving :: replicate n evaluating) ∧
  Forall (fun c => writes c = false) tr ∧
  (r = Ok tt →
   logger_info "Accuracy: %s" [LObject "accuracy"] ∈ tr ∧
   ∃ n, omap phase_of tr = moving :: replicate (S n) evaluating).
Proof.
  intros Hrun.
  destruct (orderly_run _ _ _ _ (test_main_orderly args) Hrun)
    as [Hquiet|[-> Hprefix]].
  - by apply (test_main_quiet env args).
  - destruct (run (TestBeaufort.main args) (quiet env)) as [full rq] eqn:Hquiet.
    destruct (test_main_quiet env args full rq Hquiet)
      as (H1 & H2 & H3 & H4 & [n H5] & H6 & _).
    cbn zeta. split_and!; [..|done].
    + intros m d Hin. apply H1. by eapply elem_of_prefix.
    + intros Hin. apply H2. by eapply elem_of_prefix.
    + intros m Hin. apply H3. by eapply elem_of_prefix.
    + intros c Hin. apply H4. by eapply elem_of_prefix.
    + cbn in Hprefix. apply (omap_prefix_of phase_of) in Hprefix.
      destruct H5 as [H5|H5]; rewrite H5 in Hprefix.
      * exists 0%nat. left. by apply prefix_nil_inv.
      * apply prefix_of_phases in Hprefix as [Hp|Hp];
          [exists 0%nat; by left|eexists; by right].
    + by eapply Forall_prefix_of.
Qed.


(** ** test_beaufort.py: the output argument *)

(** A required option of an accepted command line was supplied. *)
Lemma parse_loop_required (int_of_str : string → option Z)
    (float_of_str : string → option pyfloat) (p : ArgumentParser)
    (items : list item) (st : state) (ns : gmap string argvalue) (a : Action) :
  parse_loop int_of_str float_of_str p st items = Parsed ns →
  a ∈ actions p → arg_required a = true →
  arg_flag a ∈ seen st ∨ supplies (arg_flag a) items.
Proof.
  intros Hparsed Ha Hreq. revert st Hparsed.
  induction items as [|it rest IH]; intros st; cbn.
  - unfold finish.
    destruct (filter _ _) as [|missing rest] eqn:Hmissing; [|done].
    intros _. left. destruct (decide (arg_flag a ∈ seen st)) as [|Hnot]; [done|].
    assert (Hin : arg_flag a ∈
              filter (fun flag => flag ∉ seen st)
                (map arg_flag (filter (fun a => arg_required a = true) (actions p)))).
    { apply list_elem_of_filter. split; [done|].
      apply list_elem_of_fmap. exists a. split; [done|].
      by apply list_elem_of_filter. }
    rewrite Hmissing in Hin. by apply elem_of_nil in Hin.
  - destruct (take_item _ _ p st it) as [out|st'] eqn:Htake.
    { intros ->. by eapply take_item_stops in Htake. }
    intros Hloop. destruct (IH st' Hloop) as [Hseen|[args Hsup]].
    + destruct it as [flag args|arg]; cbn in Htake.
      * destruct (is_help flag); [done|].
        destruct (find_action p flag) as [a'|].
        -- destruct (get_values _ _ a' args) as [e|[v leftover]]; [done|].
           destruct (find _ _); [done|]. injection Htake as <-.
           cbn in Hseen. apply elem_of_cons in Hseen as [->|Hseen]; [|by left].
           right. exists args. by left.
        -- injection Htake as <-. by left.
      * injection Htake as <-. by left.
    + right. exists args. by right.
Qed.

Section AgreeOff.

Variable int_of_str : string → option Z.
Variable float_of_str : string → option pyfloat.
Variable p : ArgumentParser.
Variable name : string.

Lemma take_item_agree_off (st1 st2 : state) (it : item) :
  agree_off name st1 st2 →
  match take_item int_of_str float_of_str p st1 it,
        take_item int_of_str float_of_str p st2 it with
  | inl o1, inl o2 => o1 = o2 ∧ ∀ ns, o1 ≠ Parsed ns
  | inr st1', inr st2' => agree_off name st1' st2'
  | _, _ => False
  end.
Proof.
  destruct st1 as [ns1 seen1 extras1], st2 as [ns2 seen2 extras2].
  intros (Hseen & Hextras & Hns). cbn in Hseen, Hextras, Hns. subst.
  destruct it as [flag args|arg]; cbn.
  - destruct (is_help flag); [done|].
    destruct (find_action p flag) as [a|].
    + destruct (get_values _ _ a args) as [e|[v leftover]]; [done|].
      destruct (find _ _); [done|].
      split_and!; cbn; [done..|].
      intros k Hk. destruct (decide (dest flag = k)) as [->|Hne].
      * by rewrite !lookup_insert_eq.
      * by rewrite !lookup_insert_ne, Hns.
    + by split_and!.
  - by split_and!.
Qed.

Lemma parse_loop_agree_off (items : list item) (st1 st2 : state) :
  agree_off name st1 st2 →
  outcomes_agree_off name
    (parse_loop int_of_str float_of_str p st1 items)
    (parse_loop int_of_str float_of_str p st2 items).
Proof.
  revert st1 st2. induction items as [|it rest IH]; intros st1 st2 Hagree.
  - cbn. unfold finish. destruct Hagree as (-> & -> & Hns).
    destruct (filter _ _); [|done]. by destruct (extras st2).
  - cbn. pose proof (take_item_agree_off st1 st2 it Hagree) as Hstep.
    destruct (take_item _ _ p st1 it) as [o1|st1'],
             (take_item _ _ p st2 it) as [o2|st2']; try done.
    + destruct Hstep as [<- Hnot]. unfold outcomes_agree_off.
      destruct o1 as [ns| |]; [by destruct (Hnot ns)|done..].
    + by apply IH.
Qed.

End AgreeOff.

Lemma outcomes_agree_off_refl (name : string) (o : outcome) :
  outcomes_agree_off name o o.
Proof. by destruct o. Qed.

Section TestParser.

Variable int_of_str : string → option Z.
Variable float_of_str : string → option pyfloat.

Lemma test_parser_action (flag : string) (a : Action) :
  find_action TestBeaufort.get_args_parser flag = Some a →
  (flag = "--output" ∧ arg_type a = type_unset ∧ arg_nargs a = nargs_unset) ∨
  (flag ≠ "--output" ∧ dest flag ≠ "output").
Proof.
  intros Hfind. apply find_some in Hfind as [Hin Hflag].
  apply bool_decide_eq_true in Hflag as <-.
  apply list_elem_of_In in Hin. cbn in Hin.
  repeat (apply elem_of_cons in Hin as [->|Hin]);
    [..|by apply elem_of_nil in Hin]; cbn; auto.
Qed.

Lemma take_item_output_is_str (st st' : state) (it : item) :
  take_item int_of_str float_of_str TestBeaufort.get_args_parser st it
  = inr st' →
  output_is_str st → output_is_str st'.
Proof.
  unfold output_is_str. destruct it as [flag args|arg]; unfold take_item.
  - destruct (is_help flag); [done|].
    destruct (find_action TestBeaufort.get_args_parser flag) as [a|] eqn:Hact.
    + destruct (get_values _ _ a args) as [e|[v leftover]] eqn:Hval; [done|].
      destruct (find _ _); [done|]. intros Heq Hst. injection Heq as <-. cbn.
      destruct (test_parser_action flag a Hact)
        as [(-> & Hty & Hn)|[Hflag Hdest]].
      * intros _. unfold get_values in Hval. rewrite Hn, Hty in Hval.
        destruct args as [|s leftover']; [done|]. cbn in Hval.
        injection Hval as <- <-. exists s. apply lookup_insert_eq.
      * intros [Heq|Hseen]%elem_of_cons; [done|].
        rewrite lookup_insert_ne by done. by apply Hst.
    + intros Heq Hst. by injection Heq as <-.
  - intros Heq Hst. by injection Heq as <-.
Qed.

Lemma parse_loop_output_is_str (items : list item) (st : state)
    (ns : gmap string argvalue) :
  output_is_str st →
  parse_loop int_of_str float_of_str TestBeaufort.get_args_parser st items
  = Parsed ns →
  ∃ s, ns !! "output" = Some (AStr s).
Proof.
  revert st. induction items as [|it rest IH]; intros st Hst Hparsed.
  - destruct (parse_loop_required _ _ _ _ _ _
                {| arg_flag := "--output"; arg_type := type_unset;
                   arg_nargs := nargs_unset; arg_default := ANone;
                   arg_required := true |} Hparsed) as [Hseen|[args Hsup]].
    + cbn. repeat first [by left | right].
    + reflexivity.
    + cbn in Hparsed. unfold finish in Hparsed.
      destruct (filter _ _); [|done]. destruct (extras st); [|done].
      injection Hparsed as <-. by apply Hst.
    + by apply elem_of_nil in Hsup.
  - cbn in Hparsed.
    destruct (take_item _ _ _ st it) as [out|st'] eqn:Htake.
    { subst out. by eapply take_item_stops in Htake. }
    eapply IH; [|exact Hparsed]. by eapply take_item_output_is_str.
Qed.

(** Two command lines that differ in the value given to --output are
    answered alike, up to the attribute "output". *)
Lemma test_parser_output_values (before after : list item) (v1 v2 : string)
    (st : state) :
  outcomes_agree_off "output"
    (parse_loop int_of_str float_of_str TestBeaufort.get_args_parser st
       (before ++ Opt "--output" [v1] :: after))
    (parse_loop int_of_str float_of_str TestBeaufort.get_args_parser st
       (before ++ Opt "--output" [v2] :: after)).
Proof.
  revert st. induction before as [|it rest IH]; intros st.
  - cbn [app parse_loop].
    change (take_item int_of_str float_of_str TestBeaufort.get_args_parser st
              (Opt "--output" [v1]))
      with (inr (A := outcome)
              {| namespace := <[ "output" := AStr v1 ]> (namespace st);
                 seen := "--output" :: seen st;
                 extras := extras st ++ [] |}).
    change (take_item int_of_str float_of_str TestBeaufort.get_args_parser st
              (Opt "--output" [v2]))
      with (inr (A := outcome)
              {| namespace := <[ "output" := AStr v2 ]> (namespace st);
                 seen := "--output" :: seen st;
                 extras := extras st ++ [] |}).
    apply parse_loop_agree_off. split_and!; [done..|]. cbn.
    intros k Hk. by rewrite !lookup_insert_ne.
  - cbn [app parse_loop].
    destruct (take_item _ _ _ st it) as [out|st'].
    + apply outcomes_agree_off_refl.
    + apply IH.
Qed.

End TestParser.

Lemma test_args_agree_off (ns1 ns2 : gmap string argvalue) (s1 s2 : string) :
  (∀ k, k ≠ "output" → ns1 !! k = ns2 !! k) →
  ns1 !! "output" = Some (AStr s1) → ns2 !! "output" = Some (AStr s2) →
  match TestBeaufort.args_of_namespace ns1,
        TestBeaufort.args_of_namespace ns2 with
  | Some a1, Some a2 => a1 = with_output a2 s1
  | None, None => True
  | _, _ => False
  end.
Proof.
  intros Hns H1 H2. unfold TestBeaufort.args_of_namespace.
  unfold attr_str, attr_int.
  rewrite !(Hns "model_dir"), !(Hns "dataset"), !(Hns "split"),
    !(Hns "batch_size"), !(Hns "log"), H1, H2 by done.
  destruct (ns2 !! "model_dir") as [[]|]; cbn; try done.
  destruct (ns2 !! "dataset") as [[]|]; cbn; try done.
  destruct (ns2 !! "split") as [[]|]; cbn; try done.
  destruct (ns2 !! "batch_size") as [[]|]; cbn; try done.
  destruct (ns2 !! "log") as [[]|]; cbn; try done.
Qed.

(** The test script behaves the same on two command lines that differ in
    the value given to --output. *)
Lemma test_script_output_values (int_of_str : string → option Z)
    (float_of_str : string → option pyfloat) (before after : list item)
    (v1 v2 : string) (env : Env) :
  TestBeaufort.script int_of_str float_of_str
    (before ++ Opt "--output" [v1] :: after) env
  = TestBeaufort.script int_of_str float_of_str
      (before ++ Opt "--output" [v2] :: after) env.
Proof.
  unfold TestBeaufort.script, parse_args.
  pose proof (test_parser_output_values int_of_str float_of_str before after
                v1 v2
                {| namespace := defaults TestBeaufort.get_args_parser;
                   seen := []; extras := [] |}) as Hagree.
  destruct (parse_loop _ _ _ _ (before ++ Opt "--output" [v1] :: after))
    as [ns1| |] eqn:Hp1;
  destruct (parse_loop _ _ _ _ (before ++ Opt "--output" [v2] :: after))
    as [ns2| |] eqn:Hp2; try done; cbn in Hagree; [|by rewrite Hagree].
  apply parse_loop_output_is_str in Hp1 as [s1 Hs1];
    [|by intros ?%elem_of_nil].
  apply parse_loop_output_is_str in Hp2 as [s2 Hs2];
    [|by intros ?%elem_of_nil].
  pose proof (test_args_agree_off ns1 ns2 s1 s2 Hagree Hs1 Hs2) as Hargs.
  destruct (TestBeaufort.args_of_namespace ns1) as [a1|],
           (TestBeaufort.args_of_namespace ns2) as [a2|]; try done.
  by subst a1.
Qed.

(** C10.  The test script's parser requires --output: a command line
    without it is never accepted.  [main] does not read it: on two command
    lines that differ only in the value given to --output the script does
    the same, and with any other value of the output argument the run of
    [main] is the same, call for call.  No call of a run writes to the file
    system; a run that completes has logged the accuracy. *)
Theorem test_main_output_unused (int_of_str : string → option Z)
    (float_of_str : string → option pyfloat) (items before after : list item)
    (v1 v2 : string) (env : Env) (args : TestBeaufort.Args) (out : string)
    (tr : list Call) (r : result unit) :
  run (TestBeaufort.main args) env = (tr, r) →
  (¬ supplies "--output" items →
   ∀ ns, parse_args int_of_str float_of_str TestBeaufort.get_args_parser items
         ≠ Parsed ns) ∧
  TestBeaufort.script int_of_str float_of_str
    (before ++ Opt "--output" [v1] :: after) env
  = TestBeaufort.script int_of_str float_of_str
      (before ++ Opt "--output" [v2] :: after) env ∧
  run (TestBeaufort.main (with_output args out)) env = (tr, r) ∧
  Forall (fun c => writes c = false) tr ∧
  (r = Ok tt →
   logger_info "Accuracy: %s" [LObject "accuracy"] ∈ tr).
Proof.
  intros Hrun. split_and!.
  - intros Hnot ns Hparsed. unfold parse_args in Hparsed.
    destruct (parse_loop_required _ _ _ _ _ _
                {| arg_flag := "--output"; arg_type := type_unset;
                   arg_nargs := nargs_unset; arg_default := ANone;
                   arg_required := true |} Hparsed) as [Hseen|Hsup].
    + cbn. repeat first [by left | right].
    + reflexivity.
    + by apply elem_of_nil in Hseen.
    + done.
  - apply test_script_output_values.
  - exact Hrun.
  - by destruct (test_main_runs env args tr r Hrun)
      as (_ & _ & _ & _ & _ & H & _).
  - intros Hr.
    destruct (test_main_runs env args tr r Hrun)
      as (_ & _ & _ & _ & _ & _ & H).
    by destruct (H Hr) as [Hlog _].
Qed.


(** The sample run, on a machine without cuda and with mps. *)
Example test_main_sample_run :
  omap (fun c => match c with
                 | call_model_to _ d => Some d
                 | tensor_to _ d => Some d
                 | _ => None
                 end)
       (run (TestBeaufort.main sample_test_args) sample_env).1
  = [mps; mps; mps; mps; mps].
Proof. vm_compute. reflexivity. Qed.

Lemma test_main_output_unused_witness :
  run (TestBeaufort.main (with_output sample_test_args "elsewhere")) sample_env
  = run (TestBeaufort.main sample_test_args) sample_env ∧
  Forall (fun c => writes c = false)
         (run (TestBeaufort.main sample_test_args) sample_env).1.
Proof.
  destruct (test_main_output_unused (fun _ => None) (fun _ => None) [] [] []
              "results" "elsewhere"
              sample_env sample_test_args "elsewhere"
              (run (TestBeaufort.main sample_test_args) sample_env).1
              (run (TestBeaufort.main sample_test_args) sample_env).2)
    as (_ & _ & Hsame & Hwrites & _).
  - vm_compute. reflexivity.
  - split; [|exact Hwrites]. rewrite Hsame. vm_compute. reflexivity.
Defined.

(** Without --output the parser stops with "arguments required". *)
Example test_parser_requires_output :
  parse_args (fun _ => None) (fun _ => None) TestBeaufort.get_args_parser
    [Opt "--model-dir" ["models/beaufort"]; Opt "--dataset" ["data"]]
  = UsageError (arguments_required ["--output"]).
Proof. vm_compute. reflexivity. Qed.

(** ** train.py: command lines of the training script *)


(** What the parser answers on four command lines: none of the two options,
    each alone, and both. *)
Example train_parser_runs :
  let answer items :=
    match parse_args (fun _ => None) (fun _ => None)
            Train.get_args_parser items with
    | Parsed ns => inr (ns !! "checkpoint", ns !! "model")
    | out => inl out
    end in
  answer [] = inr (Some ANone, Some (AStr "resnet18")) ∧
  answer [Opt "--checkpoint" ["runs/checkpoint-500"]]
  = inr (Some (AStr "runs/checkpoint-500"), Some (AStr "resnet18")) ∧
  answer [Opt "--model" ["resnet50"]]
  = inr (Some ANone, Some (AStr "resnet50")) ∧
  answer [Opt "--checkpoint" ["runs/checkpoint-500"]; Opt "--model" ["resnet50"]]
  = inl (UsageError (not_allowed_with "--model" "--checkpoint")) ∧
  answer [Opt "--model" ["resnet50"]; Opt "--checkpoint" ["runs/checkpoint-500"]]
  = inl (UsageError (not_allowed_with "--checkpoint" "--model")).
Proof. repeat split; vm_compute; reflexivity. Qed.

(** The test script on two command lines that differ in --output. *)
Example test_script_sample_run :
  let command_line out :=
    [ Opt "--model-dir" ["models/beaufort"]; Opt "--dataset" ["data"];
      Opt "--output" [out] ] in
  TestBeaufort.script (fun _ => None) (fun _ => None)
    (command_line "results") sample_env
  = inr (run (TestBeaufort.main sample_test_args) sample_env) ∧
  TestBeaufort.script (fun _ => None) (fun _ => None)
    (command_line "elsewhere") sample_env
  = inr (run (TestBeaufort.main sample_test_args) sample_env).
Proof. split; vm_compute; reflexivity. Qed.

(** ** Batches: what [augment_batch] and [preprocess_batch] return and raise *)

(** A comprehension raises what its body raises on the first item it fails
    on. *)
Lemma list_comp_raises {A B} (f : A → result B) (before rest : list A)
    (x : A) (e : exn) :
  (∀ y, y ∈ before → ∃ z, f y = Ok z) → f x = Raise e →
  list_comp f (before ++ x :: rest) = Raise e.
Proof.
  induction before as [|y before IH]; intros Hbefore Hx; cbn.
  - by rewrite Hx.
  - destruct (Hbefore y) as [z Hz]; [by left|]. rewrite Hz. cbn.
    rewrite IH; [done| |done]. intros; apply Hbefore; by right.
Qed.

Lemma list_comp_length {A B} (f : A → result B) (l : list A) (ys : list B) :
  list_comp f l = Ok ys → length ys = length l.
Proof. intros H%list_comp_Forall2. symmetry. by eapply Forall2_length. Qed.

(** X1.  On a batch whose "jpg" column can be iterated and on every image
    of which the augmentation returns, [augment_batch] returns the batch
    with, under "jpg", the list of the augmented images, one per image and in
    the order of the images; every other column is as it was. *)
Theorem augment_batch_spec (augmentation : Callable)
    (samples : gmap string pyval) (jpgs : pyval) (items : list pyval) :
  samples !! "jpg" = Some jpgs →
  py_iter jpgs = Ok items →
  (∀ jpg, jpg ∈ items → ∃ out, augmentation jpg = Ok out) →
  ∃ samples' augmented,
    Train.augment_batch augmentation samples = Ok samples' ∧
    samples' !! "jpg" = Some (PList augmented) ∧
    Forall2 (fun jpg out => augmentation jpg = Ok out) items augmented ∧
    ∀ field, field ≠ "jpg" → samples' !! field = samples !! field.
Proof.
  intros Hjpg Hiter Haug.
  destruct (list_comp_returns augmentation items Haug) as [augmented Hcomp].
  exists (<[ "jpg" := PList augmented ]> samples), augmented.
  split_and!.
  - unfold Train.augment_batch, getitem. rewrite Hjpg. cbn.
    rewrite Hiter. cbn. by rewrite Hcomp.
  - apply lookup_insert_eq.
  - by apply list_comp_Forall2.
  - intros field Hne. by rewrite lookup_insert_ne.
Qed.

Lemma augment_batch_spec_witness :
  ∃ samples' augmented,
    Train.augment_batch sample_augmentation sample_batch = Ok samples' ∧
    samples' !! "jpg" = Some (PList augmented) ∧
    Forall2 (fun jpg out => sample_augmentation jpg = Ok out)
            [PObject 1; PObject 2] augmented ∧
    ∀ field, field ≠ "jpg" → samples' !! field = sample_batch !! field.
Proof.
  apply (augment_batch_spec sample_augmentation sample_batch
           (PList [PObject 1; PObject 2])).
  - reflexivity.
  - reflexivity.
  - intros jpg Hin.
    repeat (apply elem_of_cons in Hin as [->|Hin]);
      [| |by apply elem_of_nil in Hin]; by eexists.
Defined.

(** X2.  [augment_batch] raises what the augmentation raises on the first
    image it fails on. *)
Theorem augment_batch_raises (augmentation : Callable)
    (samples : gmap string pyval) (jpgs : pyval)
    (before rest : list pyval) (jpg : pyval) (e : exn) :
  samples !! "jpg" = Some jpgs →
  py_iter jpgs = Ok (before ++ jpg :: rest) →
  (∀ y, y ∈ before → ∃ out, augmentation y = Ok out) →
  augmentation jpg = Raise e →
  Train.augment_batch augmentation samples = Raise e.
Proof.
  intros Hjpg Hiter Hbefore He.
  unfold Train.augment_batch, getitem. rewrite Hjpg. cbn.
  rewrite Hiter. cbn. by rewrite (list_comp_raises _ _ _ _ e).
Qed.

Lemma augment_batch_raises_witness :
  Train.augment_batch sample_augmentation
    (<[ "jpg" := PList [PObject 1; PStr "not an image"; PObject 2] ]> sample_batch)
  = Raise TypeError.
Proof.
  apply (augment_batch_raises sample_augmentation _
           (PList [PObject 1; PStr "not an image"; PObject 2])
           [PObject 1] [PObject 2] (PStr "not an image")).
  - reflexivity.
  - reflexivity.
  - intros y Hin. apply list_elem_of_singleton in Hin as ->. by eexists.
  - reflexivity.
Defined.

(** What a call of [preprocess_batch] that returns has read and set. *)
Lemma preprocess_batch_Ok (transform : Callable) (label_keys : list string)
    (samples samples' : gmap string pyval) :
  Train.preprocess_batch transform label_keys samples = Ok samples' →
  ∃ jpgs features pixel_values json objs labels,
    samples !! "jpg" = Some jpgs ∧
    transform jpgs = Ok features ∧
    py_getitem features "pixel_values" = Ok pixel_values ∧
    samples !! "json" = Some json ∧
    py_iter json = Ok objs ∧
    list_comp (label_row label_keys) objs = Ok labels ∧
    samples' = <[ "labels" := PList labels ]>
                 (<[ "pixel_values" := pixel_values ]> samples).
Proof.
  unfold Train.preprocess_batch, getitem.
  destruct (samples !! "jpg") as [jpgs|] eqn:Hjpg; [|done]. cbn.
  destruct (transform jpgs) as [e|features] eqn:Htr; [done|]. cbn.
  destruct (py_getitem features "pixel_values") as [e|pv] eqn:Hpv; [done|]. cbn.
  rewrite lookup_insert_ne by done.
  destruct (samples !! "json") as [json|] eqn:Hjson; [|done]. cbn.
  destruct (py_iter json) as [e|objs] eqn:Hiter; [done|]. cbn.
  fold (label_row label_keys).
  destruct (list_comp (label_row label_keys) objs) as [e|labels] eqn:Hl; [done|].
  cbn. intros [= <-]. by eexists jpgs, features, pv, json, objs, labels.
Qed.

(** X3.  Augmenting a batch before it is preprocessed, as the training
    pipeline does, changes no labels: when [preprocess_batch] returns on the
    batch and on the augmented batch, the two results have the same "labels",
    and agree on every column other than "jpg" and "pixel_values". *)
Theorem preprocess_after_augment (augmentation transform : Callable)
    (label_keys : list string)
    (samples augmented plain processed : gmap string pyval) :
  Train.augment_batch augmentation samples = Ok augmented →
  Train.preprocess_batch transform label_keys samples = Ok plain →
  Train.preprocess_batch transform label_keys augmented = Ok processed →
  processed !! "labels" = plain !! "labels" ∧
  ∀ field, field ≠ "jpg" → field ≠ "pixel_values" →
           processed !! field = plain !! field.
Proof.
  intros Haug Hplain Hproc.
  assert (Hjson : augmented !! "json" = samples !! "json").
  { revert Haug. unfold Train.augment_batch.
    destruct (getitem samples "jpg") as [e|jpgs]; [done|]. cbn.
    destruct (py_iter jpgs) as [e|items]; [done|]. cbn.
    destruct (list_comp augmentation items) as [e|out]; [done|]. cbn.
    intros [= <-]. by rewrite lookup_insert_ne. }
  assert (Hother : ∀ field, field ≠ "jpg" →
            augmented !! field = samples !! field).
  { revert Haug. unfold Train.augment_batch.
    destruct (getitem samples "jpg") as [e|jpgs]; [done|]. cbn.
    destruct (py_iter jpgs) as [e|items]; [done|]. cbn.
    destruct (list_comp augmentation items) as [e|out]; [done|]. cbn.
    intros [= <-] field Hne. by rewrite lookup_insert_ne. }
  apply preprocess_batch_Ok in Hplain
    as (j1 & f1 & pv1 & json1 & objs1 & l1 & _ & _ & _ & Hj1 & Hi1 & Hl1 & ->).
  apply preprocess_batch_Ok in Hproc
    as (j2 & f2 & pv2 & json2 & objs2 & l2 & _ & _ & _ & Hj2 & Hi2 & Hl2 & ->).
  rewrite Hjson, Hj1 in Hj2. injection Hj2 as <-.
  rewrite Hi1 in Hi2. injection Hi2 as <-.
  rewrite Hl1 in Hl2. injection Hl2 as <-.
  split.
  - by rewrite !lookup_insert_eq.
  - intros field Hjpg Hpv.
    destruct (decide (field = "labels")) as [->|Hl].
    + by rewrite !lookup_insert_eq.
    + rewrite !lookup_insert_ne by done. by apply Hother.
Qed.

Lemma preprocess_after_augment_witness :
  ∃ augmented plain processed,
    Train.augment_batch sample_augmentation sample_batch = Ok augmented ∧
    Train.preprocess_batch sample_transform ["wave"; "wind"] sample_batch
    = Ok plain ∧
    Train.preprocess_batch sample_transform ["wave"; "wind"] augmented
    = Ok processed ∧
    processed !! "labels" = plain !! "labels" ∧
    processed !! "jpg" ≠ plain !! "jpg".
Proof.
  eexists _, _, _.
  split; [reflexivity|]. split; [reflexivity|]. split; [reflexivity|].
  split; [|vm_compute; discriminate].
  eapply proj1.
  eapply (preprocess_after_augment sample_augmentation sample_transform
            ["wave"; "wind"] sample_batch); reflexivity.
Defined.

(** X4.  [preprocess_batch] raises the KeyError of the first label a
    sample lacks: when the json objects before some object hold every label
    key, and that object holds the label keys before some key and lacks that
    key, the error is KeyError of that key. *)
Theorem preprocess_batch_missing_label (transform : Callable)
    (samples : gmap string pyval) (jpgs features pixel_values json : pyval)
    (complete rest : list pyval) (d : gmap string pyval)
    (present later : list string) (key : string) :
  samples !! "jpg" = Some jpgs →
  transform jpgs = Ok features →
  py_getitem features "pixel_values" = Ok pixel_values →
  samples !! "json" = Some json →
  py_iter json = Ok (complete ++ PDict d :: rest) →
  (∀ obj k, obj ∈ complete → k ∈ present ++ key :: later →
            ∃ v, py_getitem obj k = Ok v) →
  (∀ k, k ∈ present → is_Some (d !! k)) →
  d !! key = None →
  Train.preprocess_batch transform (present ++ key :: later) samples
  = Raise (KeyError key).
Proof.
  intros Hjpg Htr Hpv Hjson Hiter Hcomplete Hpresent Hkey.
  unfold Train.preprocess_batch, getitem.
  rewrite Hjpg. cbn. rewrite Htr. cbn. rewrite Hpv. cbn.
  rewrite lookup_insert_ne, Hjson by done. cbn. rewrite Hiter. cbn.
  fold (label_row (present ++ key :: later)).
  rewrite (list_comp_raises _ _ _ _ (KeyError key)); [done| |].
  - intros obj Hobj. unfold label_row.
    destruct (list_comp_returns (fun k => py_getitem obj k)
                (present ++ key :: later)) as [row Hrow]; [by eauto|].
    rewrite Hrow. by eexists.
  - unfold label_row.
    rewrite (list_comp_raises _ _ _ _ (KeyError key)); [done| |].
    + intros k Hk. destruct (Hpresent k Hk) as [v Hv].
      exists v. cbn. unfold getitem. by rewrite Hv.
    + cbn. unfold getitem. by rewrite Hkey.
Qed.

Lemma preprocess_batch_missing_label_witness :
  Train.preprocess_batch sample_transform (["wave"] ++ "tide" :: ["wind"])
    sample_batch
  = Raise (KeyError "tide").
Proof.
  eapply (preprocess_batch_missing_label sample_transform sample_batch
            _ _ _ _ [] _ _ ["wave"] ["wind"] "tide").
  - reflexivity.
  - reflexivity.
  - reflexivity.
  - reflexivity.
  - reflexivity.
  - by intros obj k ?%elem_of_nil.
  - intros k Hk. apply list_elem_of_singleton in Hk as ->. by eexists.
  - reflexivity.
Defined.

(** X5.  Whenever [preprocess_batch] returns, "labels" holds one row per
    json object of the batch, and every row has exactly as many entries as
    there are label keys. *)
Theorem preprocess_batch_labels_shape (transform : Callable)
    (label_keys : list string) (samples samples' : gmap string pyval) :
  Train.preprocess_batch transform label_keys samples = Ok samples' →
  ∃ json objs rows,
    samples !! "json" = Some json ∧
    py_iter json = Ok objs ∧
    samples' !! "labels" = Some (PList (PList <$> rows)) ∧
    length rows = length objs ∧
    Forall (fun row => length row = length label_keys) rows.
Proof.
  intros (jpgs & features & pv & json & objs & labels & _ & _ & _ & Hjson
          & Hiter & Hlabels & ->)%preprocess_batch_Ok.
  pose proof (list_comp_length _ _ _ Hlabels) as Hlen.
  assert (Hrows : ∃ rows, labels = PList <$> rows ∧
                    Forall (fun row => length row = length label_keys) rows).
  { apply list_comp_Forall2 in Hlabels. clear Hiter Hlen.
    induction Hlabels as [|obj label objs labels Hrow _ IH].
    - by exists [].
    - destruct IH as (rows & -> & Hall). unfold label_row in Hrow.
      destruct (list_comp (fun key => py_getitem obj key) label_keys)
        as [e|row] eqn:Hcomp; [done|].
      cbn in Hrow. injection Hrow as <-.
      exists (row :: rows). split; [done|]. constructor; [|done].
      by apply list_comp_length in Hcomp. }
  destruct Hrows as (rows & -> & Hall).
  exists json, objs, rows. split_and!; try done.
  - apply lookup_insert_eq.
  - by rewrite length_fmap in Hlen.
Qed.

Lemma preprocess_batch_labels_shape_witness :
  ∃ samples' json objs rows,
    Train.preprocess_batch sample_transform ["wave"; "wind"] sample_batch
    = Ok samples' ∧
    sample_batch !! "json" = Some json ∧
    py_iter json = Ok objs ∧
    samples' !! "labels" = Some (PList (PList <$> rows)) ∧
    length rows = length objs ∧
    Forall (fun row => length row = length ["wave"; "wind"]) rows.
Proof.
  destruct (preprocess_batch_labels_shape sample_transform ["wave"; "wind"]
              sample_batch _ eq_refl) as (json & objs & rows & Hshape).
  eexists _, json, objs, rows. split; [reflexivity|exact Hshape].
Defined.

(** ** The metrics dictionary: its keys, and names against columns *)

Lemma compute_metrics_loop_keys (metric : Metric) (predictions labels : ndarray)
    (names : list string) (i : nat) (results results' : gmap string Qc) :
  Train.compute_metrics_loop metric predictions labels i names results
  = Ok results' →
  ∀ key, is_Some (results' !! key) ↔
         is_Some (results !! key) ∨
         ∃ name, name ∈ names ∧ key = "mae_" +:+ name.
Proof.
  revert i results. induction names as [|x rest IH]; intros i results.
  - cbn. intros [= <-] key. split; [by left|].
    intros [?|(name & Hin & _)]; [done|]. by apply elem_of_nil in Hin.
  - rewrite compute_metrics_loop_cons.
    destruct (column_score metric predictions labels i) as [e|v]; [done|].
    cbn. intros Hloop key. rewrite (IH _ _ Hloop key).
    rewrite lookup_insert_is_Some. split.
    + intros [[<-|[_ H]]|(name & Hin & ->)].
      * right. exists x. split; [by left|done].
      * by left.
      * right. exists name. split; [by right|done].
    + intros [H|(name & Hin & ->)].
      * left. destruct (decide ("mae_" +:+ x = key)); [by left|by right].
      * apply elem_of_cons in Hin as [->|Hin]; [left; by left|right; eauto].
Qed.

Lemma compute_metrics_loop_size (metric : Metric) (predictions labels : ndarray)
    (names : list string) (i : nat) (results results' : gmap string Qc) :
  NoDup names →
  (∀ name, name ∈ names → results !! ("mae_" +:+ name) = None) →
  Train.compute_metrics_loop metric predictions labels i names results
  = Ok results' →
  size results' = (size results + length names)%nat.
Proof.
  revert i results. induction names as [|x rest IH]; intros i results Hnd Hfresh.
  - cbn. intros [= <-]. lia.
  - rewrite compute_metrics_loop_cons.
    destruct (column_score metric predictions labels i) as [e|v]; [done|].
    cbn. intros Hloop. apply list.NoDup_cons in Hnd as [Hx Hnd].
    rewrite (IH _ _ Hnd) with (2 := Hloop).
    + rewrite map_size_insert_None; [lia|]. apply Hfresh. by left.
    + intros name Hin. rewrite lookup_insert_ne.
      * apply Hfresh. by right.
      * intros Heq%mae_key_inj. by subst.
Qed.

(** X6.  Whatever the metric, the dictionary [compute_metrics] returns has
    the key "mae" and the keys "mae_<name>" of the output names, and no other
    key; when the names are pairwise distinct it has one entry more than
    there are names. *)
Theorem compute_metrics_keys (metric : Metric) (names : list string)
    (eval_pred : ndarray * ndarray) (results : gmap string Qc) :
  Train.compute_metrics metric names eval_pred = Ok results →
  (∀ key, is_Some (results !! key) ↔
          key = "mae" ∨ ∃ name, name ∈ names ∧ key = "mae_" +:+ name) ∧
  (NoDup names → size results = S (length names)).
Proof.
  destruct eval_pred as [predictions labels]. unfold Train.compute_metrics.
  destruct (Train.compute_metrics_loop _ _ _ _ _ _) as [e|loop] eqn:Hloop;
    [done|]. cbn.
  destruct (metric _ _) as [e|scores]; [done|]. cbn.
  destruct (getitem scores "mae") as [e|v]; [done|]. cbn.
  intros [= <-].
  pose proof (compute_metrics_loop_keys _ _ _ _ _ _ _ Hloop) as Hkeys.
  split.
  - intros key. rewrite lookup_insert_is_Some, Hkeys. split.
    + intros [<-|[_ [H|H]]]; [by left| |by right].
      rewrite lookup_empty in H. by destruct H.
    + intros [->|H]; [by left|].
      destruct (decide ("mae" = key)) as [|Hne]; [by left|].
      right. split; [done|]. by right.
  - intros Hnd. rewrite map_size_insert_None.
    + f_equal.
      rewrite (compute_metrics_loop_size _ _ _ _ _ _ _ Hnd) with (2 := Hloop).
      * by rewrite map_size_empty.
      * intros name _. apply lookup_empty.
    + apply eq_None_not_Some. rewrite Hkeys.
      intros [H|(name & _ & Heq)].
      * rewrite lookup_empty in H. by destruct H.
      * symmetry in Heq. by apply mae_key_ne in Heq.
Qed.

Lemma compute_metrics_keys_witness :
  ∃ results,
    Train.compute_metrics mae_metric ["u"; "v"]
      (sample_predictions, sample_labels) = Ok results ∧
    (∀ key, is_Some (results !! key) ↔
            key = "mae" ∨ ∃ name, name ∈ ["u"; "v"] ∧ key = "mae_" +:+ name) ∧
    (NoDup ["u"; "v"] → size results = 3%nat).
Proof.
  eexists. split; [reflexivity|].
  apply (compute_metrics_keys mae_metric ["u"; "v"]
           (sample_predictions, sample_labels)).
  reflexivity.
Defined.

Lemma compute_metrics_loop_app (metric : Metric) (predictions labels : ndarray)
    (l1 l2 : list string) (i : nat) (results : gmap string Qc) :
  Train.compute_metrics_loop metric predictions labels i (l1 ++ l2) results =
  (r ← Train.compute_metrics_loop metric predictions labels i l1 results;
   Train.compute_metrics_loop metric predictions labels (i + length l1) l2 r).
Proof.
  revert i results. induction l1 as [|x l1 IH]; intros i results.
  - cbn. by rewrite Nat.add_0_r.
  - cbn [app length]. rewrite !compute_metrics_loop_cons.
    destruct (column_score metric predictions labels i) as [e|v]; [done|].
    cbn. rewrite IH. by replace (S i + length l1)%nat with (i + S (length l1))%nat by lia.
Qed.

(** X7.  With more output names than the arrays have columns (and at
    least one row), [compute_metrics] with the mean-absolute-error metric
    raises IndexError. *)
Theorem compute_metrics_too_many_names (names : list string)
    (predictions labels : ndarray) (n k : nat) :
  has_shape predictions n k → has_shape labels n k →
  (0 < n)%nat → (k < length names)%nat →
  Train.compute_metrics mae_metric names (predictions, labels)
  = Raise IndexError.
Proof.
  intros HP HL Hn Hk. unfold Train.compute_metrics.
  rewrite <- (take_drop k names), compute_metrics_loop_app.
  destruct (compute_metrics_loop_returns mae_metric predictions labels
              (take k names) 0 ∅) as [results Hloop].
  { intros j Hj. rewrite length_take in Hj. eexists.
    apply (column_score_mae _ _ n k); [done..|lia]. }
  rewrite Hloop. cbn.
  destruct (drop k names) as [|name rest] eqn:Hdrop.
  { apply (f_equal length) in Hdrop. rewrite length_drop in Hdrop.
    cbn in Hdrop. lia. }
  rewrite compute_metrics_loop_cons. rewrite length_take_le by lia.
  unfold column_score, column. destruct HP as (_ & -> & _).
  rewrite (bool_decide_eq_false_2 (k < k)%nat) by lia. reflexivity.
Qed.

Lemma compute_metrics_too_many_names_witness :
  Train.compute_metrics mae_metric ["u"; "v"; "w"]
    (sample_predictions, sample_labels)
  = Raise IndexError.
Proof.
  apply (compute_metrics_too_many_names ["u"; "v"; "w"]
           sample_predictions sample_labels 1 2).
  - repeat split; repeat constructor.
  - repeat split; repeat constructor.
  - lia.
  - cbn. lia.
Defined.

(** X8.  With at most as many output names as the arrays have columns
    (n-by-k arrays, n and k at least one), [compute_metrics] returns: every
    name's key holds the mean absolute error of the column at the last index
    of the name, and "mae" holds the error over all k columns, those without
    a name included. *)
Theorem compute_metrics_fewer_names (names : list string)
    (predictions labels : ndarray) (n k : nat) :
  has_shape predictions n k → has_shape labels n k →
  (0 < n)%nat → (0 < k)%nat → (length names ≤ k)%nat →
  ∃ results,
    Train.compute_metrics mae_metric names (predictions, labels) = Ok results ∧
    (∀ i name, names !! i = Some name →
       ∃ j, last_index name names = Some j ∧
            results !! ("mae_" +:+ name) =
            Some (mean_absolute_error (column_values predictions j)
                                      (column_values labels j))) ∧
    results !! "mae" =
    Some (mean_absolute_error (flatten predictions) (flatten labels)).
Proof.
  intros HP HL Hn Hk Hlen.
  destruct (compute_metrics_loop_returns mae_metric predictions labels
              names 0 ∅) as [results Hloop].
  { intros j Hj. eexists. apply (column_score_mae _ _ n k); [done..|]. cbn. lia. }
  exists (<[ "mae" := mean_absolute_error (flatten predictions) (flatten labels) ]>
            results).
  split_and!.
  - unfold Train.compute_metrics. rewrite Hloop. cbn.
    pose proof (flattened_score_mae _ _ _ _ HP HL Hn Hk) as Hflat.
    destruct (mae_metric (flatten predictions) (flatten labels)) as [e|scores];
      [done|].
    cbn in Hflat |- *. by rewrite Hflat.
  - intros i name Hi.
    destruct (last_index_elem name names) as [j Hj].
    { by eapply list_elem_of_lookup_2. }
    pose proof (compute_metrics_loop_lookup _ _ _ _ _ _ _ name Hloop) as Hl.
    rewrite Hj in Hl. destruct Hl as (v & Hv & Hlook).
    exists j. split; [done|].
    apply last_index_lookup, lookup_lt_Some in Hj.
    rewrite (column_score_mae _ _ n k) in Hv by (done || cbn; lia).
    injection Hv as <-.
    rewrite lookup_insert_ne; [done|]. intros Heq. by eapply mae_key_ne.
  - apply lookup_insert_eq.
Qed.

Lemma compute_metrics_fewer_names_witness :
  ∃ results,
    Train.compute_metrics mae_metric ["u"; "v"]
      (sample_wide_predictions, sample_wide_labels) = Ok results ∧
    results !! "mae" =
    Some (mean_absolute_error (flatten sample_wide_predictions)
                              (flatten sample_wide_labels)).
Proof.
  destruct (compute_metrics_fewer_names ["u"; "v"]
              sample_wide_predictions sample_wide_labels 1 3)
    as (results & Hres & _ & Hmae).
  - repeat split; repeat constructor.
  - repeat split; repeat constructor.
  - lia.
  - lia.
  - cbn. lia.
  - by exists results.
Defined.

(** With two names for three columns, the overall error (4) is not the
    mean of the two per-output errors (1 and 3). *)
Example compute_metrics_fewer_names_run :
  (results ← Train.compute_metrics mae_metric ["u"; "v"]
               (sample_wide_predictions, sample_wide_labels);
   Ok (this <$> results !! "mae_u", this <$> results !! "mae_v",
       this <$> results !! "mae", size results))
  = Ok (Some (1 # 1)%Q, Some (3 # 1)%Q, Some (4 # 1)%Q, 3%nat).
Proof. vm_compute. reflexivity. Qed.

(** ** train.py: the calls of a run *)

Lemma floordiv_Raise (a b : Z) (e : exn) :
  floordiv a b = inl e → b = 0%Z ∧ e = ZeroDivisionError.
Proof. unfold floordiv. case_bool_decide; [|done]. by intros [= <-]. Qed.

(** The facts a finished symbolic run has collected, in the form the
    statements use. *)
Ltac run_facts :=
  repeat match goal with
    | H : floordiv _ _ = inr _ |- _ => apply floordiv_Ok in H as [? ->]
    | H : floordiv _ _ = inl _ |- _ => apply floordiv_Raise in H as [? ->]
    | H : py_len ?o = _ |- _ =>
        destruct o eqn:?; cbn in H;
        [ first [injection H as <- | discriminate H]
        | first [injection H as <- | discriminate H] ]
    | H : py_join _ ?o = _ |- _ =>
        destruct o eqn:?; cbn in H;
        [ first [injection H as <- | discriminate H]
        | first [injection H as <- | discriminate H] ]
    end.

Ltac rewrite_facts :=
  repeat match goal with
    | H : Train.checkpoint _ = _ |- _ => rewrite H
    | H : Train.rotation _ = _ |- _ => rewrite H
    | H : Train.output_names _ = _ |- _ => rewrite H
    | H : Train.batch_size _ = _ |- _ => rewrite H
    | H : world_exists _ _ = _ |- _ => rewrite H
    | H : truthy _ = _ |- _ => rewrite H
    | H : getitem _ _ = _ |- _ => rewrite H
    end.

Ltac unfold_run_vocabulary :=
  unfold train_call_ok, quiet_outcome, training_pipeline,
    preprocessed_split, image_processor_source, output_directory,
    training_samples, floordiv;
  cbv beta iota zeta;
  rewrite_facts; cbv beta iota zeta.

Lemma train_main_quiet_calls (env : Env) (args : Train.Args)
    (full : list Call) (rq : result unit) :
  run (Train.main args) (quiet env) = (full, rq) →
  Forall (train_call_ok (env_world env) args) full ∧
  rq = quiet_outcome (env_world env) args ∧
  (rq = Ok tt →
   (∃ init, new_Trainer init ∈ full) ∧
   load_dataset "webdataset" (Train.input args) None ∈ full ∧
   trainer_train (Train.checkpoint args) ∈ full ∧
   (Train.checkpoint args = None →
    image_processor_from_pretrained (Train.model args) ∈ full ∧
    image_processor_save_pretrained
      (AutoImageProcessor_from_pretrained (Train.model args))
      (output_directory (env_world env) args) ∈ full ∧
    base_model_from_pretrained (Train.model args) true ∈ full ∧
    (∃ n, new_MultiHeadModel (Train.model args) n ∈ full) ∧
    (∃ init, new_TrainingArguments init ∈ full))).
Proof.
  unfold run.
  destruct (Train.main args (quiet env) []) as [t r0] eqn:H.
  intros [= <- <-].
  unfold Train.main, call, log_info, path_exists in H.
  repeat quiet_step H.
  all: injection H as <- <-.
  all: run_facts.
  all: split_and!.
  all: lazymatch goal with
       | |- Forall _ _ =>
           apply list.Forall_forall; intros c Hin; pick_call Hin; subst c;
           unfold_run_vocabulary;
           cbn [train_dataset eval_dataset compute_metrics_metric
                compute_metrics_output_names trainer_model ds_apply
                Train.full_dataset ds_ops ds_split ds_data_dir app];
           repeat first [done | split | eexists];
           try (by left); try (by right); congruence
       | |- _ = quiet_outcome _ _ =>
           unfold_run_vocabulary;
           rewrite ?bool_decide_eq_false_2, ?bool_decide_eq_true_2 by done;
           done
       | |- _ → _ =>
           intros Hr; try discriminate Hr;
           unfold_run_vocabulary;
           split_and!;
           try (intros Hc; try discriminate Hc; split_and!);
           try eexists; find_call
       end.
Qed.

Lemma train_main_calls (env : Env) (args : Train.Args)
    (tr : list Call) (r : result unit) :
  run (Train.main args) env = (tr, r) →
  Forall (train_call_ok (env_world env) args) tr ∧
  (r = quiet_outcome (env_world env) args ∨ r = Raise LibraryError).
Proof.
  intros Hrun.
  destruct (orderly_run _ _ _ _ (train_main_orderly args) Hrun)
    as [Hquiet|[-> Hprefix]].
  - apply train_main_quiet_calls in Hquiet as (Hcalls & -> & _).
    by split; [|left].
  - destruct (run (Train.main args) (quiet env)) as [full rq] eqn:Hquiet.
    apply train_main_quiet_calls in Hquiet as (Hcalls & _ & _).
    split; [|by right]. by eapply Forall_prefix_of.
Qed.

(** A run that completes is the run in which no call raises. *)
Lemma orderly_run_complete {A} (m : M A) (env : Env) (tr : list Call) (a : A) :
  orderly m → run m env = (tr, Ok a) → run m (quiet env) = (tr, Ok a).
Proof.
  intros Hm Hrun.
  by destruct (orderly_run _ _ _ _ Hm Hrun) as [Hquiet|[? _]].
Qed.

Lemma orderly_adds {A} (m : M A) (env : Env) (tr : list Call) :
  orderly m → ∃ added, (m env tr).1 = added ++ tr.
Proof. intros Hm. by destruct (Hm env tr) as [Hadd _]. Qed.

(** X9.  Every run of [main] starts by logging the output names and by
    creating the directory given as --output (with exist_ok=True), whether or
    not a checkpoint is given and whatever happens afterwards. *)
Theorem train_main_creates_output_first (env : Env) (args : Train.Args)
    (tr : list Call) (r : result unit) :
  run (Train.main args) env = (tr, r) →
  ∃ rest,
    tr = logger_info "Training the model to classify %s"
           [LNames (Train.output_names args)]
         :: os_makedirs (Train.output args) true :: rest.
Proof.
  unfold run, Train.main, log_info, call.
  rewrite step_record, step_call_for.
  destruct (env_raises env _ _).
  { intros [= <- <-]. by exists []. }
  match goal with
  | |- context [let '(_, _) := ?k ?u env ?t in _] =>
      destruct (orderly_adds (k u) env t) as [added Hadded]
  end.
  { orderly_steps. }
  revert Hadded.
  match goal with
  | |- context [let '(_, _) := ?x in _] => destruct x as [t r0]
  end.
  cbn [fst]. intros -> [= <- <-].
  exists (rev added). by rewrite rev_app_distr.
Qed.

Lemma train_main_creates_output_first_witness :
  ∃ rest,
    (run (Train.main sample_resume_args) sample_env).1
    = logger_info "Training the model to classify %s"
        [LNames (Train.output_names sample_resume_args)]
      :: os_makedirs (Train.output sample_resume_args) true :: rest.
Proof.
  apply (train_main_creates_output_first sample_env sample_resume_args
           (run (Train.main sample_resume_args) sample_env).1
           (run (Train.main sample_resume_args) sample_env).2).
  vm_compute. reflexivity.
Defined.

(** X10.  When the number of training samples is available (there is no
    split_sizes.json in the input directory, or the file holds an integer
    under "training"), a run of [main] in which no library call raises ends
    with ZeroDivisionError if the batch size is zero, else with TypeError if
    the output names are None, else normally; any run ends as that run does
    or with the error of a library call. *)
Theorem train_main_outcome (env : Env) (args : Train.Args)
    (tr : list Call) (r : result unit) (N : Z) :
  training_samples (env_world env) (Train.input args) = Ok N →
  run (Train.main args) env = (tr, r) →
  (r = (run (Train.main args) (quiet env)).2 ∨ r = Raise LibraryError) ∧
  (Train.batch_size args = 0%Z →
   (run (Train.main args) (quiet env)).2 = Raise ZeroDivisionError) ∧
  (Train.batch_size args ≠ 0%Z → Train.output_names args = None →
   (run (Train.main args) (quiet env)).2 = Raise TypeError) ∧
  (Train.batch_size args ≠ 0%Z → Train.output_names args ≠ None →
   (run (Train.main args) (quiet env)).2 = Ok tt).
Proof.
  intros HN Hrun.
  destruct (run (Train.main args) (quiet env)) as [full rq] eqn:Hquiet.
  apply train_main_quiet_calls in Hquiet as (_ & -> & _).
  apply train_main_calls in Hrun as [_ Hr]. cbn [snd].
  split; [done|]. unfold quiet_outcome, floordiv. rewrite HN. cbn.
  split_and!.
  - intros ->. by rewrite bool_decide_eq_true_2.
  - intros Hbs ->. by rewrite bool_decide_eq_false_2.
  - intros Hbs Hnames. rewrite bool_decide_eq_false_2 by done. cbn.
    by destruct (Train.output_names args).
Qed.

Lemma train_main_outcome_witness :
  (run (Train.main sample_args) (quiet sample_env)).2 = Ok tt ∧
  (run (Train.main sample_args_without_names) (quiet sample_env)).2
  = Raise TypeError ∧
  (run (Train.main (with_hyperparameters sample_args
                      (Float "0.001") (Float "0.1") 30 0))
       (quiet sample_env)).2
  = Raise ZeroDivisionError.
Proof.
  split_and!.
  - eapply (train_main_outcome sample_env sample_args
              (run (Train.main sample_args) sample_env).1
              (run (Train.main sample_args) sample_env).2 65536).
    + reflexivity.
    + vm_compute. reflexivity.
    + discriminate.
    + discriminate.
  - eapply (train_main_outcome sample_env sample_args_without_names
              (run (Train.main sample_args_without_names) sample_env).1
              (run (Train.main sample_args_without_names) sample_env).2 65536).
    + reflexivity.
    + vm_compute. reflexivity.
    + discriminate.
    + reflexivity.
  - eapply (train_main_outcome sample_env
              (with_hyperparameters sample_args (Float "0.001") (Float "0.1") 30 0)
              (run (Train.main (with_hyperparameters sample_args
                                  (Float "0.001") (Float "0.1") 30 0))
                   sample_env).1
              (run (Train.main (with_hyperparameters sample_args
                                  (Float "0.001") (Float "0.1") 30 0))
                   sample_env).2 65536).
    + reflexivity.
    + vm_compute. reflexivity.
    + reflexivity.
Defined.

(** X11.  When split_sizes.json exists in the input directory and has no
    "training" entry, a run makes at most four calls (the first log, the
    creation of the output directory, the existence test, the loading of the
    file) and stops with KeyError "training", unless one of these calls
    raised; when none raises it makes exactly these four. *)
Theorem train_main_missing_training_size (env : Env) (args : Train.Args)
    (tr : list Call) (r : result unit) :
  world_exists (env_world env)
    (os_path_join (Train.input args) "split_sizes.json") = true →
  world_json (env_world env)
    (os_path_join (Train.input args) "split_sizes.json") !! "training" = None →
  run (Train.main args) env = (tr, r) →
  tr `prefix_of`
    [ logger_info "Training the model to classify %s"
        [LNames (Train.output_names args)];
      os_makedirs (Train.output args) true;
      os_path_exists (os_path_join (Train.input args) "split_sizes.json");
      json_load (os_path_join (Train.input args) "split_sizes.json") ] ∧
  (r = Raise (KeyError "training") ∨ r = Raise LibraryError) ∧
  run (Train.main args) (quiet env) =
    ([ logger_info "Training the model to classify %s"
         [LNames (Train.output_names args)];
       os_makedirs (Train.output args) true;
       os_path_exists (os_path_join (Train.input args) "split_sizes.json");
       json_load (os_path_join (Train.input args) "split_sizes.json") ],
     Raise (KeyError "training")).
Proof.
  intros Hexists Hjson Hrun.
  assert (Hquiet : run (Train.main args) (quiet env) =
    ([ logger_info "Training the model to classify %s"
         [LNames (Train.output_names args)];
       os_makedirs (Train.output args) true;
       os_path_exists (os_path_join (Train.input args) "split_sizes.json");
       json_load (os_path_join (Train.input args) "split_sizes.json") ],
     Raise (KeyError "training"))).
  { unfold run, Train.main, call, log_info, path_exists.
    rewrite step_record, step_call_for. cbn [quiet env_raises env_world].
    rewrite step_read, step_record. cbn [quiet env_world].
    rewrite Hexists, !step_assoc, step_call_for.
    cbn [quiet env_raises env_world].
    rewrite !step_assoc, step_lift. unfold getitem. rewrite Hjson.
    reflexivity. }
  split_and!; [| |done].
  - destruct (orderly_run _ _ _ _ (train_main_orderly args) Hrun)
      as [Hq|[-> Hprefix]].
    + rewrite Hquiet in Hq. by injection Hq as <- <-.
    + by rewrite Hquiet in Hprefix.
  - destruct (orderly_run _ _ _ _ (train_main_orderly args) Hrun)
      as [Hq|[-> Hprefix]]; [|by right].
    rewrite Hquiet in Hq. injection Hq as <- <-. by left.
Qed.

Lemma train_main_missing_training_size_witness :
  run (Train.main sample_args)
    (quiet {| env_world := sample_world_no_training;
              env_raises := fun _ _ => false |}) =
    ([ logger_info "Training the model to classify %s"
         [LNames (Train.output_names sample_args)];
       os_makedirs (Train.output sample_args) true;
       os_path_exists (os_path_join (Train.input sample_args) "split_sizes.json");
       json_load (os_path_join (Train.input sample_args) "split_sizes.json") ],
     Raise (KeyError "training")).
Proof.
  apply (train_main_missing_training_size
           {| env_world := sample_world_no_training;
              env_raises := fun _ _ => false |}
           sample_args
           (run (Train.main sample_args)
              {| env_world := sample_world_no_training;
                 env_raises := fun _ _ => false |}).1
           (run (Train.main sample_args)
              {| env_world := sample_world_no_training;
                 env_raises := fun _ _ => false |}).2).
  - reflexivity.
  - reflexivity.
  - vm_compute. reflexivity.
Defined.

Lemma train_main_quiet_zero_batch_size (env : Env) (args : Train.Args)
    (full : list Call) (rq : result unit) :
  Train.batch_size args = 0%Z →
  run (Train.main args) (quiet env) = (full, rq) →
  Forall (fun c => preparing c = true) full.
Proof.
  intros Hbs. unfold run.
  destruct (Train.main args (quiet env) []) as [t r0] eqn:H.
  intros [= <- <-].
  unfold Train.main, call, log_info, path_exists in H.
  rewrite Hbs in H.
  do 12 (try quiet_step H).
  all: run_facts; try done.
  all: injection H as <- <-.
  all: cbn [rev app]; by repeat constructor.
Qed.

(** X12.  With a batch size of zero a run never gets past its
    preparation, with or without a checkpoint: its calls are only logging,
    the creation of the output directory and the reading of the split sizes,
    and it does not complete.  When the number of training samples is
    available it ends with ZeroDivisionError, or with the error of one of
    these calls. *)
Theorem train_main_zero_batch_size (env : Env) (args : Train.Args)
    (tr : list Call) (r : result unit) :
  Train.batch_size args = 0%Z →
  run (Train.main args) env = (tr, r) →
  Forall (fun c => preparing c = true) tr ∧
  r ≠ Ok tt ∧
  (∀ N, training_samples (env_world env) (Train.input args) = Ok N →
        (r = Raise ZeroDivisionError ∨ r = Raise LibraryError) ∧
        (run (Train.main args) (quiet env)).2 = Raise ZeroDivisionError).
Proof.
  intros Hbs Hrun. split_and!.
  - destruct (orderly_run _ _ _ _ (train_main_orderly args) Hrun)
      as [Hquiet|[-> Hprefix]].
    + by eapply train_main_quiet_zero_batch_size.
    + destruct (run (Train.main args) (quiet env)) as [full rq] eqn:Hquiet.
      eapply Forall_prefix_of; [exact Hprefix|].
      by eapply train_main_quiet_zero_batch_size.
  - apply train_main_calls in Hrun as [_ [->| ->]]; [|done].
    unfold quiet_outcome, floordiv. rewrite Hbs.
    by destruct (training_samples _ _).
  - intros N HN.
    destruct (run (Train.main args) (quiet env)) as [full rq] eqn:Hquiet.
    apply train_main_quiet_calls in Hquiet as (_ & -> & _).
    apply train_main_calls in Hrun as [_ Hr]. revert Hr.
    unfold quiet_outcome. rewrite HN, Hbs. cbn.
    intros [->| ->]; split; auto.
Qed.

Lemma train_main_zero_batch_size_witness :
  Forall (fun c => preparing c = true)
    (run (Train.main (with_hyperparameters sample_resume_args
                        (Float "0.001") (Float "0.1") 30 0)) sample_env).1 ∧
  (run (Train.main (with_hyperparameters sample_resume_args
                      (Float "0.001") (Float "0.1") 30 0)) sample_env).2
  ≠ Ok tt.
Proof.
  destruct (train_main_zero_batch_size sample_env
              (with_hyperparameters sample_resume_args
                 (Float "0.001") (Float "0.1") 30 0)
              (run (Train.main (with_hyperparameters sample_resume_args
                         (Float "0.001") (Float "0.1") 30 0)) sample_env).1
              (run (Train.main (with_hyperparameters sample_resume_args
                         (Float "0.001") (Float "0.1") 30 0)) sample_env).2)
    as (Hcalls & Hr & _).
  - reflexivity.
  - vm_compute. reflexivity.
  - by split.
Defined.

Lemma train_main_quiet_without_output_names (env : Env) (args : Train.Args)
    (full : list Call) (rq : result unit) :
  Train.output_names args = None → Train.checkpoint args = None →
  run (Train.main args) (quiet env) = (full, rq) →
  Forall (fun c => preparing c || fetching c = true) full.
Proof.
  intros Hnames Hckpt. unfold run.
  destruct (Train.main args (quiet env) []) as [t r0] eqn:H.
  intros [= <- <-].
  unfold Train.main, call, log_info, path_exists in H.
  rewrite Hnames, Hckpt in H.
  do 24 (try quiet_step H).
  all: try discriminate.
  all: injection H as <- <-.
  all: cbn [rev app]; by repeat constructor.
Qed.

(** A resumed run without output names in which no call raises: it goes on
    to open output_names.txt, and stops there. *)
Lemma train_main_quiet_resume_without_names (env : Env) (args : Train.Args)
    (ckpt : string) (N : Z) :
  Train.output_names args = None →
  Train.checkpoint args = Some ckpt →
  training_samples (env_world env) (Train.input args) = Ok N →
  Train.batch_size args ≠ 0%Z →
  ∃ before,
    run (Train.main args) (quiet env) =
    (before ++
     [ trainer_train (Some ckpt);
       trainer_predict (preprocessed_split (env_world env) args "test");
       logger_info "Test results: %s" [LObject "test_result"];
       torch_save (torch_load_model ckpt)
         (os_path_join (output_directory (env_world env) args) "model.pt");
       logger_info "Model saved successfully to %s"
         [LStr (output_directory (env_world env) args)];
       open_for_writing
         (os_path_join (output_directory (env_world env) args)
                       "output_names.txt") ],
     Raise TypeError).
Proof.
  intros Hnames Hckpt HN Hbs. unfold run.
  destruct (Train.main args (quiet env) []) as [t r0] eqn:H.
  unfold Train.main, call, log_info, path_exists in H.
  rewrite Hnames, Hckpt in H.
  unfold training_samples in HN.
  repeat quiet_step H.
  all: run_facts; try done.
  all: try (rewrite_facts; discriminate).
  all: injection H as <- <-.
  all: match goal with
       | |- ∃ _, (rev (?a :: ?b :: ?c :: ?d :: ?e :: ?f :: ?rest), _) = _ =>
           exists (rev rest);
           change (a :: b :: c :: d :: e :: f :: rest)
             with ([a; b; c; d; e; f] ++ rest);
           rewrite rev_app_distr
       end.
  all: unfold preprocessed_split, image_processor_source, output_directory;
    rewrite Hckpt, Hnames; cbv beta iota zeta; rewrite_facts.
  all: reflexivity.
Qed.

(** Without output names, a run from scratch makes only the calls of the
    preparation and of the fetching. *)
Lemma train_main_fresh_without_names (env : Env) (args : Train.Args)
    (tr : list Call) (r : result unit) :
  Train.output_names args = None → Train.checkpoint args = None →
  run (Train.main args) env = (tr, r) →
  Forall (fun c => preparing c || fetching c = true) tr.
Proof.
  intros Hnames Hckpt Hrun.
  destruct (orderly_run _ _ _ _ (train_main_orderly args) Hrun)
    as [Hquiet|[-> Hprefix]].
  - by eapply train_main_quiet_without_output_names.
  - destruct (run (Train.main args) (quiet env)) as [full rq] eqn:Hquiet.
    eapply Forall_prefix_of; [exact Hprefix|].
    by eapply train_main_quiet_without_output_names.
Qed.

(** Without output names no run completes, and none writes the names. *)
Lemma train_main_without_names_stops (env : Env) (args : Train.Args)
    (tr : list Call) (r : result unit) :
  Train.output_names args = None →
  run (Train.main args) env = (tr, r) →
  r ≠ Ok tt ∧ ∀ path content, file_write path content ∉ tr.
Proof.
  intros Hnames Hrun.
  apply train_main_calls in Hrun as [Hcalls Hr]. split.
  - destruct Hr as [->| ->]; [|done].
    unfold quiet_outcome. rewrite Hnames.
    destruct (training_samples _ _) as [e|N]; [done|]. cbn.
    by destruct (floordiv _ _).
  - intros path content Hin.
    apply (Forall_elem_of _ _ Hcalls) in Hin.
    destruct Hin as (_ & names & Hsome & _). congruence.
Qed.

(** X13.  Without output names a run never completes, and nothing is
    ever written into output_names.txt.  A run from scratch stops before the
    model is built: its calls are only those of the preparation and those
    fetching the pretrained image processor and base model and saving the
    image processor, so that it does not open output_names.txt either.  A
    resumed run gets further: when the number of training samples is
    available, the batch size is not zero and no call raises, it trains,
    predicts, saves the model and opens output_names.txt for writing, and
    stops there with TypeError, before anything is written. *)
Theorem train_main_without_output_names (env : Env) (args : Train.Args)
    (tr : list Call) (r : result unit) :
  Train.output_names args = None →
  run (Train.main args) env = (tr, r) →
  r ≠ Ok tt ∧
  (∀ path content, file_write path content ∉ tr) ∧
  (Train.checkpoint args = None →
   Forall (fun c => preparing c || fetching c = true) tr ∧
   ∀ path, open_for_writing path ∉ tr) ∧
  (∀ ckpt N,
     Train.checkpoint args = Some ckpt →
     training_samples (env_world env) (Train.input args) = Ok N →
     Train.batch_size args ≠ 0%Z →
     ∃ before,
       run (Train.main args) (quiet env) =
       (before ++
        [ trainer_train (Some ckpt);
          trainer_predict (preprocessed_split (env_world env) args "test");
          logger_info "Test results: %s" [LObject "test_result"];
          torch_save (torch_load_model ckpt)
            (os_path_join (output_directory (env_world env) args) "model.pt");
          logger_info "Model saved successfully to %s"
            [LStr (output_directory (env_world env) args)];
          open_for_writing
            (os_path_join (output_directory (env_world env) args)
                          "output_names.txt") ],
        Raise TypeError)).
Proof.
  intros Hnames Hrun.
  destruct (train_main_without_names_stops _ _ _ _ Hnames Hrun) as [Hr Hw].
  split_and!; [done|done| |].
  - intros Hckpt.
    pose proof (train_main_fresh_without_names _ _ _ _ Hnames Hckpt Hrun)
      as Hcalls.
    split; [done|]. intros path Hin.
    by apply (Forall_elem_of _ _ Hcalls) in Hin.
  - intros ckpt N Hckpt HN Hbs.
    by apply (train_main_quiet_resume_without_names env args ckpt N).
Qed.

Lemma train_main_without_output_names_witness :
  (run (Train.main sample_resume_args_without_names) sample_env).2 ≠ Ok tt ∧
  ∃ before,
    run (Train.main sample_resume_args_without_names) (quiet sample_env) =
    (before ++
     [ trainer_train (Some "runs/checkpoint-500");
       trainer_predict
         (preprocessed_split sample_world sample_resume_args_without_names
            "test");
       logger_info "Test results: %s" [LObject "test_result"];
       torch_save (torch_load_model "runs/checkpoint-500")
         (os_path_join
            (output_directory sample_world sample_resume_args_without_names)
            "model.pt");
       logger_info "Model saved successfully to %s"
         [LStr (output_directory sample_world
                  sample_resume_args_without_names)];
       open_for_writing
         (os_path_join
            (output_directory sample_world sample_resume_args_without_names)
            "output_names.txt") ],
     Raise TypeError).
Proof.
  destruct (train_main_without_output_names sample_env
              sample_resume_args_without_names
              (run (Train.main sample_resume_args_without_names) sample_env).1
              (run (Train.main sample_resume_args_without_names) sample_env).2)
    as (Hr & _ & _ & Hopen).
  - reflexivity.
  - vm_compute. reflexivity.
  - split; [exact Hr|].
    apply (Hopen "runs/checkpoint-500" 65536%Z).
    + reflexivity.
    + reflexivity.
    + discriminate.
Defined.

(** The file-system writes of the sample run resumed without output names:
    output_names.txt is opened, and nothing is written into it. *)
Example train_main_resume_without_names_run :
  filter (fun c => writes c = true)
    (run (Train.main sample_resume_args_without_names) sample_env).1
  = [ os_makedirs "data/train" true;
      torch_save (torch_load_model "runs/checkpoint-500")
        "runs/checkpoint-500/../model.pt";
      open_for_writing "runs/checkpoint-500/../output_names.txt" ] ∧
  (run (Train.main sample_resume_args_without_names) sample_env).2
  = Raise TypeError.
Proof. vm_compute. by split. Qed.

(** X14.  The calls of a run that write to the file system are only:
    the creation of the --output directory; in a run from scratch, the image
    processor saved into the output directory; the model saved to model.pt
    in the output directory; output_names.txt in the output directory opened
    and written with the output names joined by newlines. *)
Theorem train_main_writes (env : Env) (args : Train.Args)
    (tr : list Call) (r : result unit) :
  run (Train.main args) env = (tr, r) →
  Forall
    (fun c =>
       writes c = true →
       c = os_makedirs (Train.output args) true ∨
       (Train.checkpoint args = None ∧
        c = image_processor_save_pretrained
              (AutoImageProcessor_from_pretrained (Train.model args))
              (output_directory (env_world env) args)) ∨
       (∃ m, c = torch_save m
                   (os_path_join (output_directory (env_world env) args)
                                 "model.pt")) ∨
       c = open_for_writing
             (os_path_join (output_directory (env_world env) args)
                           "output_names.txt") ∨
       (∃ names, Train.output_names args = Some names ∧
          c = file_write
                (os_path_join (output_directory (env_world env) args)
                              "output_names.txt")
                (str_join newline names)))
    tr.
Proof.
  intros Hrun. apply train_main_calls in Hrun as [Hcalls _].
  eapply list.Forall_impl; [exact Hcalls|].
  intros c Hc Hw. destruct c; try discriminate Hw; cbn in Hc.
  - destruct Hc as [-> ->]. by left.
  - destruct Hc as (Hckpt & -> & ->). right. by left.
  - destruct Hc as [-> _]. right. right. left. by eexists.
  - subst. right. right. right. by left.
  - destruct Hc as (-> & names & Hnames & ->). do 4 right. by eexists.
Qed.

Lemma train_main_writes_witness :
  Forall
    (fun c =>
       writes c = true →
       c = os_makedirs (Train.output sample_args) true ∨
       (Train.checkpoint sample_args = None ∧
        c = image_processor_save_pretrained
              (AutoImageProcessor_from_pretrained (Train.model sample_args))
              (output_directory sample_world sample_args)) ∨
       (∃ m, c = torch_save m
                   (os_path_join (output_directory sample_world sample_args)
                                 "model.pt")) ∨
       c = open_for_writing
             (os_path_join (output_directory sample_world sample_args)
                           "output_names.txt") ∨
       (∃ names, Train.output_names sample_args = Some names ∧
          c = file_write
                (os_path_join (output_directory sample_world sample_args)
                              "output_names.txt")
                (str_join newline names)))
    (run (Train.main sample_args) sample_env).1.
Proof.
  apply (train_main_writes sample_env sample_args _
           (run (Train.main sample_args) sample_env).2).
  vm_compute. reflexivity.
Defined.

(** The files the sample run writes, in order. *)
Example train_main_sample_writes :
  filter (fun c => writes c = true) (run (Train.main sample_args) sample_env).1
  = [ os_makedirs "data/train" true;
      image_processor_save_pretrained
        (AutoImageProcessor_from_pretrained "resnet18")
        "data/train/2024_05_01_1200";
      torch_save (MultiHeadModel "resnet18" 2)
        "data/train/2024_05_01_1200/model.pt";
      open_for_writing "data/train/2024_05_01_1200/output_names.txt";
      file_write "data/train/2024_05_01_1200/output_names.txt"
        ("wind_speed" +:+ newline +:+ "wave_height") ].
Proof. vm_compute. reflexivity. Qed.

(** X15.  The training dataset the Trainer gets is the "train" split
    with, in this order: take(N), shuffle, the augmentation when a rotation
    is given, the preprocessing, the selection of the columns "labels" and
    "pixel_values"; N is the number of training samples read from
    split_sizes.json, or 65536.  A run that completes has made the
    Trainer. *)
Theorem train_main_training_pipeline (env : Env) (args : Train.Args)
    (tr : list Call) (r : result unit) :
  run (Train.main args) env = (tr, r) →
  (∀ init, new_Trainer init ∈ tr →
     ∃ N, training_samples (env_world env) (Train.input args) = Ok N ∧
          train_dataset init = training_pipeline (env_world env) args N) ∧
  (r = Ok tt → ∃ init, new_Trainer init ∈ tr).
Proof.
  intros Hrun. split.
  - intros init Hin. apply train_main_calls in Hrun as [Hcalls _].
    apply (Forall_elem_of _ _ Hcalls) in Hin. by destruct Hin as [HN _].
  - intros ->.
    apply (orderly_run_complete _ _ _ _ (train_main_orderly args)) in Hrun.
    apply train_main_quiet_calls in Hrun as (_ & _ & Hpresent).
    by destruct (Hpresent eq_refl) as [Hinit _].
Qed.

Lemma train_main_training_pipeline_witness :
  ∃ init N,
    new_Trainer init
    ∈ (run (Train.main (with_rotation sample_args (Some (Float "15"))))
           sample_env).1 ∧
    training_samples sample_world "data" = Ok N ∧
    train_dataset init
    = training_pipeline sample_world
        (with_rotation sample_args (Some (Float "15"))) N.
Proof.
  destruct (train_main_training_pipeline sample_env
              (with_rotation sample_args (Some (Float "15")))
              (run (Train.main (with_rotation sample_args (Some (Float "15"))))
                   sample_env).1
              (run (Train.main (with_rotation sample_args (Some (Float "15"))))
                   sample_env).2) as [Hpipe Hinit].
  - vm_compute. reflexivity.
  - destruct Hinit as [init Hin]; [vm_compute; reflexivity|].
    destruct (Hpipe init Hin) as (N & HN & Hds).
    by exists init, N.
Defined.

(** The training pipeline of the sample run with a rotation of 15 degrees. *)
Example train_main_sample_pipeline :
  omap (fun c => match c with
                 | new_Trainer init => Some (ds_ops (train_dataset init))
                 | _ => None
                 end)
       (run (Train.main (with_rotation sample_args (Some (Float "15"))))
            sample_env).1
  = [ [ ds_take 65536; ds_shuffle;
        ds_map (partial_augment_batch
                  (RandomRotation (Float "15") "bilinear")) true;
        ds_map (partial_preprocess_batch
                  (AutoImageProcessor_from_pretrained "resnet18")
                  (Some ["wind_speed"; "wave_height"])) true;
        ds_select_columns ["labels"; "pixel_values"] ] ].
Proof. vm_compute. reflexivity. Qed.

(** X16.  In a run from scratch (no checkpoint) nothing is loaded with
    torch.load; the image processor is loaded from the model name and saved
    into the output directory; the base model is loaded from the model name
    with ignore_mismatched_sizes=True; the model has as many outputs as there
    are output names; the TrainingArguments have the output directory, the
    learning rate, the warmup ratio and (for training and evaluation) the
    batch size of the arguments, and the fixed strategies of the script; the
    Trainer gets that model and the output names for its metrics; training
    starts without resume checkpoint.  A run that completes has made all
    these calls. *)
Theorem train_main_fresh_setup (env : Env) (args : Train.Args)
    (tr : list Call) (r : result unit) :
  Train.checkpoint args = None →
  run (Train.main args) env = (tr, r) →
  (∀ path, torch_load path ∉ tr) ∧
  (∀ src, image_processor_from_pretrained src ∈ tr → src = Train.model args) ∧
  (∀ ip dir, image_processor_save_pretrained ip dir ∈ tr →
     ip = AutoImageProcessor_from_pretrained (Train.model args) ∧
     dir = output_directory (env_world env) args) ∧
  (∀ name ignore_mismatched_sizes,
     base_model_from_pretrained name ignore_mismatched_sizes ∈ tr →
     name = Train.model args ∧ ignore_mismatched_sizes = true) ∧
  (∀ base_model num_outputs, new_MultiHeadModel base_model num_outputs ∈ tr →
     base_model = Train.model args ∧
     ∃ names, Train.output_names args = Some names ∧
              num_outputs = length names) ∧
  (∀ init, new_TrainingArguments init ∈ tr →
     ta_output_dir init = output_directory (env_world env) args ∧
     ta_learning_rate init = Train.learning_rate args ∧
     ta_warmup_ratio init = Train.warmup_ratio args ∧
     ta_per_device_train_batch_size init = Train.batch_size args ∧
     ta_per_device_eval_batch_size init = Train.batch_size args ∧
     ta_eval_strategy init = "epoch" ∧ ta_save_strategy init = "epoch" ∧
     ta_load_best_model_at_end init = true ∧ ta_save_total_limit init = 1%Z ∧
     ta_lr_scheduler_type init = "cosine" ∧
     ta_logging_strategy init = "steps" ∧ ta_logging_steps init = 50%Z) ∧
  (∀ init, new_Trainer init ∈ tr →
     ∃ names, Train.output_names args = Some names ∧
              trainer_model init =
              MultiHeadModel (Train.model args) (length names) ∧
              compute_metrics_metric init = "mae" ∧
              compute_metrics_output_names init = Some names) ∧
  (∀ resume, trainer_train resume ∈ tr → resume = None) ∧
  (r = Ok tt →
   image_processor_from_pretrained (Train.model args) ∈ tr ∧
   image_processor_save_pretrained
     (AutoImageProcessor_from_pretrained (Train.model args))
     (output_directory (env_world env) args) ∈ tr ∧
   base_model_from_pretrained (Train.model args) true ∈ tr ∧
   (∃ n, new_MultiHeadModel (Train.model args) n ∈ tr) ∧
   (∃ init, new_TrainingArguments init ∈ tr) ∧
   trainer_train None ∈ tr).
Proof.
  intros Hckpt Hrun.
  pose proof (train_main_calls _ _ _ _ Hrun) as [Hcalls _].
  pose proof (Forall_elem_of _ _ Hcalls) as Hcall. clear Hcalls.
  split_and!.
  - intros path Hin. apply Hcall in Hin as (ckpt & Hsome & _). congruence.
  - intros src Hin. apply Hcall in Hin. cbn in Hin.
    unfold image_processor_source in Hin. by rewrite Hckpt in Hin.
  - intros ip dir Hin. by apply Hcall in Hin as (_ & -> & ->).
  - intros name flag Hin. by apply Hcall in Hin as (_ & -> & ->).
  - intros b n Hin. by apply Hcall in Hin as (_ & -> & Hnames).
  - intros init Hin. apply Hcall in Hin as (_ & N & _ & _ & ->).
    by split_and!.
  - intros init Hin. apply Hcall in Hin as (_ & _ & Hmetric & Hnames & Hmodel).
    rewrite Hckpt in Hmodel. destruct Hmodel as (names & Hsome & Hmodel).
    exists names. split_and!; try done. by rewrite Hnames.
  - intros resume Hin. apply Hcall in Hin. cbn in Hin. by rewrite Hin.
  - intros ->.
    apply (orderly_run_complete _ _ _ _ (train_main_orderly args)) in Hrun.
    apply train_main_quiet_calls in Hrun as (_ & _ & Hpresent).
    destruct (Hpresent eq_refl) as (_ & _ & Htrain & Hfresh).
    destruct (Hfresh Hckpt) as (H1 & H2 & H3 & H4 & H5).
    rewrite Hckpt in Htrain. by split_and!.
Qed.

Lemma train_main_fresh_setup_witness :
  image_processor_from_pretrained (Train.model sample_args)
  ∈ (run (Train.main sample_args) sample_env).1 ∧
  image_processor_save_pretrained
    (AutoImageProcessor_from_pretrained (Train.model sample_args))
    (output_directory sample_world sample_args)
  ∈ (run (Train.main sample_args) sample_env).1 ∧
  base_model_from_pretrained (Train.model sample_args) true
  ∈ (run (Train.main sample_args) sample_env).1 ∧
  (∃ n, new_MultiHeadModel (Train.model sample_args) n
        ∈ (run (Train.main sample_args) sample_env).1) ∧
  (∃ init, new_TrainingArguments init
           ∈ (run (Train.main sample_args) sample_env).1) ∧
  trainer_train None ∈ (run (Train.main sample_args) sample_env).1.
Proof.
  apply (train_main_fresh_setup sample_env sample_args
           (run (Train.main sample_args) sample_env).1
           (run (Train.main sample_args) sample_env).2).
  - reflexivity.
  - vm_compute. reflexivity.
  - vm_compute. reflexivity.
Defined.

(** ** The parsers: declared options, types and defaults *)

Lemma find_action_elem (p : ArgumentParser) (flag : string) (a : Action) :
  find_action p flag = Some a → a ∈ actions p ∧ arg_flag a = flag.
Proof.
  intros [Hin Hflag]%find_some. split; [by apply list_elem_of_In|].
  by apply bool_decide_eq_true in Hflag.
Qed.

Section ParseTyped.

Variable int_of_str : string → option Z.
Variable float_of_str : string → option pyfloat.
Variable p : ArgumentParser.

Lemma convert_typed (ty : argtype) (s : string) (v : argvalue) :
  convert int_of_str float_of_str ty s = Some v → value_of_type ty v.
Proof.
  destruct ty; cbn.
  - by intros [= <-].
  - by intros [= <-].
  - destruct (int_of_str s); [|done]. by intros [= <-].
  - destruct (float_of_str s); [|done]. by intros [= <-].
Qed.

Lemma convert_all_typed (ty : argtype) (l : list string) (vs : list argvalue) :
  convert_all int_of_str float_of_str ty l = Some vs →
  length vs = length l ∧ Forall (value_of_type ty) vs.
Proof.
  revert vs. induction l as [|s l IH]; intros vs; cbn.
  - by intros [= <-].
  - destruct (convert _ _ ty s) as [v|] eqn:Hv; [|done].
    destruct (convert_all _ _ ty l) as [vs'|]; [|done].
    intros [= <-]. destruct (IH vs' eq_refl) as [Hlen Hall]. split.
    + cbn. by rewrite Hlen.
    + constructor; [by eapply convert_typed|done].
Qed.

Lemma get_values_stored (a : Action) (args leftover : list string)
    (v : argvalue) :
  get_values int_of_str float_of_str a args = inr (v, leftover) →
  stored_value a v.
Proof.
  unfold get_values, stored_value.
  destruct (arg_nargs a), args as [|s rest]; try done.
  - destruct (convert _ _ _ s) eqn:Hv; [|done].
    intros [= <- <-]. by eapply convert_typed.
  - destruct (convert_all _ _ _ (s :: rest)) as [vs|] eqn:Hvs; [|done].
    intros [= <- <-]. apply convert_all_typed in Hvs as [Hlen Hall].
    exists vs. split_and!; [done| |done]. by destruct vs.
Qed.

Hypothesis dests_distinct :
  NoDup (map (fun a => dest (arg_flag a)) (actions p)).

Lemma dest_inj (a b : Action) :
  a ∈ actions p → b ∈ actions p →
  dest (arg_flag a) = dest (arg_flag b) → a = b.
Proof using Type*.
  revert dests_distinct. generalize (actions p). intros l.
  induction l as [|x l IH]; cbn; intros Hnd Ha Hb Heq.
  { by apply elem_of_nil in Ha. }
  apply list.NoDup_cons in Hnd as [Hx Hnd].
  apply elem_of_cons in Ha as [->|Ha]; apply elem_of_cons in Hb as [->|Hb].
  - done.
  - destruct Hx. rewrite Heq. apply list_elem_of_fmap. by exists b.
  - destruct Hx. rewrite <- Heq. apply list_elem_of_fmap. by exists a.
  - by apply IH.
Qed.

Lemma take_item_well_typed (st st' : state) (it : item) :
  take_item int_of_str float_of_str p st it = inr st' →
  well_typed p (namespace st) → well_typed p (namespace st').
Proof using Type*.
  destruct it as [flag args|arg]; cbn.
  - destruct (is_help flag); [done|].
    destruct (find_action p flag) as [a|] eqn:Hact.
    + destruct (get_values _ _ a args) as [e|[v leftover]] eqn:Hval; [done|].
      destruct (find _ _); [done|]. intros [= <-]. cbn.
      apply find_action_elem in Hact as [Ha <-].
      unfold well_typed. intros Hwt.
      apply list.Forall_forall. intros b Hb.
      destruct (decide (dest (arg_flag a) = dest (arg_flag b))) as [Heq|Hne].
      * apply dest_inj in Heq as <-; [|done..].
        exists v. split; [apply lookup_insert_eq|].
        right. by eapply get_values_stored.
      * rewrite lookup_insert_ne by done.
        by apply (Forall_elem_of _ _ Hwt).
    + by intros [= <-].
  - by intros [= <-].
Qed.

Lemma parse_loop_well_typed (items : list item) (st : state)
    (ns : gmap string argvalue) :
  well_typed p (namespace st) →
  parse_loop int_of_str float_of_str p st items = Parsed ns →
  well_typed p ns.
Proof using Type*.
  revert st. induction items as [|it rest IH]; intros st Hwt; cbn.
  - unfold finish. destruct (filter _ _); [|done].
    destruct (extras st); [|done]. by intros [= <-].
  - destruct (take_item _ _ p st it) as [out|st'] eqn:Htake.
    { intros ->. by eapply take_item_stops in Htake. }
    apply IH. by eapply take_item_well_typed.
Qed.

(** An accepted command line left nothing over: every item fits. *)
Lemma parse_loop_items_fit (items : list item) (st : state)
    (ns : gmap string argvalue) :
  parse_loop int_of_str float_of_str p st items = Parsed ns →
  extras st = [] ∧ Forall (item_fits int_of_str float_of_str p) items.
Proof.
  revert st. induction items as [|it rest IH]; intros st; cbn.
  - unfold finish. destruct (filter _ _); [|done].
    destruct (extras st); [|done]. by intros _.
  - destruct (take_item _ _ p st it) as [out|st'] eqn:Htake.
    { intros ->. by eapply take_item_stops in Htake. }
    intros [Hextras Hrest]%IH.
    destruct it as [flag args|arg]; cbn in Htake.
    + destruct (is_help flag); [done|].
      destruct (find_action p flag) as [a|] eqn:Hact.
      * destruct (get_values _ _ a args) as [e|[v leftover]] eqn:Hval; [done|].
        destruct (find _ _); [done|]. injection Htake as <-.
        cbn in Hextras. apply app_eq_nil in Hextras as [-> ->].
        split; [done|]. constructor; [|done]. cbn. by exists a, v.
      * injection Htake as <-. cbn in Hextras.
        by apply app_eq_nil in Hextras as [_ ?].
    + injection Htake as <-. cbn in Hextras.
      by apply app_eq_nil in Hextras as [_ ?].
Qed.

(** An option that is not supplied leaves its attribute at the default. *)
Lemma parse_loop_default (items : list item) (st : state)
    (ns : gmap string argvalue) (a : Action) :
  a ∈ actions p → ¬ supplies (arg_flag a) items →
  parse_loop int_of_str float_of_str p st items = Parsed ns →
  ns !! dest (arg_flag a) = namespace st !! dest (arg_flag a).
Proof using Type*.
  intros Ha Hnot Hparsed.
  eapply parse_loop_untouched; [|exact Hparsed].
  intros flag args Hin [b Hb] Hdest.
  apply find_action_elem in Hb as [Hb <-].
  apply dest_inj in Hdest as ->; [|done..].
  apply Hnot. by exists args.
Qed.

(** The attribute of an option that was taken holds what the option
    stored. *)
Lemma take_item_seen_stored (st st' : state) (it : item) :
  take_item int_of_str float_of_str p st it = inr st' →
  (∀ b, b ∈ actions p → arg_flag b ∈ seen st →
        ∃ v, namespace st !! dest (arg_flag b) = Some v ∧ stored_value b v) →
  ∀ b, b ∈ actions p → arg_flag b ∈ seen st' →
       ∃ v, namespace st' !! dest (arg_flag b) = Some v ∧ stored_value b v.
Proof using Type*.
  destruct it as [flag args|arg]; cbn.
  - destruct (is_help flag); [done|].
    destruct (find_action p flag) as [a|] eqn:Hact.
    + destruct (get_values _ _ a args) as [e|[v leftover]] eqn:Hval; [done|].
      destruct (find _ _); [done|]. intros [= <-]. cbn.
      apply find_action_elem in Hact as [Ha <-].
      intros Hst b Hb Hseen.
      destruct (decide (dest (arg_flag a) = dest (arg_flag b))) as [Heq|Hne].
      * apply dest_inj in Heq as <-; [|done..].
        exists v. split; [apply lookup_insert_eq|]. by eapply get_values_stored.
      * rewrite lookup_insert_ne by done. apply Hst; [done|].
        apply elem_of_cons in Hseen as [Heq|Hseen]; [|done].
        destruct Hne. by rewrite Heq.
    + by intros [= <-].
  - by intros [= <-].
Qed.

(** The attribute of a required option of an accepted command line holds
    what the option stored. *)
Lemma parse_loop_required_stored (items : list item) (st : state)
    (ns : gmap string argvalue) (a : Action) :
  (∀ b, b ∈ actions p → arg_flag b ∈ seen st →
        ∃ v, namespace st !! dest (arg_flag b) = Some v ∧ stored_value b v) →
  parse_loop int_of_str float_of_str p st items = Parsed ns →
  a ∈ actions p → arg_required a = true →
  ∃ v, ns !! dest (arg_flag a) = Some v ∧ stored_value a v.
Proof using Type*.
  intros Hst Hparsed Ha Hreq. revert st Hst Hparsed.
  induction items as [|it rest IH]; intros st Hst Hparsed.
  - destruct (parse_loop_required _ _ _ _ _ _ a Hparsed Ha Hreq)
      as [Hseen|[args Hin]]; [|by apply elem_of_nil in Hin].
    cbn in Hparsed. unfold finish in Hparsed.
    destruct (filter _ _); [|done]. destruct (extras st); [|done].
    injection Hparsed as <-. by apply Hst.
  - cbn in Hparsed.
    destruct (take_item _ _ p st it) as [out|st'] eqn:Htake.
    { subst out. by eapply take_item_stops in Htake. }
    apply (IH st'); [|done]. by eapply take_item_seen_stored.
Qed.

End ParseTyped.

Lemma str_items_typed (l : list argvalue) :
  Forall (value_of_type type_str) l →
  ∃ names, str_items l = Some names ∧ length names = length l.
Proof.
  induction 1 as [|v l Hv _ (names & Hnames & Hlen)].
  - by exists [].
  - change (str_items (v :: l))
      with (match v, str_items l with
            | AStr s, Some rest => Some (s :: rest)
            | _, _ => None
            end).
    destruct v; try done. rewrite Hnames. exists (s :: names).
    split; [done|]. cbn. by rewrite Hlen.
Qed.

Lemma train_parser_dests :
  NoDup (map (fun a => dest (arg_flag a)) (actions Train.get_args_parser)).
Proof. by apply (bool_decide_unpack _). Qed.

Lemma test_parser_dests :
  NoDup (map (fun a => dest (arg_flag a)) (actions TestBeaufort.get_args_parser)).
Proof. by apply (bool_decide_unpack _). Qed.

Lemma train_parser_defaults_typed :
  well_typed Train.get_args_parser (defaults Train.get_args_parser).
Proof.
  unfold well_typed. repeat constructor; eexists; (split; [by vm_compute|by left]).
Qed.

Lemma test_parser_defaults_typed :
  well_typed TestBeaufort.get_args_parser (defaults TestBeaufort.get_args_parser).
Proof.
  unfold well_typed. repeat constructor; eexists; (split; [by vm_compute|by left]).
Qed.

(** The facts of a well-typed namespace, one per declared option, with the
    attribute names computed. *)
Ltac typed_attributes Hwt :=
  unfold well_typed in Hwt;
  match type of Hwt with
  | Forall _ ?l => let l' := eval vm_compute in l in change l with l' in Hwt
  end;
  repeat match type of Hwt with
    | Forall _ (_ :: _) =>
        let Ha := fresh "Hattr" in
        apply Forall_cons_1 in Hwt as [Ha Hwt];
        cbv beta in Ha;
        match type of Ha with
        | context [dest ?f] =>
            let d := eval vm_compute in (dest f) in change (dest f) with d in Ha
        end
    end;
  clear Hwt.

Ltac attribute_value H :=
  let v := fresh "v" in
  let Hv := fresh "Hv" in
  let Hval := fresh "Hval" in
  destruct H as (v & Hv & Hval);
  unfold attr_str, attr_int, attr_float, attr_opt_str, attr_opt_float;
  rewrite Hv; destruct Hval as [->|Hval]; cbn in *;
  [by eexists | destruct v; try done; by eexists].

Lemma train_args_of_well_typed (ns : gmap string argvalue) :
  well_typed Train.get_args_parser ns →
  ∃ args, Train.args_of_namespace ns = Some args ∧
          (ns !! "output_names" = Some ANone → Train.output_names args = None) ∧
          (∀ names, Train.output_names args = Some names →
                    names ≠ [] ∧ ns !! "output_names" ≠ Some ANone).
Proof.
  intros Hwt. typed_attributes Hwt.
  assert (∃ x, attr_str ns "input" = Some x) as [a1 H1]
    by attribute_value Hattr.
  assert (∃ x, attr_opt_float ns "rotation" = Some x) as [a2 H2]
    by attribute_value Hattr0.
  assert (∃ x, attr_str ns "log" = Some x) as [a3 H3]
    by attribute_value Hattr1.
  assert (∃ x, attr_opt_str ns "log_file" = Some x) as [a4 H4]
    by attribute_value Hattr2.
  assert (∃ x, attr_opt_str ns "checkpoint" = Some x) as [a5 H5]
    by attribute_value Hattr3.
  assert (∃ x, attr_str ns "model" = Some x) as [a6 H6]
    by attribute_value Hattr4.
  assert (∃ x, attr_str ns "output" = Some x) as [a7 H7]
    by attribute_value Hattr5.
  assert (∃ x, attr_int ns "epochs" = Some x) as [a8 H8]
    by attribute_value Hattr6.
  assert (∃ x, attr_int ns "batch_size" = Some x) as [a9 H9]
    by attribute_value Hattr7.
  assert (∃ x, attr_float ns "learning_rate" = Some x) as [a10 H10]
    by attribute_value Hattr8.
  assert (∃ x, attr_float ns "warmup_ratio" = Some x) as [a11 H11]
    by attribute_value Hattr9.
  assert (∃ x, attr_opt_strs ns "output_names" = Some x ∧
               (ns !! "output_names" = Some ANone → x = None) ∧
               (∀ names, x = Some names →
                         names ≠ [] ∧ ns !! "output_names" ≠ Some ANone))
    as (a12 & H12 & Hnone & Hsome).
  { destruct Hattr10 as (v & Hv & Hval). unfold attr_opt_strs. rewrite Hv.
    destruct Hval as [->|(l & -> & Hl & Hall)]; cbn in *.
    - exists None. split_and!; done.
    - apply str_items_typed in Hall as (names & -> & Hlen). cbn.
      exists (Some names). split_and!; [done..|].
      intros ? [= <-]. split; [|done]. intros ->. by destruct l. }
  unfold Train.args_of_namespace.
  rewrite H1, H2, H3, H4, H5, H6, H7, H8, H9, H10, H11, H12. cbn.
  eexists. split; [reflexivity|]. by split.
Qed.

Lemma test_args_of_well_typed (ns : gmap string argvalue) :
  (∀ name, name ∈ ["model_dir"; "dataset"; "output"] →
           ∃ s, ns !! name = Some (AStr s)) →
  well_typed TestBeaufort.get_args_parser ns →
  ∃ args, TestBeaufort.args_of_namespace ns = Some args.
Proof.
  intros Hreq Hwt. typed_attributes Hwt.
  destruct (Hreq "model_dir") as [s1 Hs1]; [find_call|].
  destruct (Hreq "dataset") as [s2 Hs2]; [find_call|].
  destruct (Hreq "output") as [s3 Hs3]; [find_call|].
  assert (∃ x, attr_str ns "split" = Some x) as [a4 H4]
    by attribute_value Hattr2.
  assert (∃ x, attr_int ns "batch_size" = Some x) as [a5 H5]
    by attribute_value Hattr3.
  assert (∃ x, attr_str ns "log" = Some x) as [a6 H6]
    by attribute_value Hattr4.
  unfold TestBeaufort.args_of_namespace.
  rewrite H4, H5, H6. unfold attr_str. rewrite Hs1, Hs2, Hs3. cbn.
  by eexists.
Qed.

Lemma parse_args_well_typed_train (int_of_str : string → option Z)
    (float_of_str : string → option pyfloat) (items : list item)
    (ns : gmap string argvalue) :
  parse_args int_of_str float_of_str Train.get_args_parser items = Parsed ns →
  well_typed Train.get_args_parser ns.
Proof.
  apply parse_loop_well_typed;
    [apply train_parser_dests|apply train_parser_defaults_typed].
Qed.

Lemma parse_args_well_typed_test (int_of_str : string → option Z)
    (float_of_str : string → option pyfloat) (items : list item)
    (ns : gmap string argvalue) :
  parse_args int_of_str float_of_str TestBeaufort.get_args_parser items
  = Parsed ns →
  well_typed TestBeaufort.get_args_parser ns.
Proof.
  apply parse_loop_well_typed;
    [apply test_parser_dests|apply test_parser_defaults_typed].
Qed.

Lemma supplies_dec (flag : string) (items : list item) :
  supplies flag items ∨ ¬ supplies flag items.
Proof.
  induction items as [|it rest [[args Hin]|Hnot]].
  - right. by intros [args ?%elem_of_nil].
  - left. exists args. by right.
  - destruct it as [flag' args|arg].
    + destruct (decide (flag' = flag)) as [->|Hne].
      * left. exists args. by left.
      * right. intros [args' [[= ? ?]|Hin]%elem_of_cons]; [done|].
        apply Hnot. by exists args'.
    + right. intros [args' [[=]|Hin]%elem_of_cons].
      apply Hnot. by exists args'.
Qed.

(** On an accepted command line of either script, an option that is not
    supplied leaves its attribute at the declared default. *)
Lemma parse_args_default_value (int_of_str : string → option Z)
    (float_of_str : string → option pyfloat) (p : ArgumentParser)
    (items : list item) (ns : gmap string argvalue) (a : Action) :
  p = Train.get_args_parser ∨ p = TestBeaufort.get_args_parser →
  parse_args int_of_str float_of_str p items = Parsed ns →
  a ∈ actions p → ¬ supplies (arg_flag a) items →
  ns !! dest (arg_flag a) = Some (arg_default a).
Proof.
  intros Hp Hparsed Ha Hnot. unfold parse_args in Hparsed.
  rewrite (parse_loop_default _ _ p) with (4 := Hparsed); [|by destruct Hp as [->| ->];
    [apply train_parser_dests|apply test_parser_dests]|done..].
  cbn [namespace]. clear Hparsed Hnot.
  destruct Hp as [->| ->]; revert Ha;
    match goal with
    | |- _ ∈ ?l → _ => let l' := eval vm_compute in l in change l with l'
    end;
    intros Ha;
    repeat (apply elem_of_cons in Ha as [->|Ha]; [by vm_compute|]);
    by apply elem_of_nil in Ha.
Qed.

(** X17.  On a command line either script accepts, every declared option
    that is not supplied leaves its attribute at its declared default. *)
Theorem parser_defaults (int_of_str : string → option Z)
    (float_of_str : string → option pyfloat) (p : ArgumentParser)
    (items : list item) (ns : gmap string argvalue) (a : Action) :
  p = Train.get_args_parser ∨ p = TestBeaufort.get_args_parser →
  parse_args int_of_str float_of_str p items = Parsed ns →
  a ∈ actions p → ¬ supplies (arg_flag a) items →
  ns !! dest (arg_flag a) = Some (arg_default a).
Proof. apply parse_args_default_value. Qed.

Lemma parser_defaults_witness :
  ∃ ns,
    parse_args (fun _ => None) (fun _ => None) Train.get_args_parser
      [Opt "--output-names" ["wind_speed"]; Opt "--model" ["resnet50"]]
    = Parsed ns ∧
    ns !! "batch_size" = Some (AInt 32) ∧ ns !! "model" = Some (AStr "resnet50").
Proof.
  eexists. split; [reflexivity|]. split; [|by vm_compute].
  apply (parser_defaults (fun _ => None) (fun _ => None) Train.get_args_parser
           [Opt "--output-names" ["wind_speed"]; Opt "--model" ["resnet50"]] _
           {| arg_flag := "--batch-size"; arg_type := type_int;
              arg_nargs := nargs_unset; arg_default := AInt 32;
              arg_required := false |}).
  - by left.
  - reflexivity.
  - vm_compute. find_call.
  - intros [args Hin]. pick_call Hin.
Defined.

(** X18.  The training script's parser accepts a command line only if
    every item of it is a declared option with arguments that fit: exactly
    one argument that converts to the option's type, or for --output-names
    one or more; a positional argument, an undeclared option, a missing or a
    surplus argument, or a number that does not convert is refused. *)
Theorem train_parser_items_fit (int_of_str : string → option Z)
    (float_of_str : string → option pyfloat) (items : list item)
    (ns : gmap string argvalue) :
  parse_args int_of_str float_of_str Train.get_args_parser items = Parsed ns →
  Forall
    (fun it =>
       ∃ flag args a,
         it = Opt flag args ∧
         find_action Train.get_args_parser flag = Some a ∧
         match arg_nargs a with
         | nargs_unset =>
             ∃ s, args = [s] ∧
                  is_Some (convert int_of_str float_of_str (arg_type a) s)
         | nargs_plus =>
             args ≠ [] ∧
             is_Some (convert_all int_of_str float_of_str (arg_type a) args)
         end)
    items.
Proof.
  intros [_ Hfit]%parse_loop_items_fit.
  eapply list.Forall_impl; [exact Hfit|].
  intros [flag args|arg]; cbn; [|done].
  intros (a & v & Hact & Hval). exists flag, args, a.
  split_and!; [done..|].
  unfold get_values in Hval.
  destruct (arg_nargs a), args as [|s rest]; try done.
  - destruct (convert _ _ _ s) eqn:Hv; [|done].
    injection Hval as <- ->. exists s. by split.
  - destruct (convert_all _ _ _ (s :: rest)) as [vs|] eqn:Hvs; [|done].
    by split.
Qed.

Lemma train_parser_items_fit_witness :
  ¬ ∃ ns,
      parse_args (fun _ => None) (fun _ => None) Train.get_args_parser
        [Opt "--output-names" ["wind_speed"]; Opt "--epochs" ["many"]]
      = Parsed ns.
Proof.
  intros [ns Hparsed].
  apply (train_parser_items_fit (fun _ => None) (fun _ => None)) in Hparsed.
  apply Forall_cons_1 in Hparsed as [_ Hparsed].
  apply Forall_cons_1 in Hparsed as [(flag & args & a & Hit & Hact & Hargs) _].
  injection Hit as <- <-. vm_compute in Hact. injection Hact as <-.
  cbn in Hargs. destruct Hargs as (s & _ & [v Hv]). discriminate Hv.
Defined.

(** The attributes of the namespace, as the arguments hold them. *)
Lemma train_args_fields (ns : gmap string argvalue) (args : Train.Args) :
  Train.args_of_namespace ns = Some args →
  attr_str ns "input" = Some (Train.input args) ∧
  attr_opt_float ns "rotation" = Some (Train.rotation args) ∧
  attr_str ns "log" = Some (Train.log args) ∧
  attr_opt_str ns "log_file" = Some (Train.log_file args) ∧
  attr_opt_str ns "checkpoint" = Some (Train.checkpoint args) ∧
  attr_str ns "model" = Some (Train.model args) ∧
  attr_str ns "output" = Some (Train.output args) ∧
  attr_int ns "epochs" = Some (Train.epochs args) ∧
  attr_int ns "batch_size" = Some (Train.batch_size args) ∧
  attr_float ns "learning_rate" = Some (Train.learning_rate args) ∧
  attr_float ns "warmup_ratio" = Some (Train.warmup_ratio args) ∧
  attr_opt_strs ns "output_names" = Some (Train.output_names args).
Proof.
  unfold Train.args_of_namespace.
  destruct (attr_str ns "input"); [|done].
  destruct (attr_opt_float ns "rotation"); [|done].
  destruct (attr_str ns "log"); [|done].
  destruct (attr_opt_str ns "log_file"); [|done].
  destruct (attr_opt_str ns "checkpoint"); [|done].
  destruct (attr_str ns "model"); [|done].
  destruct (attr_str ns "output"); [|done].
  destruct (attr_int ns "epochs"); [|done].
  destruct (attr_int ns "batch_size"); [|done].
  destruct (attr_float ns "learning_rate"); [|done].
  destruct (attr_float ns "warmup_ratio"); [|done].
  destruct (attr_opt_strs ns "output_names"); [|done].
  by intros [= <-].
Qed.

(** The attribute of an option of the training script that is not
    supplied. *)
Ltac train_default Hparsed flag ty n dflt :=
  eapply (parse_args_default_value _ _ Train.get_args_parser _ _
            {| arg_flag := flag; arg_type := ty; arg_nargs := n;
               arg_default := dflt; arg_required := false |});
  [by left|exact Hparsed|vm_compute; find_call|done].

(** X19.  The namespace of every command line the training script's
    parser accepts can be read as the arguments of [main]; an argument whose
    option is not supplied has its default (the output names: None); output
    names that are not None were supplied and are not empty. *)
Theorem train_parser_reads_args (int_of_str : string → option Z)
    (float_of_str : string → option pyfloat) (items : list item)
    (ns : gmap string argvalue) :
  parse_args int_of_str float_of_str Train.get_args_parser items = Parsed ns →
  ∃ args,
    Train.args_of_namespace ns = Some args ∧
    (¬ supplies "--input" items → Train.input args = "data") ∧
    (¬ supplies "--rotation" items → Train.rotation args = None) ∧
    (¬ supplies "--log" items → Train.log args = "INFO") ∧
    (¬ supplies "--log-file" items → Train.log_file args = None) ∧
    (¬ supplies "--checkpoint" items → Train.checkpoint args = None) ∧
    (¬ supplies "--model" items → Train.model args = "resnet18") ∧
    (¬ supplies "--output" items → Train.output args = "data/train") ∧
    (¬ supplies "--epochs" items → Train.epochs args = 30%Z) ∧
    (¬ supplies "--batch-size" items → Train.batch_size args = 32%Z) ∧
    (¬ supplies "--learning-rate" items →
     Train.learning_rate args = Float "0.001") ∧
    (¬ supplies "--warmup-ratio" items →
     Train.warmup_ratio args = Float "0.1") ∧
    (¬ supplies "--output-names" items → Train.output_names args = None) ∧
    (∀ names, Train.output_names args = Some names →
              names ≠ [] ∧ supplies "--output-names" items).
Proof.
  intros Hparsed.
  pose proof (parse_args_well_typed_train _ _ _ _ Hparsed) as Hwt.
  apply train_args_of_well_typed in Hwt as (args & Hargs & Hnone & Hsome).
  exists args. split; [done|].
  pose proof (train_args_fields _ _ Hargs)
    as (H1 & H2 & H3 & H4 & H5 & H6 & H7 & H8 & H9 & H10 & H11 & _).
  unfold attr_str, attr_int, attr_float, attr_opt_str, attr_opt_float in *.
  split_and!.
  - intros Hnot. assert (Hd : ns !! "input" = Some (AStr "data"))
      by train_default Hparsed "--input" type_unset nargs_unset (AStr "data").
    rewrite Hd in H1. by injection H1.
  - intros Hnot. assert (Hd : ns !! "rotation" = Some ANone)
      by train_default Hparsed "--rotation" type_float nargs_unset ANone.
    rewrite Hd in H2. by injection H2.
  - intros Hnot. assert (Hd : ns !! "log" = Some (AStr "INFO"))
      by train_default Hparsed "--log" type_str nargs_unset (AStr "INFO").
    rewrite Hd in H3. by injection H3.
  - intros Hnot. assert (Hd : ns !! "log_file" = Some ANone)
      by train_default Hparsed "--log-file" type_str nargs_unset ANone.
    rewrite Hd in H4. by injection H4.
  - intros Hnot. assert (Hd : ns !! "checkpoint" = Some ANone)
      by train_default Hparsed "--checkpoint" type_unset nargs_unset ANone.
    rewrite Hd in H5. by injection H5.
  - intros Hnot. assert (Hd : ns !! "model" = Some (AStr "resnet18"))
      by train_default Hparsed "--model" type_str nargs_unset (AStr "resnet18").
    rewrite Hd in H6. by injection H6.
  - intros Hnot. assert (Hd : ns !! "output" = Some (AStr "data/train"))
      by train_default Hparsed "--output" type_unset nargs_unset
           (AStr "data/train").
    rewrite Hd in H7. by injection H7.
  - intros Hnot. assert (Hd : ns !! "epochs" = Some (AInt 30))
      by train_default Hparsed "--epochs" type_int nargs_unset (AInt 30).
    rewrite Hd in H8. by injection H8.
  - intros Hnot. assert (Hd : ns !! "batch_size" = Some (AInt 32))
      by train_default Hparsed "--batch-size" type_int nargs_unset (AInt 32).
    rewrite Hd in H9. by injection H9.
  - intros Hnot.
    assert (Hd : ns !! "learning_rate" = Some (AFloat (Float "0.001")))
      by train_default Hparsed "--learning-rate" type_float nargs_unset
           (AFloat (Float "0.001")).
    rewrite Hd in H10. by injection H10.
  - intros Hnot.
    assert (Hd : ns !! "warmup_ratio" = Some (AFloat (Float "0.1")))
      by train_default Hparsed "--warmup-ratio" type_float nargs_unset
           (AFloat (Float "0.1")).
    rewrite Hd in H11. by injection H11.
  - intros Hnot. apply Hnone.
    train_default Hparsed "--output-names" type_str nargs_plus ANone.
  - intros names Hnames. destruct (Hsome names Hnames) as [Hne Hns].
    split; [done|].
    destruct (supplies_dec "--output-names" items) as [Hsup|Hnot]; [done|].
    destruct Hns.
    train_default Hparsed "--output-names" type_str nargs_plus ANone.
Qed.

Lemma train_parser_reads_args_witness :
  ∃ ns args,
    parse_args (fun _ => None) (fun _ => None) Train.get_args_parser
      [Opt "--output-names" ["wind_speed"; "wave_height"]] = Parsed ns ∧
    Train.args_of_namespace ns = Some args ∧
    args = sample_args.
Proof.
  destruct (train_parser_reads_args (fun _ => None) (fun _ => None)
              [Opt "--output-names" ["wind_speed"; "wave_height"]]
              (<[ "output_names" := AList [AStr "wind_speed"; AStr "wave_height"] ]>
                 (defaults Train.get_args_parser)))
    as (args & Hargs & _); [reflexivity|].
  eexists _, args. split; [reflexivity|]. split; [exact Hargs|].
  vm_compute in Hargs. by injection Hargs as <-.
Defined.

(** X20.  The parser does not require --output-names, and [main] cannot
    do without: on the arguments of an accepted command line that does not
    supply --output-names no run completes, and nothing is ever written into
    output_names.txt.  When --checkpoint is not supplied either, the file is
    not opened; with a checkpoint, the run in which no call raises (the
    number of training samples being available and the batch size not zero)
    ends by opening output_names.txt for writing, and stops there with
    TypeError. *)
Theorem train_main_needs_output_names (int_of_str : string → option Z)
    (float_of_str : string → option pyfloat) (items : list item)
    (ns : gmap string argvalue) (args : Train.Args) (env : Env)
    (tr : list Call) (r : result unit) :
  ¬ supplies "--output-names" items →
  parse_args int_of_str float_of_str Train.get_args_parser items = Parsed ns →
  Train.args_of_namespace ns = Some args →
  run (Train.main args) env = (tr, r) →
  r ≠ Ok tt ∧
  (∀ path content, file_write path content ∉ tr) ∧
  (¬ supplies "--checkpoint" items → ∀ path, open_for_writing path ∉ tr) ∧
  (∀ ckpt N,
     Train.checkpoint args = Some ckpt →
     training_samples (env_world env) (Train.input args) = Ok N →
     Train.batch_size args ≠ 0%Z →
     ∃ before,
       run (Train.main args) (quiet env) =
       (before ++
        [ open_for_writing
            (os_path_join (output_directory (env_world env) args)
                          "output_names.txt") ],
        Raise TypeError)).
Proof.
  intros Hnot Hparsed Hargs Hrun.
  pose proof (train_args_fields _ _ Hargs)
    as (_ & _ & _ & _ & Hckpt_field & _ & _ & _ & _ & _ & _ & Hnames_field).
  assert (Hnames : Train.output_names args = None).
  { assert (Hd : ns !! "output_names" = Some ANone)
      by train_default Hparsed "--output-names" type_str nargs_plus ANone.
    unfold attr_opt_strs in Hnames_field. rewrite Hd in Hnames_field.
    by injection Hnames_field. }
  destruct (train_main_without_names_stops _ _ _ _ Hnames Hrun) as [Hr Hw].
  split_and!; [done|done| |].
  - clear Hnot. intros Hnot path Hin.
    assert (Hckpt : Train.checkpoint args = None).
    { assert (Hd : ns !! "checkpoint" = Some ANone)
        by train_default Hparsed "--checkpoint" type_unset nargs_unset ANone.
      unfold attr_opt_str in Hckpt_field. rewrite Hd in Hckpt_field.
      by injection Hckpt_field. }
    pose proof (train_main_fresh_without_names _ _ _ _ Hnames Hckpt Hrun)
      as Hcalls.
    by apply (Forall_elem_of _ _ Hcalls) in Hin.
  - intros ckpt N Hckpt HN Hbs.
    destruct (train_main_quiet_resume_without_names env args ckpt N
                Hnames Hckpt HN Hbs) as [before Hquiet].
    eexists (before ++ [_; _; _; _; _]).
    rewrite Hquiet, <- app_assoc. reflexivity.
Qed.

Lemma train_main_needs_output_names_witness :
  ∃ ns args,
    parse_args (fun _ => None) (fun _ => None) Train.get_args_parser
      [Opt "--model" ["resnet50"]] = Parsed ns ∧
    Train.args_of_namespace ns = Some args ∧
    (run (Train.main args) sample_env).2 = Raise TypeError ∧
    (run (Train.main args) sample_env).2 ≠ Ok tt ∧
    ∀ path, open_for_writing path ∉ (run (Train.main args) sample_env).1.
Proof.
  exists (<[ "model" := AStr "resnet50" ]> (defaults Train.get_args_parser)).
  eexists. split; [reflexivity|]. split; [reflexivity|].
  split; [by vm_compute|].
  match goal with
  | |- (run (Train.main ?a) _).2 ≠ _ ∧ _ =>
      destruct (train_main_needs_output_names (fun _ => None) (fun _ => None)
                  [Opt "--model" ["resnet50"]]
                  (<[ "model" := AStr "resnet50" ]>
                     (defaults Train.get_args_parser))
                  a sample_env
                  (run (Train.main a) sample_env).1
                  (run (Train.main a) sample_env).2)
        as (Hr & _ & Hopen & _)
  end.
  - intros [args Hin]. pick_call Hin.
  - reflexivity.
  - reflexivity.
  - vm_compute. reflexivity.
  - split; [exact Hr|]. apply Hopen.
    intros [args Hin]. pick_call Hin.
Defined.

(** The same for a command line that resumes from a checkpoint. *)
Example train_main_needs_output_names_resumed :
  ∃ ns args,
    parse_args (fun _ => None) (fun _ => None) Train.get_args_parser
      [Opt "--checkpoint" ["runs/checkpoint-500"]] = Parsed ns ∧
    Train.args_of_namespace ns = Some args ∧
    args = sample_resume_args_without_names.
Proof.
  eexists _, _. split; [reflexivity|]. split; reflexivity.
Qed.

(** ** test_beaufort.py: the command line *)

(** The attributes of the namespace, as the arguments hold them. *)
Lemma test_args_fields (ns : gmap string argvalue) (args : TestBeaufort.Args) :
  TestBeaufort.args_of_namespace ns = Some args →
  ns !! "model_dir" = Some (AStr (TestBeaufort.model_dir args)) ∧
  ns !! "dataset" = Some (AStr (TestBeaufort.dataset args)) ∧
  ns !! "output" = Some (AStr (TestBeaufort.output args)) ∧
  ns !! "split" = Some (AStr (TestBeaufort.split args)) ∧
  ns !! "batch_size" = Some (AInt (TestBeaufort.batch_size args)) ∧
  ns !! "log" = Some (AStr (TestBeaufort.log args)).
Proof.
  unfold TestBeaufort.args_of_namespace, attr_str, attr_int.
  destruct (ns !! "model_dir") as [[]|]; cbn; try done.
  destruct (ns !! "dataset") as [[]|]; cbn; try done.
  destruct (ns !! "output") as [[]|]; cbn; try done.
  destruct (ns !! "split") as [[]|]; cbn; try done.
  destruct (ns !! "batch_size") as [[]|]; cbn; try done.
  destruct (ns !! "log") as [[]|]; cbn; try done.
  by intros [= <-].
Qed.

Lemma test_parser_required (int_of_str : string → option Z)
    (float_of_str : string → option pyfloat) (items : list item)
    (ns : gmap string argvalue) (a : Action) :
  parse_args int_of_str float_of_str TestBeaufort.get_args_parser items
  = Parsed ns →
  a ∈ actions TestBeaufort.get_args_parser → arg_required a = true →
  supplies (arg_flag a) items ∧
  ∃ v, ns !! dest (arg_flag a) = Some v ∧ stored_value a v.
Proof.
  intros Hparsed Ha Hreq. split.
  - destruct (parse_loop_required _ _ _ _ _ _ a Hparsed Ha Hreq)
      as [Hseen|Hsup]; [by apply elem_of_nil in Hseen|done].
  - eapply (parse_loop_required_stored _ _ _ test_parser_dests);
      [|exact Hparsed|done..].
    by intros b _ ?%elem_of_nil.
Qed.

(** An accepted command line of the test script supplies the three required
    options, and its namespace can be read as arguments. *)
Lemma test_parser_reads_args (int_of_str : string → option Z)
    (float_of_str : string → option pyfloat) (items : list item)
    (ns : gmap string argvalue) :
  parse_args int_of_str float_of_str TestBeaufort.get_args_parser items
  = Parsed ns →
  supplies "--model-dir" items ∧ supplies "--dataset" items ∧
  supplies "--output" items ∧
  ∃ args, TestBeaufort.args_of_namespace ns = Some args.
Proof.
  intros Hparsed.
  pose proof (parse_args_well_typed_test _ _ _ _ Hparsed) as Hwt.
  destruct (test_parser_required _ _ _ _
              {| arg_flag := "--model-dir"; arg_type := type_unset;
                 arg_nargs := nargs_unset; arg_default := ANone;
                 arg_required := true |} Hparsed)
    as [Hsup1 (v1 & Hv1 & Hs1)]; [vm_compute; find_call|done|].
  destruct (test_parser_required _ _ _ _
              {| arg_flag := "--dataset"; arg_type := type_unset;
                 arg_nargs := nargs_unset; arg_default := ANone;
                 arg_required := true |} Hparsed)
    as [Hsup2 (v2 & Hv2 & Hs2)]; [vm_compute; find_call|done|].
  destruct (test_parser_required _ _ _ _
              {| arg_flag := "--output"; arg_type := type_unset;
                 arg_nargs := nargs_unset; arg_default := ANone;
                 arg_required := true |} Hparsed)
    as [Hsup3 (v3 & Hv3 & Hs3)]; [vm_compute; find_call|done|].
  destruct (test_args_of_well_typed ns) as [args Hargs]; [|done|].
  { intros name Hin.
    repeat (apply elem_of_cons in Hin as [->|Hin]);
      [| | |by apply elem_of_nil in Hin].
    - destruct v1; try done. by eexists.
    - destruct v2; try done. by eexists.
    - destruct v3; try done. by eexists. }
  split_and!; try done. by exists args.
Qed.

(** X21.  When the test script gets to run [main], the command line was
    accepted and supplied --model-dir, --dataset and --output; [main] runs on
    the arguments read from the namespace; the split is "test" and the batch
    size 32 unless their options are supplied. *)
Theorem test_script_runs_main (int_of_str : string → option Z)
    (float_of_str : string → option pyfloat) (items : list item) (env : Env)
    (tr : list Call) (r : result unit) :
  TestBeaufort.script int_of_str float_of_str items env = inr (tr, r) →
  ∃ ns args,
    parse_args int_of_str float_of_str TestBeaufort.get_args_parser items
    = Parsed ns ∧
    TestBeaufort.args_of_namespace ns = Some args ∧
    run (TestBeaufort.main args) env = (tr, r) ∧
    supplies "--model-dir" items ∧ supplies "--dataset" items ∧
    supplies "--output" items ∧
    (¬ supplies "--split" items → TestBeaufort.split args = "test") ∧
    (¬ supplies "--batch-size" items → TestBeaufort.batch_size args = 32%Z).
Proof.
  unfold TestBeaufort.script.
  destruct (parse_args _ _ _ items) as [ns| |] eqn:Hparsed; [|done..].
  destruct (test_parser_reads_args _ _ _ _ Hparsed)
    as (Hsup1 & Hsup2 & Hsup3 & args & Hargs).
  rewrite Hargs. intros [= Hrun]. exists ns, args.
  pose proof (test_args_fields _ _ Hargs) as (_ & _ & _ & Hsplit & Hbs & _).
  split_and!; try done.
  - intros Hnot.
    assert (Hdef : ns !! "split" = Some (AStr "test")).
    { apply (parse_args_default_value int_of_str float_of_str
               TestBeaufort.get_args_parser items ns
               {| arg_flag := "--split"; arg_type := type_unset;
                  arg_nargs := nargs_unset; arg_default := AStr "test";
                  arg_required := false |});
        [by right|done|vm_compute; find_call|done]. }
    rewrite Hdef in Hsplit. by injection Hsplit.
  - intros Hnot.
    assert (Hdef : ns !! "batch_size" = Some (AInt 32)).
    { apply (parse_args_default_value int_of_str float_of_str
               TestBeaufort.get_args_parser items ns
               {| arg_flag := "--batch-size"; arg_type := type_int;
                  arg_nargs := nargs_unset; arg_default := AInt 32;
                  arg_required := false |});
        [by right|done|vm_compute; find_call|done]. }
    rewrite Hdef in Hbs. by injection Hbs.
Qed.

Lemma test_script_runs_main_witness :
  ∃ ns args,
    parse_args (fun _ => None) (fun _ => None) TestBeaufort.get_args_parser
      [ Opt "--model-dir" ["models/beaufort"]; Opt "--dataset" ["data"];
        Opt "--output" ["results"] ]
    = Parsed ns ∧
    TestBeaufort.args_of_namespace ns = Some args ∧
    run (TestBeaufort.main args) sample_env
    = run (TestBeaufort.main sample_test_args) sample_env ∧
    TestBeaufort.split args = "test" ∧ TestBeaufort.batch_size args = 32%Z.
Proof.
  destruct (test_script_runs_main (fun _ => None) (fun _ => None)
              [ Opt "--model-dir" ["models/beaufort"]; Opt "--dataset" ["data"];
                Opt "--output" ["results"] ] sample_env
              (run (TestBeaufort.main sample_test_args) sample_env).1
              (run (TestBeaufort.main sample_test_args) sample_env).2)
    as (ns & args & Hparsed & Hargs & Hrun & _ & _ & _ & Hsplit & Hbs).
  - vm_compute. reflexivity.
  - exists ns, args. split; [exact Hparsed|]. split; [exact Hargs|].
    split; [rewrite Hrun; by destruct (run _ _)|].
    split; [apply Hsplit|apply Hbs]; intros [a Hin]; pick_call Hin.
Defined.

Lemma test_args_agree_off_log (ns1 ns2 : gmap string argvalue)
    (a1 a2 : TestBeaufort.Args) :
  (∀ k, k ≠ "log" → ns1 !! k = ns2 !! k) →
  TestBeaufort.args_of_namespace ns1 = Some a1 →
  TestBeaufort.args_of_namespace ns2 = Some a2 →
  a1 = with_log a2 (TestBeaufort.log a1).
Proof.
  intros Hns (H1 & H2 & H3 & H4 & H5 & _)%test_args_fields
             (G1 & G2 & G3 & G4 & G5 & _)%test_args_fields.
  rewrite (Hns "model_dir") in H1 by done.
  rewrite (Hns "dataset") in H2 by done.
  rewrite (Hns "output") in H3 by done.
  rewrite (Hns "split") in H4 by done.
  rewrite (Hns "batch_size") in H5 by done.
  destruct a1, a2. cbn in *. unfold with_log. cbn. by simplify_eq.
Qed.

Lemma test_parser_log_values (int_of_str : string → option Z)
    (float_of_str : string → option pyfloat) (before after : list item)
    (v1 v2 : string) (st : state) :
  outcomes_agree_off "log"
    (parse_loop int_of_str float_of_str TestBeaufort.get_args_parser st
       (before ++ Opt "--log" [v1] :: after))
    (parse_loop int_of_str float_of_str TestBeaufort.get_args_parser st
       (before ++ Opt "--log" [v2] :: after)).
Proof.
  revert st. induction before as [|it rest IH]; intros st.
  - cbn [app parse_loop].
    change (take_item int_of_str float_of_str TestBeaufort.get_args_parser st
              (Opt "--log" [v1]))
      with (inr (A := outcome)
              {| namespace := <[ "log" := AStr v1 ]> (namespace st);
                 seen := "--log" :: seen st;
                 extras := extras st ++ [] |}).
    change (take_item int_of_str float_of_str TestBeaufort.get_args_parser st
              (Opt "--log" [v2]))
      with (inr (A := outcome)
              {| namespace := <[ "log" := AStr v2 ]> (namespace st);
                 seen := "--log" :: seen st;
                 extras := extras st ++ [] |}).
    apply parse_loop_agree_off. split_and!; [done..|]. cbn.
    intros k Hk. by rewrite !lookup_insert_ne.
  - cbn [app parse_loop].
    destruct (take_item _ _ _ st it) as [out|st'].
    + apply outcomes_agree_off_refl.
    + apply IH.
Qed.

(** X22.  The test script declares --log and never reads it: on two
    command lines that differ only in the value given to --log the script
    does the same, and [main] runs the same whatever the log argument. *)
Theorem test_script_log_unused (int_of_str : string → option Z)
    (float_of_str : string → option pyfloat) (before after : list item)
    (v1 v2 : string) (env : Env) (args : TestBeaufort.Args) (level : string) :
  TestBeaufort.script int_of_str float_of_str
    (before ++ Opt "--log" [v1] :: after) env
  = TestBeaufort.script int_of_str float_of_str
      (before ++ Opt "--log" [v2] :: after) env ∧
  run (TestBeaufort.main (with_log args level)) env
  = run (TestBeaufort.main args) env.
Proof.
  split; [|reflexivity].
  unfold TestBeaufort.script at 1 2.
  pose proof (test_parser_log_values int_of_str float_of_str before after
                v1 v2
                {| namespace := defaults TestBeaufort.get_args_parser;
                   seen := []; extras := [] |}) as Hagree.
  fold (parse_args int_of_str float_of_str TestBeaufort.get_args_parser
          (before ++ Opt "--log" [v1] :: after)) in Hagree.
  fold (parse_args int_of_str float_of_str TestBeaufort.get_args_parser
          (before ++ Opt "--log" [v2] :: after)) in Hagree.
  destruct (parse_args _ _ _ (before ++ Opt "--log" [v1] :: after))
    as [ns1| |] eqn:Hp1;
  destruct (parse_args _ _ _ (before ++ Opt "--log" [v2] :: after))
    as [ns2| |] eqn:Hp2; try done; cbn in Hagree; [|by rewrite Hagree].
  destruct (test_parser_reads_args _ _ _ _ Hp1) as (_ & _ & _ & a1 & Ha1).
  destruct (test_parser_reads_args _ _ _ _ Hp2) as (_ & _ & _ & a2 & Ha2).
  rewrite Ha1, Ha2.
  by rewrite (test_args_agree_off_log ns1 ns2 a1 a2 Hagree Ha1 Ha2).
Qed.

(** ** test_beaufort.py: the loop over the batches *)

Lemma calls_quiet (cs : list Call) (env : Env) (tr : list Call) :
  TestBeaufort.calls cs (quiet env) tr = (rev cs ++ tr, Ok tt).
Proof.
  revert tr. induction cs as [|c cs IH]; intros tr; cbn; [done|].
  unfold call. rewrite step_call_for. cbn [quiet env_raises].
  rewrite IH. by rewrite <- app_assoc.
Qed.

Lemma batch_getitem_labels (d : device) (i : nat) (columns : list string) :
  TestBeaufort.batch_getitem
    (map (fun k => (k, {| tensor_batch := i; tensor_column := k;
                          tensor_device := Some d |})) columns) "labels"
  = if bool_decide ("labels" ∈ columns)
    then Ok {| tensor_batch := i; tensor_column := "labels";
               tensor_device := Some d |}
    else Raise (KeyError "labels").
Proof.
  unfold TestBeaufort.batch_getitem.
  induction columns as [|k columns IH]; cbn; [done|].
  destruct (decide (k = "labels")) as [->|Hk].
  - rewrite (bool_decide_eq_true_2 ("labels" = "labels")) by done.
    rewrite bool_decide_eq_true_2; [done|by left].
  - rewrite (bool_decide_eq_false_2 (k = "labels")) by done. rewrite IH.
    destruct (decide ("labels" ∈ columns)) as [Hin|Hin].
    + rewrite !bool_decide_eq_true_2; [done|by right|done].
    + rewrite !bool_decide_eq_false_2; [done| |done].
      intros [?|?]%elem_of_cons; by subst.
Qed.

(** The loop on batches that all have labels. *)
Lemma test_loop_quiet (m : Model) (d : device) (batches : list (list string))
    (i : nat) (env : Env) (tr : list Call) :
  Forall (fun columns => "labels" ∈ columns) batches →
  TestBeaufort.test_loop m d i batches (quiet env) tr
  = (rev (loop_calls m d i batches) ++ tr, Ok tt).
Proof.
  intros Hall. revert i tr.
  induction Hall as [|columns rest Hlabels _ IH]; intros i tr; [done|].
  cbn [TestBeaufort.test_loop loop_calls].
  rewrite step_bind, calls_quiet. cbv beta iota delta [Ok]. unfold call.
  rewrite !step_call_for. cbn [quiet env_raises].
  rewrite step_lift, batch_getitem_labels, bool_decide_eq_true_2 by done.
    cbv beta iota delta [Ok].
  rewrite step_call_for. cbn [quiet env_raises].
  rewrite IH. f_equal. unfold batch_calls, forward_calls.
  rewrite !rev_app_distr, map_map. cbn [rev app]. by rewrite <- ?app_assoc.
Qed.

(** The loop up to the first batch without labels. *)
Lemma test_loop_quiet_unlabelled (m : Model) (d : device)
    (labelled rest : list (list string)) (columns : list string)
    (i : nat) (env : Env) (tr : list Call) :
  Forall (fun columns => "labels" ∈ columns) labelled →
  "labels" ∉ columns →
  TestBeaufort.test_loop m d i (labelled ++ columns :: rest) (quiet env) tr
  = (rev (loop_calls m d i labelled ++
          forward_calls m d (i + length labelled) columns) ++ tr,
     Raise (KeyError "labels")).
Proof.
  intros Hall Hnot. revert i tr.
  induction Hall as [|first labelled Hlabels _ IH]; intros i tr.
  - cbn [app TestBeaufort.test_loop loop_calls length]. rewrite Nat.add_0_r.
    rewrite step_bind, calls_quiet. cbv beta iota delta [Ok]. unfold call.
    rewrite !step_call_for. cbn [quiet env_raises].
    rewrite step_lift, batch_getitem_labels, bool_decide_eq_false_2 by done.
    cbv beta iota delta [Raise].
    f_equal. unfold forward_calls.
    rewrite !rev_app_distr, map_map. cbn [rev app]. by rewrite <- ?app_assoc.
  - cbn [app TestBeaufort.test_loop loop_calls length].
    rewrite step_bind, calls_quiet. cbv beta iota delta [Ok]. unfold call.
    rewrite !step_call_for. cbn [quiet env_raises].
    rewrite step_lift, batch_getitem_labels, bool_decide_eq_true_2 by done.
    cbv beta iota delta [Ok].
    rewrite step_call_for. cbn [quiet env_raises].
    rewrite IH. f_equal.
    replace (S i + length labelled)%nat with (i + S (length labelled))%nat by lia.
    unfold batch_calls, forward_calls at 2.
    rewrite !rev_app_distr, map_map. cbn [rev app].
    rewrite <- ?app_assoc. cbn [app]. by rewrite <- ?app_assoc.
Qed.

(** One step of a run in which no call raises, in the goal. *)
Ltac goal_step :=
  cbv beta iota zeta;
  first
    [ rewrite step_call_for
    | rewrite step_record
    | rewrite step_read
    | rewrite step_ret
    | rewrite step_lift
    | rewrite step_assoc ];
  cbn [env_raises env_world quiet]; cbv beta iota zeta.

(** The run of [main] up to its loop, when no call raises. *)
Lemma test_main_quiet_setup (env : Env) (args : TestBeaufort.Args) :
  run (TestBeaufort.main args) (quiet env) =
  let w := env_world env in
  let m := model_to (torch_load_model
                       (os_path_join (TestBeaufort.model_dir args) "model.pt"))
                    (select_device w) in
  let '(tr, r) :=
    (TestBeaufort.test_loop m (select_device w) 0 (world_batches w) ≫=
     fun _ =>
       log_info "Test duration: %s" [LObject "duration"];;
       call accuracy_compute;;
       log_info "Accuracy: %s" [LObject "accuracy"])
      (quiet env) (rev (test_setup_calls w args)) in
  (rev tr, r).
Proof.
  unfold run, TestBeaufort.main, call, log_info, query_cuda, query_mps,
    test_setup_calls, select_device.
  repeat goal_step.
  destruct (world_cuda (env_world env)); repeat goal_step; [reflexivity|].
  destruct (world_mps (env_world env)); repeat goal_step; reflexivity.
Qed.


Lemma rev_rev_app {A} (l k : list A) : rev (rev l ++ rev k) = k ++ l.
Proof. by rewrite rev_app_distr, !rev_involutive. Qed.

Lemma test_main_quiet_complete (env : Env) (args : TestBeaufort.Args) :
  Forall (fun columns => "labels" ∈ columns) (world_batches (env_world env)) →
  run (TestBeaufort.main args) (quiet env) =
  (test_setup_calls (env_world env) args ++
   loop_calls
     (model_to (torch_load_model
                  (os_path_join (TestBeaufort.model_dir args) "model.pt"))
               (select_device (env_world env)))
     (select_device (env_world env)) 0 (world_batches (env_world env)) ++
   [ logger_info "Test duration: %s" [LObject "duration"];
     accuracy_compute;
     logger_info "Accuracy: %s" [LObject "accuracy"] ],
   Ok tt).
Proof.
  intros Hall. rewrite test_main_quiet_setup. cbv zeta.
  rewrite step_bind, test_loop_quiet by done. cbv beta iota delta [Ok].
  unfold log_info, call. repeat goal_step.
  f_equal. cbn [rev]. rewrite !rev_app_distr, !rev_involutive.
  cbn [rev app]. by rewrite <- ?app_assoc.
Qed.

Lemma test_main_quiet_unlabelled (env : Env) (args : TestBeaufort.Args)
    (labelled rest : list (list string)) (columns : list string) :
  world_batches (env_world env) = labelled ++ columns :: rest →
  Forall (fun columns => "labels" ∈ columns) labelled →
  "labels" ∉ columns →
  run (TestBeaufort.main args) (quiet env) =
  (test_setup_calls (env_world env) args ++
   loop_calls
     (model_to (torch_load_model
                  (os_path_join (TestBeaufort.model_dir args) "model.pt"))
               (select_device (env_world env)))
     (select_device (env_world env)) 0 labelled ++
   forward_calls
     (model_to (torch_load_model
                  (os_path_join (TestBeaufort.model_dir args) "model.pt"))
               (select_device (env_world env)))
     (select_device (env_world env)) (length labelled) columns,
   Raise (KeyError "labels")).
Proof.
  intros Hbatches Hall Hnot. rewrite test_main_quiet_setup. cbv zeta.
  rewrite Hbatches, step_bind, test_loop_quiet_unlabelled by done.
  cbv beta iota delta [Raise].
  f_equal. rewrite !rev_app_distr, !rev_involutive.
  by rewrite <- ?app_assoc.
Qed.

Lemma loop_calls_no_compute (m : Model) (d : device)
    (batches : list (list string)) (i : nat) :
  accuracy_compute ∉ loop_calls m d i batches.
Proof.
  revert i. induction batches as [|columns rest IH]; intros i; cbn.
  - by intros ?%elem_of_nil.
  - unfold batch_calls, forward_calls. rewrite !elem_of_app.
    intros [[[Hin|Hin]|Hin]|Hin].
    + by apply list_elem_of_fmap in Hin as (k & ? & _).
    + pick_call Hin.
    + pick_call Hin.
    + by apply IH in Hin.
Qed.

(** X23.  When every batch the loader yields has a "labels" column, the
    run of the test script in which no call raises completes, and its calls
    are exactly: the setup; for each batch in order, every column moved to
    the device, the forward pass on the moved columns, the argmax, the
    accuracy updated with the batch's labels on the device; the duration
    logged, the accuracy computed once, the accuracy logged.  Any run makes
    an initial part of these calls, and all of them when it completes. *)
Theorem test_main_complete_run (env : Env) (args : TestBeaufort.Args)
    (tr : list Call) (r : result unit) :
  Forall (fun columns => "labels" ∈ columns) (world_batches (env_world env)) →
  run (TestBeaufort.main args) env = (tr, r) →
  let w := env_world env in
  let dev := select_device w in
  let m := model_to (torch_load_model
                       (os_path_join (TestBeaufort.model_dir args) "model.pt"))
                    dev in
  let expected :=
    test_setup_calls w args ++ loop_calls m dev 0 (world_batches w) ++
    [ logger_info "Test duration: %s" [LObject "duration"];
      accuracy_compute;
      logger_info "Accuracy: %s" [LObject "accuracy"] ] in
  run (TestBeaufort.main args) (quiet env) = (expected, Ok tt) ∧
  tr `prefix_of` expected ∧
  (r = Ok tt ∧ tr = expected ∨ r = Raise LibraryError).
Proof.
  intros Hall Hrun. cbv zeta.
  pose proof (test_main_quiet_complete env args Hall) as Hquiet.
  split; [done|].
  destruct (orderly_run _ _ _ _ (test_main_orderly args) Hrun)
    as [Hq|[-> Hprefix]].
  - rewrite Hquiet in Hq. injection Hq as <- <-. split; [done|by left].
  - rewrite Hquiet in Hprefix. split; [done|by right].
Qed.

Lemma test_main_complete_run_witness :
  let w := sample_world in
  let dev := select_device w in
  let m := model_to (torch_load_model
                       (os_path_join (TestBeaufort.model_dir sample_test_args)
                                     "model.pt"))
                    dev in
  let expected :=
    test_setup_calls w sample_test_args ++
    loop_calls m dev 0 (world_batches w) ++
    [ logger_info "Test duration: %s" [LObject "duration"];
      accuracy_compute;
      logger_info "Accuracy: %s" [LObject "accuracy"] ] in
  run (TestBeaufort.main sample_test_args) (quiet sample_env) = (expected, Ok tt) ∧
  (run (TestBeaufort.main sample_test_args) sample_env).1 `prefix_of` expected ∧
  ((run (TestBeaufort.main sample_test_args) sample_env).2 = Ok tt ∧
   (run (TestBeaufort.main sample_test_args) sample_env).1 = expected ∨
   (run (TestBeaufort.main sample_test_args) sample_env).2 = Raise LibraryError).
Proof.
  apply (test_main_complete_run sample_env sample_test_args
           (run (TestBeaufort.main sample_test_args) sample_env).1
           (run (TestBeaufort.main sample_test_args) sample_env).2).
  - repeat constructor.
  - vm_compute. reflexivity.
Defined.

(** X24.  When some batch has no "labels" column, the run of the test
    script in which no call raises stops at the first such batch, after its
    forward pass and argmax, with KeyError "labels"; the batches before it
    were evaluated in full.  No run computes the accuracy. *)
Theorem test_main_unlabelled_batch (env : Env) (args : TestBeaufort.Args)
    (labelled rest : list (list string)) (columns : list string)
    (tr : list Call) (r : result unit) :
  world_batches (env_world env) = labelled ++ columns :: rest →
  Forall (fun columns => "labels" ∈ columns) labelled →
  "labels" ∉ columns →
  run (TestBeaufort.main args) env = (tr, r) →
  let w := env_world env in
  let dev := select_device w in
  let m := model_to (torch_load_model
                       (os_path_join (TestBeaufort.model_dir args) "model.pt"))
                    dev in
  run (TestBeaufort.main args) (quiet env) =
    (test_setup_calls w args ++ loop_calls m dev 0 labelled ++
     forward_calls m dev (length labelled) columns,
     Raise (KeyError "labels")) ∧
  (r = Raise (KeyError "labels") ∨ r = Raise LibraryError) ∧
  accuracy_compute ∉ tr.
Proof.
  intros Hbatches Hall Hnot Hrun. cbv zeta.
  pose proof (test_main_quiet_unlabelled env args _ _ _ Hbatches Hall Hnot)
    as Hquiet.
  split; [done|].
  assert (Hno : accuracy_compute ∉
    test_setup_calls (env_world env) args ++
    loop_calls
      (model_to (torch_load_model
                   (os_path_join (TestBeaufort.model_dir args) "model.pt"))
                (select_device (env_world env)))
      (select_device (env_world env)) 0 labelled ++
    forward_calls
      (model_to (torch_load_model
                   (os_path_join (TestBeaufort.model_dir args) "model.pt"))
                (select_device (env_world env)))
      (select_device (env_world env)) (length labelled) columns).
  { rewrite !elem_of_app. intros [Hin|[Hin|Hin]].
    - unfold test_setup_calls in Hin. cbv zeta in Hin.
      rewrite !elem_of_app in Hin. destruct Hin as [Hin|[Hin|Hin]].
      + pick_call Hin.
      + destruct (world_cuda _); pick_call Hin.
      + pick_call Hin.
    - by apply loop_calls_no_compute in Hin.
    - unfold forward_calls in Hin. apply elem_of_app in Hin as [Hin|Hin].
      + by apply list_elem_of_fmap in Hin as (k & ? & _).
      + pick_call Hin. }
  destruct (orderly_run _ _ _ _ (test_main_orderly args) Hrun)
    as [Hq|[-> Hprefix]].
  - rewrite Hquiet in Hq. injection Hq as <- <-. split; [by left|done].
  - rewrite Hquiet in Hprefix. split; [by right|].
    intros Hin. apply Hno. by eapply elem_of_prefix.
Qed.

Lemma test_main_unlabelled_batch_witness :
  (run (TestBeaufort.main sample_test_args)
     {| env_world := sample_world_unlabelled;
        env_raises := fun _ _ => false |}).2 = Raise (KeyError "labels") ∧
  accuracy_compute ∉
    (run (TestBeaufort.main sample_test_args)
       {| env_world := sample_world_unlabelled;
          env_raises := fun _ _ => false |}).1.
Proof.
  split; [by vm_compute|].
  apply (test_main_unlabelled_batch
           {| env_world := sample_world_unlabelled;
              env_raises := fun _ _ => false |}
           sample_test_args [["labels"; "pixel_values"]] [["labels"]]
           ["pixel_values"] _
           (run (TestBeaufort.main sample_test_args)
              {| env_world := sample_world_unlabelled;
                 env_raises := fun _ _ => false |}).2).
  - reflexivity.
  - repeat constructor.
  - intros Hin. pick_call Hin.
  - vm_compute. reflexivity.
Defined.

(** The sample run with an unlabelled second batch: one accuracy update,
    two forward passes. *)
Example test_main_unlabelled_run :
  omap (fun c => match c with
                 | model_forward _ _ => Some "forward"
                 | accuracy_add_batch _ _ => Some "add_batch"
                 | accuracy_compute => Some "compute"
                 | _ => None
                 end)
       (run (TestBeaufort.main sample_test_args)
          {| env_world := sample_world_unlabelled;
             env_raises := fun _ _ => false |}).1
  = ["forward"; "add_batch"; "forward"].
Proof. vm_compute. reflexivity. Qed.
